(** * DTwinBot: the AAS agent of [agent.py]

    A shallow embedding of [class AASAgent]: the in-memory document (one
    shell, a dict of submodels, a dict of concept descriptions), its
    handlers, and the dispatcher [execute_function].

    - Python values, [str], [int], [float], [dict] are modelled in the first
      part.  Strings are byte strings (the UTF-8 form of a Python string).
      [str.lower()] is the ASCII one: for the lookups that the source
      performs after [lower()] (the type table and the truthy tuple hold
      ASCII words without the letter k) this gives the same answer as
      Python's Unicode [lower()].  [int()] reads an ASCII literal as
      Python does; a literal with other characters, or a very long one, is
      left to the host.
    - Floating point is not computed here: the float operations are the
      fields of the class [PyFloat].
    - Files are opened through the class [FileSystem], which says which
      file a name denotes and which names [open] refuses.
    - The BaSyx SDK is not part of the repository: the constraint checks of
      its constructors and its JSON adapter are the fields of the class
      [BaSyx]; its containers ([DictObjectStore], [NamespaceSet]) are
      modelled directly.
    - Handlers run in a state-and-exception monad over the agent and the
      files on disk; a [try]/[except Exception] of the source is [try_]. *)

From Stdlib Require Import List String Ascii ZArith Bool Lia DecimalString.
From Stdlib Require Import Permutation.
From Ceres Require Import Ceres.
Import ListNotations.
Open Scope string_scope.
Open Scope Z_scope.

Set Implicit Arguments.

(* ================================================================== *)
(** * Python: exceptions, values, builtins *)

(** An exception: its class, and the text [str(e)] renders. *)
Inductive exn : Type :=
| ValueError (msg : string)
| TypeError (msg : string)
| KeyError (msg : string)
| OverflowError (msg : string)
| FileNotFoundError (msg : string)
| OSError (msg : string)
| LibraryError (msg : string).

Definition str_exn (e : exn) : string :=
  match e with
  | ValueError m | TypeError m | KeyError m
  | OverflowError m | FileNotFoundError m | OSError m | LibraryError m => m
  end.

(** Outcome of an expression that may raise. *)
Inductive result (A : Type) : Type :=
| Return (a : A)
| Raise (e : exn).
Arguments Return {A} a.
Arguments Raise {A} e.

(** What is left to the host interpreter: Python floats, and [int()] of
    the strings whose reading depends on the interpreter. *)
Class PyFloat : Type := {
  pyfloat : Type;
  (** [int(s)] for a string with a character outside ASCII (a decimal digit
      or a blank of any script counts, by the interpreter's Unicode tables)
      or of more than 4300 characters (the interpreter's limit on the
      digits of a literal). *)
  int_of_text : string -> result Z;
  (** [float(s)] for a string; [None] when [s] is no float literal. *)
  float_of_str : string -> option pyfloat;
  (** [float(n)] for an integer; [None] when it overflows. *)
  float_of_int : Z -> option pyfloat;
  (** [int(x)]: truncation; [None] for nan and the infinities. *)
  int_of_float : pyfloat -> option Z;
  (** [str(x)]. *)
  str_of_float : pyfloat -> string
}.

Module Py.
Section Values.
Context {F : PyFloat}.

(** The values a decoded JSON argument can be.  An array or an object is
    kept as [VJson] with the text [str()] gives for it. *)
Inductive pyval : Type :=
| VNone
| VBool (b : bool)
| VInt (z : Z)
| VFloat (x : pyfloat)
| VStr (s : string)
| VJson (text : string).

Definition str_of_Z (z : Z) : string := NilZero.string_of_int (Z.to_int z).
Definition str_of_nat (n : nat) : string := str_of_Z (Z.of_nat n).

(** [str(v)] *)
Definition str (v : pyval) : string :=
  match v with
  | VNone => "None"
  | VBool true => "True"
  | VBool false => "False"
  | VInt z => str_of_Z z
  | VFloat x => str_of_float x
  | VStr s => s
  | VJson t => t
  end.

(** [str(v)] for a value that may be [None] (an f-string field). *)
Definition str_opt (v : option pyval) : string :=
  match v with
  | Some v => str v
  | None => "None"
  end.

(** [type(v).__name__]; the text of a [VJson] starts with the bracket of a
    list or the brace of a dict. *)
Definition type_of (v : pyval) : string :=
  match v with
  | VNone => "NoneType"
  | VBool _ => "bool"
  | VInt _ => "int"
  | VFloat _ => "float"
  | VStr _ => "str"
  | VJson (String "["%char _) => "list"
  | VJson _ => "dict"
  end.

Definition hex_digit (n : nat) : ascii :=
  nth n (list_ascii_of_string "0123456789abcdef") "0"%char.

(** A character in [repr(s)], between quotes of the kind [quote]. *)
Definition escaped (quote c : ascii) : string :=
  let n := nat_of_ascii c in
  let backslash := "092"%char in
  if (Ascii.eqb c quote || Ascii.eqb c backslash)%bool
  then String backslash (String c EmptyString)
  else if (n =? 9)%nat then String backslash "t"
  else if (n =? 10)%nat then String backslash "n"
  else if (n =? 13)%nat then String backslash "r"
  else if ((n <? 32) || (n =? 127))%nat
  then String backslash
         (String "x" (String (hex_digit (n / 16))
                        (String (hex_digit (n mod 16)) EmptyString)))
  else String c EmptyString.

(** [repr(s)]: double quotes when [s] holds a single quote and no double
    one; the characters outside ASCII are taken to be printable. *)
Definition repr (s : string) : string :=
  let l := list_ascii_of_string s in
  let quote :=
    if (existsb (Ascii.eqb "'"%char) l
        && negb (existsb (Ascii.eqb "034"%char) l))%bool
    then "034"%char else "'"%char in
  String quote (String.concat "" (map (escaped quote) l))
  ++ String quote EmptyString.

Definition lower_ascii (c : ascii) : ascii :=
  let n := nat_of_ascii c in
  if ((65 <=? n) && (n <=? 90))%nat then ascii_of_nat (n + 32) else c.

(** [s.lower()] *)
Fixpoint lower (s : string) : string :=
  match s with
  | EmptyString => EmptyString
  | String c r => String (lower_ascii c) (lower r)
  end.

(** [s.endswith(suffix)] *)
Definition endswith (s suffix : string) : bool :=
  let n := String.length s in
  let m := String.length suffix in
  ((m <=? n)%nat && String.eqb (substring (n - m) m s) suffix)%bool.

(** [x in t] for a tuple of strings. *)
Definition str_in (x : string) (t : list string) : bool :=
  existsb (String.eqb x) t.

Definition is_digit (c : ascii) : bool :=
  let n := nat_of_ascii c in ((48 <=? n) && (n <=? 57))%nat.

(** The blanks [int()] skips around an ASCII literal: tab to carriage
    return, and the space. *)
Definition is_space (c : ascii) : bool :=
  let n := nat_of_ascii c in
  (((9 <=? n) && (n <=? 13)) || (n =? 32))%nat.

Definition is_ascii (s : string) : bool :=
  forallb (fun c => (nat_of_ascii c <? 128)%nat) (list_ascii_of_string s).

Definition digit_val (c : ascii) : Z := Z.of_nat (nat_of_ascii c - 48).

Fixpoint lstrip (l : list ascii) : list ascii :=
  match l with
  | c :: r => if is_space c then lstrip r else l
  | [] => []
  end.

Definition strip (l : list ascii) : list ascii :=
  rev (lstrip (rev (lstrip l))).

(** Decimal digits, a single underscore allowed between two digits. *)
Fixpoint digits (acc : Z) (after_digit : bool) (l : list ascii) : option Z :=
  match l with
  | [] => if after_digit then Some acc else None
  | c :: r =>
      if is_digit c then digits (10 * acc + digit_val c) true r
      else if (Ascii.eqb c "_" && after_digit)%bool then digits acc false r
      else None
  end.

(** An ASCII literal: surrounding blanks, an optional sign, digits. *)
Definition int_of_ascii (s : string) : option Z :=
  match strip (list_ascii_of_string s) with
  | "+"%char :: r => digits 0 false r
  | "-"%char :: r => option_map Z.opp (digits 0 false r)
  | r => digits 0 false r
  end.

(** [int(s)] for a string. *)
Definition int_of_str (s : string) : result Z :=
  if (is_ascii s && (String.length s <=? 4300)%nat)%bool
  then match int_of_ascii s with
       | Some z => Return z
       | None =>
           Raise (ValueError
                    ("invalid literal for int() with base 10: " ++ repr s))
       end
  else int_of_text s.

(** [int(v)] *)
Definition int (v : pyval) : result Z :=
  match v with
  | VInt z => Return z
  | VBool b => Return (if b then 1 else 0)
  | VFloat x =>
      match int_of_float x with
      | Some z => Return z
      | None => Raise (ValueError "cannot convert float to integer")
      end
  | VStr s => int_of_str s
  | VNone | VJson _ =>
      Raise (TypeError
               ("int() argument must be a string, a bytes-like object or "
                ++ "a real number, not '" ++ type_of v ++ "'"))
  end.

(** [float(v)] *)
Definition float (v : pyval) : result pyfloat :=
  match v with
  | VFloat x => Return x
  | VInt z =>
      match float_of_int z with
      | Some x => Return x
      | None => Raise (OverflowError "int too large to convert to float")
      end
  | VBool b =>
      match float_of_int (if b then 1 else 0) with
      | Some x => Return x
      | None => Raise (OverflowError "int too large to convert to float")
      end
  | VStr s =>
      match float_of_str s with
      | Some x => Return x
      | None =>
          Raise (ValueError ("could not convert string to float: " ++ repr s))
      end
  | VNone | VJson _ =>
      Raise (TypeError
               ("float() argument must be a string or a real number, not '"
                ++ type_of v ++ "'"))
  end.

(** A [dict] with string keys: insertion ordered, one entry per key. *)
Definition dict (V : Type) : Type := list (string * V).

Fixpoint dict_get {V} (k : string) (d : dict V) : option V :=
  match d with
  | [] => None
  | (k', v) :: r => if String.eqb k' k then Some v else dict_get k r
  end.

(** [d[k] = v]: an existing key keeps its place, a new key goes last. *)
Fixpoint dict_set {V} (k : string) (v : V) (d : dict V) : dict V :=
  match d with
  | [] => [(k, v)]
  | (k', v') :: r =>
      if String.eqb k' k then (k', v) :: r else (k', v') :: dict_set k v r
  end.

Definition keys {V} (d : dict V) : list string := map fst d.
Definition values {V} (d : dict V) : list V := map snd d.

End Values.
End Py.

(** The mode of [open]: ['r'] or ['w']. *)
Inductive mode : Type := Reading | Writing.

(** The file system, as far as [open] shows it.  The files there are keep
    their text under their path, one path for each file.  [locate m name
    fs] is the path of the file that [open(name, m)] opens when [fs] are
    the files there are (two names of one file have one path), or the
    exception [open] raises for the name: a directory, a missing directory,
    a null byte in the name, a name too long, a permission that is not
    there.  A name that denotes no file yet has its path all the same:
    reading it raises [FileNotFoundError], writing it creates the file. *)
Class FileSystem : Type := {
  locate : mode -> string -> Py.dict string -> result string
}.

(* ================================================================== *)
(** * The BaSyx object model *)

(** [model.AssetKind] *)
Inductive AssetKind : Type := INSTANCE | TYPE.

(** [model.datatypes]: the four classes of the type table, and any other
    class of the SDK (a property of a loaded file may have one), named by
    its XSD name. *)
Module datatypes.
Inductive t : Type := String | Int | Float | Boolean | Other (xsd : string).

Definition eqb (a b : t) : bool :=
  match a, b with
  | String, String | Int, Int | Float, Float | Boolean, Boolean => true
  | Other x, Other y => String.eqb x y
  | _, _ => false
  end.
End datatypes.

Section Model.
Context {F : PyFloat}.

Record AssetInformation : Type := {
  asset_kind : AssetKind;
  global_asset_id : string
}.

(** [submodel] is the shell's set of model references; a reference to a
    submodel is the key holding the submodel's id. *)
Record AssetAdministrationShell : Type := {
  aas_id : string;
  aas_id_short : string;
  asset_information : AssetInformation;
  submodel : list string
}.

(** [semantic_id] is an external reference of one GLOBAL_REFERENCE key,
    kept as the key's value. *)
Record Property : Type := {
  id_short : string;
  value_type : datatypes.t;
  value : option Py.pyval;
  semantic_id : option string
}.

(** A submodel element: a [Property], or an element of another class (a
    loaded file may hold one); of the latter only the id_short matters. *)
Inductive SubmodelElement : Type :=
| IsProperty (p : Property)
| OtherElement (name : string).

Definition elem_id_short (e : SubmodelElement) : string :=
  match e with
  | IsProperty p => id_short p
  | OtherElement n => n
  end.

Record Submodel : Type := {
  sm_id : string;
  sm_id_short : string;
  submodel_element : list SubmodelElement
}.

(** [display_name] and [description] hold the text of the "en" entry. *)
Record ConceptDescription : Type := {
  cd_id : string;
  cd_id_short : string;
  display_name : option string;
  description : option string
}.

(** What an object store holds. *)
Inductive Identifiable : Type :=
| AnAAS (a : AssetAdministrationShell)
| ASubmodel (s : Submodel)
| AConceptDescription (c : ConceptDescription).

Definition obj_id (o : Identifiable) : string :=
  match o with
  | AnAAS a => aas_id a
  | ASubmodel s => sm_id s
  | AConceptDescription c => cd_id c
  end.

(** [model.DictObjectStore]: a dict from id to object. *)
Definition DictObjectStore : Type := Py.dict Identifiable.

(** [object_store.add(x)]: an id already stored is refused. *)
Definition store_add (x : Identifiable) (st : DictObjectStore)
  : result DictObjectStore :=
  match Py.dict_get (obj_id x) st with
  | Some _ =>
      Raise (KeyError
               ("'Identifiable object with same id " ++ obj_id x
                ++ " is already stored in this store'"))
  | None => Return (Py.dict_set (obj_id x) x st)
  end.

Fixpoint store_add_all (xs : list Identifiable) (st : DictObjectStore)
  : result DictObjectStore :=
  match xs with
  | [] => Return st
  | x :: r =>
      match store_add x st with
      | Return st' => store_add_all r st'
      | Raise e => Raise e
      end
  end.

(** [submodel_element.get_object_by_attribute('id_short', name)]: the
    element of that id_short; [KeyError] when there is none. *)
Definition get_object_by_attribute (name : string) (l : list SubmodelElement)
  : result SubmodelElement :=
  match find (fun e => String.eqb (elem_id_short e) name) l with
  | Some e => Return e
  | None => Raise (KeyError ("'" ++ name ++ "'"))
  end.

(** [submodel_element.add(e)]: the namespace refuses a second element of
    the same id_short. *)
Definition namespace_add (e : SubmodelElement) (l : list SubmodelElement)
  : result (list SubmodelElement) :=
  if existsb (fun e' => String.eqb (elem_id_short e') (elem_id_short e)) l
  then Raise (LibraryError
                ("Object with attribute (name='id_short', value='"
                 ++ elem_id_short e
                 ++ "') is already present in this set of objects"))
  else Return (l ++ [e])%list.

(** [set_.discard(e)] on the namespace: the element of that id_short is
    taken out. *)
Fixpoint namespace_discard (name : string) (l : list SubmodelElement)
  : list SubmodelElement :=
  match l with
  | [] => []
  | e :: r =>
      if String.eqb (elem_id_short e) name then r
      else e :: namespace_discard name r
  end.

(** [aas.submodel.add(ref)] on a Python set. *)
Definition set_add (x : string) (s : list string) : list string :=
  if Py.str_in x s then s else (s ++ [x])%list.

End Model.

(** What the SDK decides and the repository does not show: the constraint
    checks its constructors and setters run ([None]: accepted), the names
    of the datatype classes, and the JSON adapter. *)
Class BaSyx {F : PyFloat} : Type := {
  (** [model.AssetInformation(asset_kind, global_asset_id)] *)
  check_AssetInformation : AssetKind -> string -> option exn;
  (** [model.AssetAdministrationShell(id_, id_short, asset_information)] *)
  check_AssetAdministrationShell : string -> string -> option exn;
  (** [model.Submodel(id_, id_short)] *)
  check_Submodel : string -> string -> option exn;
  (** [model.ConceptDescription(id_, id_short)] *)
  check_ConceptDescription : string -> string -> option exn;
  (** [model.Property(id_short, value_type, ...)]: the id_short *)
  check_Property : string -> option exn;
  (** the setter of [Property.value], for a value of the declared type *)
  check_value : datatypes.t -> Py.pyval -> option exn;
  (** [model.Key(GLOBAL_REFERENCE, value)] in an [ExternalReference] *)
  check_Key : string -> option exn;
  (** [model.MultiLanguageNameType({"en": text})] *)
  check_MultiLanguageNameType : string -> option exn;
  (** [model.MultiLanguageTextType({"en": text})] *)
  check_MultiLanguageTextType : string -> option exn;
  (** [value_type.__name__] *)
  type_name : datatypes.t -> string;
  (** [aas_json.write_aas_json_file(file, store)]: the text written, and
      the exception that ended the writing, if one did. *)
  write_aas_json_file : DictObjectStore -> string * option exn;
  (** [aas_json.read_aas_json_file(file)] on a file of the given text. *)
  read_aas_json_file : string -> result DictObjectStore;
  (** [json.dumps(json.loads(text), indent=2)] *)
  json_pretty : string -> result string
}.

(* ================================================================== *)
(** * The agent and its monad *)

Section Agent.
Context {F : PyFloat} {L : BaSyx}.

(** [self]: the document of one [AASAgent].  The conversation history is
    the language-model loop's and is left out. *)
Record AASAgent : Type := {
  aas : option AssetAdministrationShell;
  submodels : Py.dict Submodel;
  concept_descriptions : Py.dict ConceptDescription
}.

(** [AASAgent()] *)
Definition init : AASAgent :=
  {| aas := None; submodels := []; concept_descriptions := [] |}.

(** The agent, and the files on disk (path to text). *)
Record World : Type := {
  self : AASAgent;
  files : Py.dict string
}.

(** A computation: it returns or raises, and leaves a world either way
    (nothing is rolled back when an exception is raised). *)
Definition M (A : Type) : Type := World -> result A * World.

Definition ret {A} (a : A) : M A := fun w => (Return a, w).
Definition raise {A} (e : exn) : M A := fun w => (Raise e, w).

Definition bind {A B} (m : M A) (k : A -> M B) : M B :=
  fun w =>
    match m w with
    | (Return a, w') => k a w'
    | (Raise e, w') => (Raise e, w')
    end.

(** [try: m  except Exception as e: h e] *)
Definition try_ {A} (m : M A) (h : exn -> M A) : M A :=
  fun w =>
    match m w with
    | (Return a, w') => (Return a, w')
    | (Raise e, w') => h e w'
    end.

Definition lift {A} (r : result A) : M A := fun w => (r, w).

Definition get_self : M AASAgent := fun w => (Return (self w), w).
Definition get_files : M (Py.dict string) := fun w => (Return (files w), w).

Definition set_aas (a : option AssetAdministrationShell) : M unit :=
  fun w =>
    (Return tt,
     {| self := {| aas := a;
                   submodels := submodels (self w);
                   concept_descriptions := concept_descriptions (self w) |};
        files := files w |}).

Definition set_submodels (d : Py.dict Submodel) : M unit :=
  fun w =>
    (Return tt,
     {| self := {| aas := aas (self w);
                   submodels := d;
                   concept_descriptions := concept_descriptions (self w) |};
        files := files w |}).

Definition set_concept_descriptions (d : Py.dict ConceptDescription) : M unit :=
  fun w =>
    (Return tt,
     {| self := {| aas := aas (self w);
                   submodels := submodels (self w);
                   concept_descriptions := d |};
        files := files w |}).

Definition set_files (fs : Py.dict string) : M unit :=
  fun w => (Return tt, {| self := self w; files := fs |}).

End Agent.

Declare Scope agent_scope.
Delimit Scope agent_scope with agent.
Notation "x <- m ;; k" := (bind m (fun x => k))
  (at level 61, m at next level, right associativity) : agent_scope.
Notation "m ;; k" := (bind m (fun _ => k))
  (at level 61, right associativity) : agent_scope.
Open Scope agent_scope.

Section Constructors.
Context {F : PyFloat} {L : BaSyx}.

Definition checked {A} (c : option exn) (a : A) : result A :=
  match c with
  | None => Return a
  | Some e => Raise e
  end.

Definition new_AssetInformation (kind : AssetKind) (gid : string)
  : result AssetInformation :=
  checked (check_AssetInformation kind gid)
          {| asset_kind := kind; global_asset_id := gid |}.

Definition new_AssetAdministrationShell (id_ name : string)
  (info : AssetInformation) : result AssetAdministrationShell :=
  checked (check_AssetAdministrationShell id_ name)
          {| aas_id := id_; aas_id_short := name;
             asset_information := info; submodel := [] |}.

Definition new_Submodel (id_ name : string) : result Submodel :=
  checked (check_Submodel id_ name)
          {| sm_id := id_; sm_id_short := name; submodel_element := [] |}.

Definition new_ConceptDescription (id_ name : string)
  : result ConceptDescription :=
  checked (check_ConceptDescription id_ name)
          {| cd_id := id_; cd_id_short := name;
             display_name := None; description := None |}.

(** The setter of [Property.value]. *)
Definition set_value (vt : datatypes.t) (v : option Py.pyval)
  : result (option Py.pyval) :=
  match v with
  | None => Return None
  | Some x => checked (check_value vt x) (Some x)
  end.

Definition new_Property (name : string) (vt : datatypes.t)
  (v : option Py.pyval) : result Property :=
  match check_Property name with
  | Some e => Raise e
  | None =>
      match set_value vt v with
      | Raise e => Raise e
      | Return v' =>
          Return {| id_short := name; value_type := vt;
                    value := v'; semantic_id := None |}
      end
  end.

(** [model.ExternalReference((model.Key(GLOBAL_REFERENCE, value),))] *)
Definition new_ExternalReference (v : string) : result string :=
  checked (check_Key v) v.

End Constructors.

(* ================================================================== *)
(** * The handlers of [AASAgent] *)

Section Handlers.
Context {F : PyFloat} {L : BaSyx}.

Definition nl : string := String (ascii_of_nat 10) EmptyString.

(** [if s:] for an optional string argument: [None] and the empty string
    are false. *)
Definition given (s : option string) : option string :=
  match s with
  | Some EmptyString => None
  | _ => s
  end.

(** The loop [for sm in self.submodels.values(): if sm.id_short == name:
    submodel = sm; break]. *)
Definition find_submodel (name : string) (d : Py.dict Submodel)
  : option Submodel :=
  find (fun sm => String.eqb (sm_id_short sm) name) (Py.values d).

(** The submodel that loop found is an object of the dict: a mutation of
    it shows in the dict, at the entry the loop stopped at. *)
Fixpoint mutate_submodel (name : string) (sm' : Submodel)
  (d : Py.dict Submodel) : Py.dict Submodel :=
  match d with
  | [] => []
  | (k, sm) :: r =>
      if String.eqb (sm_id_short sm) name then (k, sm') :: r
      else (k, sm) :: mutate_submodel name sm' r
  end.

(** Likewise for the element [get_object_by_attribute] returned. *)
Fixpoint mutate_element (name : string) (e' : SubmodelElement)
  (l : list SubmodelElement) : list SubmodelElement :=
  match l with
  | [] => []
  | e :: r =>
      if String.eqb (elem_id_short e) name then e' :: r
      else e :: mutate_element name e' r
  end.

Definition with_elements (sm : Submodel) (l : list SubmodelElement)
  : Submodel :=
  {| sm_id := sm_id sm; sm_id_short := sm_id_short sm;
     submodel_element := l |}.

Definition with_value (p : Property) (v : option Py.pyval) : Property :=
  {| id_short := id_short p; value_type := value_type p;
     value := v; semantic_id := semantic_id p |}.

Definition with_semantic_id (p : Property) (s : option string) : Property :=
  {| id_short := id_short p; value_type := value_type p;
     value := value p; semantic_id := s |}.

Definition total_elements (d : Py.dict Submodel) : nat :=
  list_sum (map (fun sm => List.length (submodel_element sm)) (Py.values d)).

(** ** Value coercion *)

Definition type_map : Py.dict datatypes.t :=
  [ ("string", datatypes.String); ("int", datatypes.Int);
    ("float", datatypes.Float); ("boolean", datatypes.Boolean) ].

Definition truthy : list string := ["true"; "t"; "yes"; "1"].

(** [bool(value) if isinstance(value, bool)
     else str(value).lower() in ('true', 't', 'yes', '1')] *)
Definition to_boolean (v : Py.pyval) : bool :=
  match v with
  | Py.VBool b => b
  | _ => Py.str_in (Py.lower (Py.str v)) truthy
  end.

Definition to_int (v : Py.pyval) : result Py.pyval :=
  match Py.int v with
  | Return z => Return (Py.VInt z)
  | Raise e => Raise e
  end.

Definition to_float (v : Py.pyval) : result Py.pyval :=
  match Py.float v with
  | Return x => Return (Py.VFloat x)
  | Raise e => Raise e
  end.

(** The conversion of [add_property], chosen by the tag. *)
Definition convert_by_tag (value_type : string) (v : Py.pyval)
  : result (option Py.pyval) :=
  match v with
  | Py.VNone => Return None
  | _ =>
      let r :=
        if String.eqb (Py.lower value_type) "int" then to_int v
        else if String.eqb (Py.lower value_type) "float" then to_float v
        else if String.eqb (Py.lower value_type) "boolean"
             then Return (Py.VBool (to_boolean v))
        else Return (Py.VStr (Py.str v)) in
      match r with
      | Return x => Return (Some x)
      | Raise e => Raise e
      end
  end.

(** The conversion of [update_property], chosen by the element's type. *)
Definition convert_by_type (vt : datatypes.t) (v : Py.pyval)
  : result Py.pyval :=
  if datatypes.eqb vt datatypes.Int then to_int v
  else if datatypes.eqb vt datatypes.Float then to_float v
  else if datatypes.eqb vt datatypes.Boolean
       then Return (Py.VBool (to_boolean v))
  else Return (Py.VStr (Py.str v)).

(** ** Structural operations *)

Definition create_aas (aas_id id_short global_asset_id : string) : M string :=
  try_
    (asset_information <-
       lift (new_AssetInformation INSTANCE global_asset_id) ;;
     shell <-
       lift (new_AssetAdministrationShell aas_id id_short asset_information) ;;
     set_aas (Some shell) ;;
     ret ("✅ Created AAS '" ++ id_short ++ "' with ID: " ++ aas_id))
    (fun e => ret ("❌ Error creating AAS: " ++ str_exn e)).

Definition add_reference (shell : AssetAdministrationShell) (id_ : string)
  : AssetAdministrationShell :=
  {| aas_id := aas_id shell; aas_id_short := aas_id_short shell;
     asset_information := asset_information shell;
     submodel := set_add id_ (submodel shell) |}.

Definition add_submodel (submodel_id id_short : string) : M string :=
  try_
    (s <- get_self ;;
     match aas s with
     | None => ret "❌ No AAS exists. Please create an AAS first."
     | Some shell =>
         sm <- lift (new_Submodel submodel_id id_short) ;;
         set_submodels (Py.dict_set submodel_id sm (submodels s)) ;;
         set_aas (Some (add_reference shell (sm_id sm))) ;;
         ret ("✅ Added submodel '" ++ id_short ++ "' to AAS")
     end)
    (fun e => ret ("❌ Error adding submodel: " ++ str_exn e)).

Definition add_concept_description (concept_id id_short : string)
  (preferred_name definition : option string) : M string :=
  try_
    (concept <- lift (new_ConceptDescription concept_id id_short) ;;
     concept <-
       match given preferred_name with
       | Some n =>
           lift (checked (check_MultiLanguageNameType n)
                   {| cd_id := cd_id concept; cd_id_short := cd_id_short concept;
                      display_name := Some n;
                      description := description concept |})
       | None => ret concept
       end ;;
     concept <-
       match given definition with
       | Some d =>
           lift (checked (check_MultiLanguageTextType d)
                   {| cd_id := cd_id concept; cd_id_short := cd_id_short concept;
                      display_name := display_name concept;
                      description := Some d |})
       | None => ret concept
       end ;;
     s <- get_self ;;
     set_concept_descriptions
       (Py.dict_set concept_id concept (concept_descriptions s)) ;;
     ret ("✅ Added concept description '" ++ id_short ++ "'"
          ++ match given preferred_name with
             | Some n => nl ++ "   Name: " ++ n
             | None => ""
             end
          ++ match given definition with
             | Some d => nl ++ "   Definition: " ++ d
             | None => ""
             end))
    (fun e => ret ("❌ Error adding concept description: " ++ str_exn e)).

(** ** Element operations *)

Definition add_property (submodel_id_short property_name value_type : string)
  (v : Py.pyval) (semantic : option string) : M string :=
  try_
    (s <- get_self ;;
     match find_submodel submodel_id_short (submodels s) with
     | None => ret ("❌ Submodel '" ++ submodel_id_short ++ "' not found")
     | Some sm =>
         match Py.dict_get (Py.lower value_type) type_map with
         | None => ret ("❌ Invalid value type: " ++ value_type)
         | Some value_type_obj =>
             converted_value <- lift (convert_by_tag value_type v) ;;
             property_element <-
               lift (new_Property property_name value_type_obj converted_value) ;;
             property_element <-
               match given semantic with
               | Some sid =>
                   r <- lift (new_ExternalReference sid) ;;
                   ret (with_semantic_id property_element (Some r))
               | None => ret property_element
               end ;;
             elements <-
               lift (namespace_add (IsProperty property_element)
                       (submodel_element sm)) ;;
             set_submodels
               (mutate_submodel submodel_id_short (with_elements sm elements)
                  (submodels s)) ;;
             ret ("✅ Added property '" ++ property_name ++ "' (" ++ value_type
                  ++ ") to submodel '" ++ submodel_id_short ++ "'"
                  ++ match converted_value with
                     | Some c => " with value " ++ Py.str c
                     | None => ""
                     end
                  ++ match given semantic with
                     | Some sid => nl ++ "   Semantic ID: " ++ sid
                     | None => ""
                     end)
         end
     end)
    (fun e => ret ("❌ Error adding property: " ++ str_exn e)).

(** In the three handlers below the test [if not property_elem] follows a
    lookup that raises when nothing is found, and an element object is
    true: the branch is never taken. *)
Definition update_property (submodel_id_short property_name : string)
  (v : Py.pyval) : M string :=
  try_
    (s <- get_self ;;
     match find_submodel submodel_id_short (submodels s) with
     | None => ret ("❌ Submodel '" ++ submodel_id_short ++ "' not found")
     | Some sm =>
         property_elem <-
           lift (get_object_by_attribute property_name (submodel_element sm)) ;;
         match property_elem with
         | OtherElement _ =>
             ret ("❌ Element '" ++ property_name ++ "' is not a Property")
         | IsProperty p =>
             let old_value := value p in
             converted <- lift (convert_by_type (value_type p) v) ;;
             new_value <- lift (set_value (value_type p) (Some converted)) ;;
             set_submodels
               (mutate_submodel submodel_id_short
                  (with_elements sm
                     (mutate_element property_name
                        (IsProperty (with_value p new_value))
                        (submodel_element sm)))
                  (submodels s)) ;;
             ret ("✅ Updated '" ++ property_name ++ "': "
                  ++ Py.str_opt old_value ++ " → " ++ Py.str_opt new_value)
         end
     end)
    (fun e => ret ("❌ Error updating property: " ++ str_exn e)).

Definition get_property_value (submodel_id_short property_name : string)
  : M string :=
  try_
    (s <- get_self ;;
     match find_submodel submodel_id_short (submodels s) with
     | None => ret ("❌ Submodel '" ++ submodel_id_short ++ "' not found")
     | Some sm =>
         property_elem <-
           lift (get_object_by_attribute property_name (submodel_element sm)) ;;
         match property_elem with
         | IsProperty p =>
             ret ("📌 " ++ property_name ++ " = " ++ Py.str_opt (value p)
                  ++ " (" ++ type_name (value_type p) ++ ")")
         | OtherElement _ =>
             ret ("Element '" ++ property_name ++ "' is not a Property")
         end
     end)
    (fun e => ret ("❌ Error getting property: " ++ str_exn e)).

Definition update_semantic_id
  (submodel_id_short property_name semantic : string) : M string :=
  try_
    (s <- get_self ;;
     match find_submodel submodel_id_short (submodels s) with
     | None => ret ("❌ Submodel '" ++ submodel_id_short ++ "' not found")
     | Some sm =>
         property_elem <-
           lift (get_object_by_attribute property_name (submodel_element sm)) ;;
         match property_elem with
         | OtherElement _ =>
             ret ("❌ Element '" ++ property_name ++ "' is not a Property")
         | IsProperty p =>
             r <- lift (new_ExternalReference semantic) ;;
             (* the setter of [semantic_id], on an element that has a
                parent: the SDK takes the element out of the parent's
                namespace set, assigns, and adds it again, so the element
                becomes the last of [submodel_element] *)
             set_submodels
               (mutate_submodel submodel_id_short
                  (with_elements sm
                     (namespace_discard property_name (submodel_element sm)
                      ++ [IsProperty (with_semantic_id p (Some r))])%list)
                  (submodels s)) ;;
             ret ("✅ Updated semantic ID for '" ++ property_name ++ "'" ++ nl
                  ++ "   Semantic ID: " ++ semantic)
         end
     end)
    (fun e => ret ("❌ Error updating semantic ID: " ++ str_exn e)).

End Handlers.

(* ================================================================== *)
(** * Persistence, rendering and the dispatcher *)

Section Dispatch.
Context {F : PyFloat} {L : BaSyx} {FS : FileSystem}.

(** The object store [save_aas] and [get_digital_twin_json] fill: the
    shell, every submodel, every concept description. *)
Definition build_object_store (shell : AssetAdministrationShell)
  (s : AASAgent) : result DictObjectStore :=
  match store_add (AnAAS shell) [] with
  | Raise e => Raise e
  | Return st =>
      match store_add_all (map ASubmodel (Py.values (submodels s))) st with
      | Raise e => Raise e
      | Return st' =>
          store_add_all
            (map AConceptDescription (Py.values (concept_descriptions s))) st'
      end
  end.

Definition cd_info (cd_count : nat) : string :=
  if (0 <? cd_count)%nat
  then ", " ++ Py.str_of_nat cd_count ++ " concept(s)"
  else "".

Definition save_aas (filename : string) : M string :=
  try_
    (s <- get_self ;;
     match aas s with
     | None => ret "❌ No AAS to save"
     | Some shell =>
         let filename :=
           if Py.endswith filename ".json" then filename
           else filename ++ ".json" in
         object_store <- lift (build_object_store shell s) ;;
         (* open(filename, 'w', encoding='utf-8'): the file is created, or
            emptied *)
         fs <- get_files ;;
         path <- lift (locate Writing filename fs) ;;
         set_files (Py.dict_set path "" fs) ;;
         (* write_aas_json_file(json_file, object_store) *)
         fs <- get_files ;;
         set_files
           (Py.dict_set path (fst (write_aas_json_file object_store)) fs) ;;
         match snd (write_aas_json_file object_store) with
         | Some e => raise e
         | None =>
             ret ("✅ Saved AAS to '" ++ filename ++ "' ("
                  ++ Py.str_of_nat (List.length (submodels s)) ++ " submodels"
                  ++ cd_info (List.length (concept_descriptions s)) ++ ")")
         end
     end)
    (fun e => ret ("❌ Error saving: " ++ str_exn e)).

(** The decoding ['utf-8-sig']: a byte order mark at the start of the file
    is left out. *)
Definition byte_order_mark : string :=
  String (ascii_of_nat 239)
    (String (ascii_of_nat 187) (String (ascii_of_nat 191) EmptyString)).

Definition utf_8_sig (text : string) : string :=
  if String.prefix byte_order_mark text
  then substring 3 (String.length text - 3) text
  else text.

(** Reading in text mode: a carriage return, with the line feed that may
    follow it, is read as a line feed. *)
Fixpoint universal_newlines (text : string) : string :=
  match text with
  | EmptyString => EmptyString
  | String c r =>
      if Ascii.eqb c "013"%char
      then match r with
           | String c' r' =>
               if Ascii.eqb c' "010"%char
               then String "010"%char (universal_newlines r')
               else String "010"%char (universal_newlines r)
           | EmptyString => String "010"%char EmptyString
           end
      else String c (universal_newlines r)
  end.

(** [open(filename, 'r', encoding='utf-8-sig')] and the text read from
    it. *)
Definition open_read (filename : string) (fs : Py.dict string)
  : result string :=
  match locate Reading filename fs with
  | Raise e => Raise e
  | Return path =>
      match Py.dict_get path fs with
      | Some text => Return (universal_newlines (utf_8_sig text))
      | None =>
          Raise (FileNotFoundError
                   ("[Errno 2] No such file or directory: '" ++ filename
                    ++ "'"))
      end
  end.

(** The first shell of a loaded store. *)
Fixpoint first_aas (objs : list Identifiable)
  : option AssetAdministrationShell :=
  match objs with
  | [] => None
  | AnAAS a :: _ => Some a
  | _ :: r => first_aas r
  end.

Definition load_submodels (objs : list Identifiable) : Py.dict Submodel :=
  fold_left
    (fun d obj =>
       match obj with
       | ASubmodel sm => Py.dict_set (sm_id sm) sm d
       | _ => d
       end)
    objs [].

Definition load_concept_descriptions (objs : list Identifiable)
  : Py.dict ConceptDescription :=
  fold_left
    (fun d obj =>
       match obj with
       | AConceptDescription c => Py.dict_set (cd_id c) c d
       | _ => d
       end)
    objs [].

Definition load_aas (filename : string) : M string :=
  try_
    (fs <- get_files ;;
     text <- lift (open_read filename fs) ;;
     loaded_store <- lift (read_aas_json_file text) ;;
     set_aas (first_aas (Py.values loaded_store)) ;;
     set_submodels (load_submodels (Py.values loaded_store)) ;;
     set_concept_descriptions
       (load_concept_descriptions (Py.values loaded_store)) ;;
     s <- get_self ;;
     match aas s with
     | Some shell =>
         ret ("✅ Loaded '" ++ aas_id_short shell ++ "' from '" ++ filename
              ++ "' (" ++ Py.str_of_nat (List.length (submodels s))
              ++ " submodels, "
              ++ Py.str_of_nat (total_elements (submodels s)) ++ " elements"
              ++ cd_info (List.length (concept_descriptions s)) ++ ")")
     | None => ret "❌ No AAS found in file"
     end)
    (fun e =>
       match e with
       | FileNotFoundError _ => ret ("❌ File '" ++ filename ++ "' not found")
       | _ => ret ("❌ Error loading: " ++ str_exn e)
       end).

(** ** Rendering *)

Definition kind_name (k : AssetKind) : string :=
  match k with
  | INSTANCE => "INSTANCE"
  | TYPE => "TYPE"
  end.

Definition state_of_element (elem : SubmodelElement) : string :=
  match elem with
  | IsProperty p =>
      "    • " ++ id_short p ++ " (" ++ type_name (value_type p) ++ "): "
      ++ Py.str_opt (value p) ++ nl
  | OtherElement _ => ""
  end.

Definition state_of_submodel (sm : Submodel) : string :=
  "  - " ++ sm_id_short sm ++ ": "
  ++ Py.str_of_nat (List.length (submodel_element sm)) ++ " elements" ++ nl
  ++ String.concat "" (map state_of_element (submodel_element sm)).

Definition current_state (s : AASAgent) : string :=
  match aas s with
  | None => "No AAS exists yet."
  | Some shell =>
      "Current AAS: " ++ aas_id_short shell ++ " (" ++ aas_id shell ++ ")" ++ nl
      ++ "Asset ID: " ++ global_asset_id (asset_information shell) ++ nl
      ++ "Number of Submodels: "
      ++ Py.str_of_nat (List.length (submodels s)) ++ nl
      ++ match submodels s with
         | [] => ""
         | _ =>
             nl ++ "Submodels:" ++ nl
             ++ String.concat ""
                  (map state_of_submodel (Py.values (submodels s)))
         end
  end.

Definition get_current_state : M string :=
  s <- get_self ;; ret (current_state s).

(** [enumerate(l, 1)] *)
Definition enumerate1 {A} (l : list A) : list (nat * A) :=
  combine (seq 1 (List.length l)) l.

Definition tree_of_element (continuation : string) (n : nat)
  (ie : nat * SubmodelElement) : list string :=
  let is_last_element := Nat.eqb (fst ie) n in
  let elem_prefix := if is_last_element then "└─" else "├─" in
  match snd ie with
  | IsProperty p =>
      let value_display := Py.str_opt (value p) in
      let tname := type_name (value_type p) in
      (continuation ++ "│  " ++ elem_prefix ++ " 📌 " ++ id_short p)
      :: (if negb is_last_element
          then [ continuation ++ "│  │  ├─ Type: " ++ tname;
                 continuation ++ "│  │  └─ Value: " ++ value_display ]
          else [ continuation ++ "│     ├─ Type: " ++ tname;
                 continuation ++ "│     └─ Value: " ++ value_display ])
  | OtherElement _ => []
  end.

Definition tree_of_submodel (n : nat) (ism : nat * Submodel) : list string :=
  let is_last_submodel := Nat.eqb (fst ism) n in
  let sm_prefix := if is_last_submodel then "└─" else "├─" in
  let continuation := if is_last_submodel then "   " else "│  " in
  let elements := submodel_element (snd ism) in
  List.app
    [ sm_prefix ++ " 📋 Submodel: " ++ sm_id_short (snd ism);
      continuation ++ "├─ ID: " ++ sm_id (snd ism) ]
    (List.app
       match elements with
       | [] => [ continuation ++ "└─ Elements: 0 (empty)" ]
       | _ =>
           List.app
             [ continuation ++ "├─ Elements: "
               ++ Py.str_of_nat (List.length elements);
               continuation ++ "│" ]
             (flat_map (tree_of_element continuation (List.length elements))
                (enumerate1 elements))
       end
       (if negb is_last_submodel then ["│"] else [])).

Definition tree_view (s : AASAgent) : string :=
  match aas s with
  | None => "❌ No AAS available"
  | Some shell =>
      String.concat nl
        (List.app
           [ "📦 Asset Administration Shell";
             "│";
             "├─ ID Short: " ++ aas_id_short shell;
             "├─ ID: " ++ aas_id shell;
             "├─ 🏭 Asset Information";
             "│  ├─ Global Asset ID: "
             ++ global_asset_id (asset_information shell);
             "│  └─ Asset Kind: "
             ++ kind_name (asset_kind (asset_information shell)) ]
           (List.app
              match submodels s with
              | [] => [ "└─ Submodels: 0 (empty)" ]
              | _ =>
                  "│"
                  :: flat_map (tree_of_submodel (List.length (submodels s)))
                       (enumerate1 (Py.values (submodels s)))
              end
              [ "";
                "Summary: " ++ Py.str_of_nat (List.length (submodels s))
                ++ " Submodel(s), "
                ++ Py.str_of_nat (total_elements (submodels s))
                ++ " Element(s)" ]))
  end.

Definition get_tree_view : M string :=
  s <- get_self ;; ret (tree_view s).

Definition get_digital_twin_json : M string :=
  try_
    (s <- get_self ;;
     match aas s with
     | None => ret "❌ No AAS available to export"
     | Some shell =>
         object_store <- lift (build_object_store shell s) ;;
         json_string <-
           lift (match write_aas_json_file object_store with
                 | (text, None) => Return text
                 | (_, Some e) => Raise e
                 end) ;;
         pretty_json <- lift (json_pretty json_string) ;;
         ret ("📄 **Digital Twin JSON:**" ++ nl ++ nl ++ "```json" ++ nl
              ++ pretty_json ++ nl ++ "```" ++ nl ++ nl
              ++ "✅ Complete Digital Twin with:" ++ nl
              ++ "   • 1 AAS: " ++ aas_id_short shell ++ nl
              ++ "   • " ++ Py.str_of_nat (List.length (submodels s))
              ++ " Submodel(s)" ++ nl
              ++ "   • " ++ Py.str_of_nat (total_elements (submodels s))
              ++ " Element(s)" ++ nl
              ++ "   • "
              ++ Py.str_of_nat (List.length (concept_descriptions s))
              ++ " Concept Description(s)" ++ nl)
     end)
    (fun e => ret ("❌ Error generating JSON: " ++ str_exn e)).

(** ** The call of a handler with the keyword arguments of the mapping

    The parameters annotated [str] are strings here, as the catalog's
    schema declares them.  Python does not check an annotation: with a
    keyword value that is no string the handler would run, and what comes of
    it is decided by the SDK's constructors.  That case is not modelled: the
    call is made to raise [TypeError], which the dispatcher catches like the
    [TypeError] of a missing argument. *)

Definition unexpected_keyword (params : list string)
  (arguments : Py.dict Py.pyval) : result unit :=
  match find (fun k => negb (Py.str_in k params)) (Py.keys arguments) with
  | Some k =>
      Raise (TypeError ("got an unexpected keyword argument '" ++ k ++ "'"))
  | None => Return tt
  end.

Definition as_str (name : string) (v : Py.pyval) : result string :=
  match v with
  | Py.VStr s => Return s
  | _ => Raise (TypeError ("argument '" ++ name ++ "' must be str"))
  end.

Definition required (name : string) (arguments : Py.dict Py.pyval)
  : result Py.pyval :=
  match Py.dict_get name arguments with
  | Some v => Return v
  | None =>
      Raise (TypeError
               ("missing 1 required positional argument: '" ++ name ++ "'"))
  end.

Definition required_str (name : string) (arguments : Py.dict Py.pyval)
  : result string :=
  match required name arguments with
  | Return v => as_str name v
  | Raise e => Raise e
  end.

(** A parameter with the default [None]. *)
Definition optional (name : string) (arguments : Py.dict Py.pyval)
  : Py.pyval :=
  match Py.dict_get name arguments with
  | Some v => v
  | None => Py.VNone
  end.

Definition optional_str (name : string) (arguments : Py.dict Py.pyval)
  : result (option string) :=
  match optional name arguments with
  | Py.VNone => Return None
  | Py.VStr s => Return (Some s)
  | _ => Raise (TypeError ("argument '" ++ name ++ "' must be str"))
  end.

Definition call_create_aas (arguments : Py.dict Py.pyval) : M string :=
  lift (unexpected_keyword ["aas_id"; "id_short"; "global_asset_id"] arguments) ;;
  a <- lift (required_str "aas_id" arguments) ;;
  b <- lift (required_str "id_short" arguments) ;;
  c <- lift (required_str "global_asset_id" arguments) ;;
  create_aas a b c.

Definition call_add_submodel (arguments : Py.dict Py.pyval) : M string :=
  lift (unexpected_keyword ["submodel_id"; "id_short"] arguments) ;;
  a <- lift (required_str "submodel_id" arguments) ;;
  b <- lift (required_str "id_short" arguments) ;;
  add_submodel a b.

Definition call_add_property (arguments : Py.dict Py.pyval) : M string :=
  lift (unexpected_keyword
          ["submodel_id_short"; "property_name"; "value_type"; "value";
           "semantic_id"] arguments) ;;
  a <- lift (required_str "submodel_id_short" arguments) ;;
  b <- lift (required_str "property_name" arguments) ;;
  c <- lift (required_str "value_type" arguments) ;;
  e <- lift (optional_str "semantic_id" arguments) ;;
  add_property a b c (optional "value" arguments) e.

Definition call_update_property (arguments : Py.dict Py.pyval) : M string :=
  lift (unexpected_keyword
          ["submodel_id_short"; "property_name"; "value"] arguments) ;;
  a <- lift (required_str "submodel_id_short" arguments) ;;
  b <- lift (required_str "property_name" arguments) ;;
  c <- lift (required "value" arguments) ;;
  update_property a b c.

Definition call_get_property_value (arguments : Py.dict Py.pyval)
  : M string :=
  lift (unexpected_keyword ["submodel_id_short"; "property_name"] arguments) ;;
  a <- lift (required_str "submodel_id_short" arguments) ;;
  b <- lift (required_str "property_name" arguments) ;;
  get_property_value a b.

Definition call_save_aas (arguments : Py.dict Py.pyval) : M string :=
  lift (unexpected_keyword ["filename"] arguments) ;;
  a <- lift (required_str "filename" arguments) ;;
  save_aas a.

Definition call_load_aas (arguments : Py.dict Py.pyval) : M string :=
  lift (unexpected_keyword ["filename"] arguments) ;;
  a <- lift (required_str "filename" arguments) ;;
  load_aas a.

Definition call_get_tree_view (arguments : Py.dict Py.pyval) : M string :=
  lift (unexpected_keyword [] arguments) ;;
  get_tree_view.

Definition call_get_current_state (arguments : Py.dict Py.pyval)
  : M string :=
  lift (unexpected_keyword [] arguments) ;;
  get_current_state.

Definition call_add_concept_description (arguments : Py.dict Py.pyval)
  : M string :=
  lift (unexpected_keyword
          ["concept_id"; "id_short"; "preferred_name"; "definition"]
          arguments) ;;
  a <- lift (required_str "concept_id" arguments) ;;
  b <- lift (required_str "id_short" arguments) ;;
  c <- lift (optional_str "preferred_name" arguments) ;;
  d <- lift (optional_str "definition" arguments) ;;
  add_concept_description a b c d.

Definition call_update_semantic_id (arguments : Py.dict Py.pyval)
  : M string :=
  lift (unexpected_keyword
          ["submodel_id_short"; "property_name"; "semantic_id"] arguments) ;;
  a <- lift (required_str "submodel_id_short" arguments) ;;
  b <- lift (required_str "property_name" arguments) ;;
  c <- lift (required_str "semantic_id" arguments) ;;
  update_semantic_id a b c.

Definition call_get_digital_twin_json (arguments : Py.dict Py.pyval)
  : M string :=
  lift (unexpected_keyword [] arguments) ;;
  get_digital_twin_json.

Definition function_map : Py.dict (Py.dict Py.pyval -> M string) :=
  [ ("create_aas", call_create_aas);
    ("add_submodel", call_add_submodel);
    ("add_property", call_add_property);
    ("update_property", call_update_property);
    ("get_property_value", call_get_property_value);
    ("save_aas", call_save_aas);
    ("load_aas", call_load_aas);
    ("get_tree_view", call_get_tree_view);
    ("get_current_state", call_get_current_state);
    ("add_concept_description", call_add_concept_description);
    ("update_semantic_id", call_update_semantic_id);
    ("get_digital_twin_json", call_get_digital_twin_json) ].

Definition execute_function (function_name : string)
  (arguments : Py.dict Py.pyval) : M string :=
  match Py.dict_get function_name function_map with
  | None => ret ("❌ Unknown function: " ++ function_name)
  | Some func =>
      try_ (func arguments)
        (fun e =>
           ret ("❌ Error executing " ++ function_name ++ ": " ++ str_exn e))
  end.

(** A sequence of dispatcher calls, one after the other; the replies are
    collected. *)
Fixpoint run (calls : list (string * Py.dict Py.pyval)) (w : World)
  : list (result string) * World :=
  match calls with
  | [] => ([], w)
  | (name, arguments) :: r =>
      let (reply, w') := execute_function name arguments w in
      let (replies, w'') := run r w' in
      (reply :: replies, w'')
  end.

End Dispatch.

(* ================================================================== *)
(** * The conversation: history, catalog, language-model loop *)

(** An entry of [conversation_history]: a role and a content.  The content
    of an assistant entry is what the model returned, which may be
    [None]. *)
Record message : Type := {
  role : string;
  content : option string
}.

(** [h[-n:]] for a positive [n] *)
Definition last_n {A} (n : nat) (h : list A) : list A :=
  skipn (List.length h - n) h.

(** [add_to_history]: append, then keep the last 20 messages. *)
Definition add_to_history (r : string) (c : option string)
  (conversation_history : list message) : list message :=
  let h := (conversation_history ++ [ {| role := r; content := c |} ])%list in
  if (20 <? List.length h)%nat then last_n 20 h else h.

(** A property of a function's parameter schema; [p_type] is absent for
    the untyped [value]. *)
Record parameter : Type := {
  p_name : string;
  p_type : option string;
  p_enum : list string;
  p_description : string
}.

(** An entry of the catalog (the constant wrappers "type": "function" and
    "type": "object" are left out; an absent "required" is the empty
    list). *)
Record function_descriptor : Type := {
  fd_name : string;
  fd_description : string;
  fd_properties : list parameter;
  fd_required : list string
}.

Definition get_available_functions : list function_descriptor :=
  [ {| fd_name := "create_aas";
     fd_description := "Create a new Asset Administration Shell (AAS)";
     fd_properties :=
       [{| p_name := "aas_id"; p_type := Some "string"; p_enum := [];
         p_description := "Unique identifier for the AAS (URL format)" |};
      {| p_name := "id_short"; p_type := Some "string"; p_enum := [];
         p_description := "Short human-readable identifier" |};
      {| p_name := "global_asset_id"; p_type := Some "string"; p_enum := [];
         p_description := "Global identifier for the asset" |}];
     fd_required := ["aas_id"; "id_short"; "global_asset_id"] |};
    {| fd_name := "add_submodel";
     fd_description := "Add a submodel to the AAS";
     fd_properties :=
       [{| p_name := "submodel_id"; p_type := Some "string"; p_enum := [];
         p_description := "Unique identifier for the submodel" |};
      {| p_name := "id_short"; p_type := Some "string"; p_enum := [];
         p_description := "Short human-readable identifier" |}];
     fd_required := ["submodel_id"; "id_short"] |};
    {| fd_name := "add_property";
     fd_description := "Add a property element to a submodel";
     fd_properties :=
       [{| p_name := "submodel_id_short"; p_type := Some "string"; p_enum := [];
         p_description := "ID short of the submodel to add property to" |};
      {| p_name := "property_name"; p_type := Some "string"; p_enum := [];
         p_description := "Name/ID short of the property" |};
      {| p_name := "value_type"; p_type := Some "string"; p_enum := ["string"; "int"; "float"; "boolean"];
         p_description := "Data type of the property" |};
      {| p_name := "value"; p_type := None; p_enum := [];
         p_description := "Value to set (can be string, number, or boolean)" |};
      {| p_name := "semantic_id"; p_type := Some "string"; p_enum := [];
         p_description := "Optional semantic ID reference to concept description" |}];
     fd_required := ["submodel_id_short"; "property_name"; "value_type"] |};
    {| fd_name := "update_property";
     fd_description := "Update the value of an existing property";
     fd_properties :=
       [{| p_name := "submodel_id_short"; p_type := Some "string"; p_enum := [];
         p_description := "ID short of the submodel containing the property" |};
      {| p_name := "property_name"; p_type := Some "string"; p_enum := [];
         p_description := "Name/ID short of the property to update" |};
      {| p_name := "value"; p_type := None; p_enum := [];
         p_description := "New value to set" |}];
     fd_required := ["submodel_id_short"; "property_name"; "value"] |};
    {| fd_name := "get_property_value";
     fd_description := "Get the current value of a property";
     fd_properties :=
       [{| p_name := "submodel_id_short"; p_type := Some "string"; p_enum := [];
         p_description := "ID short of the submodel" |};
      {| p_name := "property_name"; p_type := Some "string"; p_enum := [];
         p_description := "Name/ID short of the property" |}];
     fd_required := ["submodel_id_short"; "property_name"] |};
    {| fd_name := "save_aas";
     fd_description := "Save the AAS to a JSON file";
     fd_properties :=
       [{| p_name := "filename"; p_type := Some "string"; p_enum := [];
         p_description := "Name of the file to save (should end with .json)" |}];
     fd_required := ["filename"] |};
    {| fd_name := "load_aas";
     fd_description := "Load an AAS from a JSON file";
     fd_properties :=
       [{| p_name := "filename"; p_type := Some "string"; p_enum := [];
         p_description := "Name of the file to load" |}];
     fd_required := ["filename"] |};
    {| fd_name := "get_tree_view";
     fd_description := "Get a tree view representation of the entire AAS structure";
     fd_properties :=
       [];
     fd_required := [] |};
    {| fd_name := "get_current_state";
     fd_description := "Get a summary of the current AAS state including all submodels and properties";
     fd_properties :=
       [];
     fd_required := [] |};
    {| fd_name := "add_concept_description";
     fd_description := "Add a concept description to define semantic meaning of properties";
     fd_properties :=
       [{| p_name := "concept_id"; p_type := Some "string"; p_enum := [];
         p_description := "Unique identifier for the concept" |};
      {| p_name := "id_short"; p_type := Some "string"; p_enum := [];
         p_description := "Short identifier" |};
      {| p_name := "preferred_name"; p_type := Some "string"; p_enum := [];
         p_description := "Human-readable name" |};
      {| p_name := "definition"; p_type := Some "string"; p_enum := [];
         p_description := "Definition of the concept" |}];
     fd_required := ["concept_id"; "id_short"] |};
    {| fd_name := "update_semantic_id";
     fd_description := "Update or add semantic ID reference to an existing property";
     fd_properties :=
       [{| p_name := "submodel_id_short"; p_type := Some "string"; p_enum := [];
         p_description := "ID short of the submodel" |};
      {| p_name := "property_name"; p_type := Some "string"; p_enum := [];
         p_description := "Name of the property to update" |};
      {| p_name := "semantic_id"; p_type := Some "string"; p_enum := [];
         p_description := "Semantic ID reference (usually concept description ID)" |}];
     fd_required := ["submodel_id_short"; "property_name"; "semantic_id"] |};
    {| fd_name := "get_digital_twin_json";
     fd_description := "Get the complete Digital Twin (AAS) as JSON format string";
     fd_properties :=
       [];
     fd_required := [] |} ].

(** A function call the model asks for: its id, the name, and the
    arguments as JSON text. *)
Record tool_call : Type := {
  tc_id : string;
  tc_name : string;
  tc_arguments : string
}.

(** [response.choices[0].message] *)
Record assistant_message : Type := {
  am_content : option string;
  am_tool_calls : list tool_call
}.

(** The messages sent to the model. *)
Inductive chat_message : Type :=
| System (text : string)
| FromHistory (m : message)
| AssistantCalls (text : option string) (calls : list tool_call)
| ToolResult (tool_call_id : string) (text : string).

Definition system_message (state : string) : string :=
  "You are an intelligent assistant for managing Asset Administration Shells (AAS) using the BaSyx standard.

Current AAS State:
"
  ++ state ++
  "

You can help users with these operations:
1. Create AAS
2. Add submodels
3. Add properties/elements to submodels
4. Update property values
5. Get property values
6. Save AAS to file
7. Load AAS from file
8. Show tree view of AAS structure
9. Get current state summary

When users ask to do something, call the appropriate function. Be conversational and friendly.
If the user's request requires generating IDs (like AAS ID or Submodel ID), create them in a proper URL format like:
- https://example.com/aas/[descriptive-name]
- https://example.com/submodels/[descriptive-name]

Always confirm what you've done and provide helpful feedback.".

Section Conversation.
Context {F : PyFloat} {L : BaSyx} {FS : FileSystem}.

(** What [json.loads] gives for the arguments of a call: a JSON object as
    a dict, or another JSON value. *)
Inductive decoded : Type :=
| Mapping (arguments : Py.dict Py.pyval)
| NotMapping (text : string).

(** The language-model client and the JSON decoder: the reply to
    [chat.completions.create(messages, tools)] (with its first choice
    taken), and [json.loads]. *)
Class OpenAI : Type := {
  chat_completions_create :
    list chat_message -> option (list function_descriptor)
    -> result assistant_message;
  json_loads : string -> result decoded
}.

Context {O : OpenAI}.

(** [execute_function] on what was decoded: the call [func] with keyword
    arguments taken from a value that is no mapping raises [TypeError],
    inside the dispatcher's [try] (Python's message also names the method
    and the type of the value; it is shortened here). *)
Definition execute_decoded (function_name : string) (a : decoded)
  : M string :=
  match a with
  | Mapping arguments => execute_function function_name arguments
  | NotMapping _ =>
      match Py.dict_get function_name function_map with
      | None => ret ("❌ Unknown function: " ++ function_name)
      | Some _ =>
          ret ("❌ Error executing " ++ function_name
               ++ ": argument after ** must be a mapping")
      end
  end.

(** The loop over [assistant_message.tool_calls]: decode, execute, collect
    [(tool_call.id, result)].  An exception of [json.loads] ends the loop;
    the calls executed before it have had their effect. *)
Fixpoint call_tools (calls : list tool_call) (w : World)
  : result (list (string * string)) * World :=
  match calls with
  | [] => (Return [], w)
  | tc :: rest =>
      match json_loads (tc_arguments tc) with
      | Raise e => (Raise e, w)
      | Return function_args =>
          match execute_decoded (tc_name tc) function_args w with
          | (Raise e, w') => (Raise e, w')
          | (Return res, w') =>
              match call_tools rest w' with
              | (Return results, w'') =>
                  (Return ((tc_id tc, res) :: results), w'')
              | (Raise e, w'') => (Raise e, w'')
              end
          end
      end
  end.

(** The agent with its conversation. *)
Record Session : Type := {
  world : World;
  conversation_history : list message
}.

(** [process_message]: the reply (which is [None] when the model's content
    is), and the session after it. *)
Definition process_message (user_message : string) (s : Session)
  : option string * Session :=
  let history :=
    add_to_history "user" (Some user_message) (conversation_history s) in
  let failed (e : exn) (w : World) :=
    (Some ("❌ Error processing message: " ++ str_exn e),
     {| world := w; conversation_history := history |}) in
  let messages :=
    System (system_message (current_state (self (world s))))
    :: map FromHistory history in
  match chat_completions_create messages (Some get_available_functions) with
  | Raise e => failed e (world s)
  | Return first =>
      match am_tool_calls first with
      | [] =>
          (am_content first,
           {| world := world s;
              conversation_history :=
                add_to_history "assistant" (am_content first) history |})
      | _ =>
          match call_tools (am_tool_calls first) (world s) with
          | (Raise e, w') => failed e w'
          | (Return function_results, w') =>
              match
                chat_completions_create
                  (messages
                   ++ AssistantCalls (am_content first) (am_tool_calls first)
                   :: map (fun r => ToolResult (fst r) (snd r))
                        function_results)%list
                  None
              with
              | Raise e => failed e w'
              | Return second =>
                  (am_content second,
                   {| world := w';
                      conversation_history :=
                        add_to_history "assistant" (am_content second)
                          history |})
              end
          end
      end
  end.

(** A conversation: the messages of the user, one after the other. *)
Fixpoint converse (user_messages : list string) (s : Session)
  : list (option string) * Session :=
  match user_messages with
  | [] => ([], s)
  | m :: rest =>
      let (reply, s') := process_message m s in
      let (replies, s'') := converse rest s' in
      (reply :: replies, s'')
  end.

(** [AASAgent()] with its empty history, on the files there are. *)
Definition new_session (fs : Py.dict string) : Session :=
  {| world := {| self := init; files := fs |}; conversation_history := [] |}.

End Conversation.

(* ================================================================== *)
(** * Startup *)

(** [key[:8]] and [key[-4:]] (on the bytes of the string: the characters
    of an ASCII credential) *)
Definition first_8 (key : string) : string := substring 0 8 key.
Definition last_4 (key : string) : string :=
  substring (String.length key - 4) 4 key.

(** What [main] does before it builds the Telegram application: it stops,
    or goes on to build it with the token. *)
Inductive startup : Type :=
| Refused
| Building (telegram_token : string).

(** [main], with the two environment variables as [os.getenv] gives them,
    and the lines it prints up to that point.  [if not key] holds for
    [None] and for the empty string. *)
Definition main (openai_key telegram_token : option string)
  : list string * startup :=
  match openai_key with
  | None | Some EmptyString =>
      ([ "❌ Error: OPENAI_API_KEY environment variable not set";
         "Set it with: export OPENAI_API_KEY='your-key-here'" ], Refused)
  | Some okey =>
      match telegram_token with
      | None | Some EmptyString =>
          ([ "❌ Error: TELEGRAM_BOT_TOKEN environment variable not set";
             "Set it with: export TELEGRAM_BOT_TOKEN='your-token-here'" ],
           Refused)
      | Some token =>
          ([ "🤖 Starting BaSyx AAS LLM Agent...";
             "✅ OpenAI API Key: " ++ first_8 okey ++ "..." ++ last_4 okey;
             "✅ Telegram Bot Token: " ++ first_8 token ++ "..."
             ++ last_4 token ],
           Building token)
      end
  end.

(* ================================================================== *)
(** * A concrete host, for running the model

    Floats are finite decimals [(m, k)] standing for [m / 10^k]; the
    constraint checks are those of a Referable (a non-empty identifier, an
    id_short made of a letter followed by letters, digits and
    underscores, a 32 bit range for [Int]); the adapter writes the store as
    an S-expression and reads it back. *)

Module Host.

Definition plain_digits (l : list ascii) : option Z :=
  if forallb Py.is_digit l
  then Some (fold_left (fun a c => 10 * a + Py.digit_val c) l 0)
  else None.

Fixpoint split_dot (l : list ascii) : list ascii * list ascii :=
  match l with
  | [] => ([], [])
  | c :: r =>
      if Ascii.eqb c "." then ([], r)
      else let (a, b) := split_dot r in (c :: a, b)
  end.

(** Trailing zeros of the fraction are dropped. *)
Fixpoint normalize (m : Z) (k : nat) : Z * nat :=
  match k with
  | O => (m, O)
  | S k' => if Z.eqb (Z.rem m 10) 0 then normalize (Z.quot m 10) k' else (m, k)
  end.

Definition unsigned_decimal (l : list ascii) : option (Z * nat) :=
  let (ip, fp) := split_dot l in
  match ip, fp with
  | [], [] => None
  | _, _ =>
      match plain_digits ip, plain_digits fp with
      | Some a, Some b =>
          Some (a * 10 ^ Z.of_nat (List.length fp) + b, List.length fp)
      | _, _ => None
      end
  end.

Definition decimal_of_str (s : string) : option (Z * nat) :=
  let signed (neg : bool) (l : list ascii) :=
    match unsigned_decimal l with
    | Some (m, k) => Some (normalize (if neg then - m else m) k)
    | None => None
    end in
  match Py.strip (list_ascii_of_string s) with
  | "+"%char :: r => signed false r
  | "-"%char :: r => signed true r
  | r => signed false r
  end.

Fixpoint pad_left (k : nat) (s : string) : string :=
  match k with
  | O => s
  | S k' =>
      if (String.length s <? k)%nat then pad_left k' ("0" ++ s) else s
  end.

Definition str_of_decimal (x : Z * nat) : string :=
  let (m, k) := x in
  let p := 10 ^ Z.of_nat k in
  (if m <? 0 then "-" else "")
  ++ Py.str_of_Z (Z.abs m / p) ++ "."
  ++ match k with
     | O => "0"
     | _ => pad_left k (Py.str_of_Z (Z.abs m mod p))
     end.

(** Of the characters outside ASCII, this host knows the Arabic-Indic
    digits and the no-break space. *)
Fixpoint to_basic_latin (l : list ascii) : option (list ascii) :=
  match l with
  | [] => Some []
  | c :: r =>
      let n := nat_of_ascii c in
      if (n <? 128)%nat then option_map (cons c) (to_basic_latin r)
      else
        match r with
        | c2 :: r2 =>
            let n2 := nat_of_ascii c2 in
            if ((n =? 217) && (160 <=? n2) && (n2 <=? 169))%nat
            then option_map (cons (ascii_of_nat (n2 - 112)))
                   (to_basic_latin r2)
            else if ((n =? 194) && (n2 =? 160))%nat
            then option_map (cons " "%char) (to_basic_latin r2)
            else None
        | [] => None
        end
  end.

Definition int_of_long_text (s : string) : result Z :=
  let invalid :=
    Raise (ValueError
             ("invalid literal for int() with base 10: " ++ Py.repr s)) in
  match to_basic_latin (list_ascii_of_string s) with
  | None => invalid
  | Some l =>
      let n := List.length (filter Py.is_digit l) in
      if (4300 <? n)%nat
      then Raise (ValueError
                    ("Exceeds the limit (4300 digits) for integer string "
                     ++ "conversion: value has " ++ Py.str_of_nat n
                     ++ " digits; use sys.set_int_max_str_digits() "
                     ++ "to increase the limit"))
      else match Py.int_of_ascii (string_of_list_ascii l) with
           | Some z => Return z
           | None => invalid
           end
  end.

#[export] Instance decimal : PyFloat := {|
  pyfloat := Z * nat;
  int_of_text := int_of_long_text;
  float_of_str := decimal_of_str;
  float_of_int := fun z => Some (z, O);
  int_of_float := fun x => Some (Z.quot (fst x) (10 ^ Z.of_nat (snd x)));
  str_of_float := str_of_decimal
|}.

Definition is_letter (c : ascii) : bool :=
  let n := nat_of_ascii c in
  (((65 <=? n) && (n <=? 90)) || ((97 <=? n) && (n <=? 122)))%nat.

Definition valid_id_short (s : string) : bool :=
  match list_ascii_of_string s with
  | [] => false
  | c :: r =>
      is_letter c
      && forallb (fun x => is_letter x || Py.is_digit x || Ascii.eqb x "_") r
  end.

Definition constraint (ok : bool) (what : string) : option exn :=
  if ok then None else Some (LibraryError what).

Definition nonempty (s : string) : bool := negb (String.eqb s "").

Definition check_identifiable (id_ name : string) : option exn :=
  if nonempty id_
  then constraint (valid_id_short name) "id_short violates constraint AASd-002"
  else Some (LibraryError "Identifier has a minimum length of 1").

Definition check_int32 (vt : datatypes.t) (v : Py.pyval) : option exn :=
  match vt, v with
  | datatypes.Int, Py.VInt z =>
      if (Z.abs z <=? 2147483647) then None
      else Some (ValueError (Py.str_of_Z z
                             ++ " is out of the allowed range for type Int"))
  | datatypes.Other xsd, _ =>
      Some (TypeError (Py.str v ++ " cannot be trivially casted into " ++ xsd))
  | _, _ => None
  end.

(** The wire form of the store. *)
#[export] Instance Serialize_AssetKind : Serialize AssetKind :=
  fun k => match k with INSTANCE => Atom "Instance" | TYPE => Atom "Type" end.
#[export] Instance Deserialize_AssetKind : Deserialize AssetKind :=
  Deser.match_con "AssetKind" [("Instance", INSTANCE); ("Type", TYPE)] [].

#[export] Instance Serialize_datatype : Serialize datatypes.t :=
  fun t =>
    match t with
    | datatypes.String => Atom "xs:string"
    | datatypes.Int => Atom "xs:int"
    | datatypes.Float => Atom "xs:float"
    | datatypes.Boolean => Atom "xs:boolean"
    | datatypes.Other xsd => [Atom "other"; to_sexp xsd]%sexp
    end.
#[export] Instance Deserialize_datatype : Deserialize datatypes.t :=
  Deser.match_con "valueType"
    [ ("xs:string", datatypes.String); ("xs:int", datatypes.Int);
      ("xs:float", datatypes.Float); ("xs:boolean", datatypes.Boolean) ]
    [ ("other", Deser.con1_ datatypes.Other) ].

#[export] Instance Serialize_pyval : Serialize Py.pyval :=
  fun v =>
    match v with
    | Py.VNone => Atom "none"
    | Py.VBool b => [Atom "bool"; to_sexp b]
    | Py.VInt z => [Atom "int"; to_sexp z]
    | Py.VFloat x => [Atom "float"; to_sexp (x : Z * nat)]
    | Py.VStr s => [Atom "str"; to_sexp s]
    | Py.VJson s => [Atom "json"; to_sexp s]
    end%sexp.
#[export] Instance Deserialize_pyval : Deserialize Py.pyval :=
  Deser.match_con "value" [("none", Py.VNone)]
    [ ("bool", Deser.con1_ Py.VBool); ("int", Deser.con1_ Py.VInt);
      ("float", Deser.con1_ (fun x : Z * nat => Py.VFloat x));
      ("str", Deser.con1_ Py.VStr); ("json", Deser.con1_ Py.VJson) ].

#[export] Instance Serialize_element : Serialize SubmodelElement :=
  fun e =>
    match e with
    | IsProperty p =>
        [Atom "Property"; to_sexp (id_short p); to_sexp (value_type p);
         to_sexp (value p); to_sexp (semantic_id p)]
    | OtherElement n => [Atom "Element"; to_sexp n]
    end%sexp.
#[export] Instance Deserialize_element : Deserialize SubmodelElement :=
  Deser.match_con "submodelElement" []
    [ ("Property",
       Deser.con4_ (fun n t v s =>
         IsProperty {| id_short := n; value_type := t;
                       value := v; semantic_id := s |}));
      ("Element", Deser.con1_ OtherElement) ].

#[export] Instance Serialize_Identifiable : Serialize Identifiable :=
  fun o =>
    match o with
    | AnAAS a =>
        [Atom "AssetAdministrationShell"; to_sexp (aas_id a);
         to_sexp (aas_id_short a);
         to_sexp (asset_kind (asset_information a));
         to_sexp (global_asset_id (asset_information a));
         to_sexp (submodel a)]
    | ASubmodel s =>
        [Atom "Submodel"; to_sexp (sm_id s); to_sexp (sm_id_short s);
         to_sexp (submodel_element s)]
    | AConceptDescription c =>
        [Atom "ConceptDescription"; to_sexp (cd_id c);
         to_sexp (cd_id_short c); to_sexp (display_name c);
         to_sexp (description c)]
    end%sexp.
#[export] Instance Deserialize_Identifiable : Deserialize Identifiable :=
  Deser.match_con "identifiable" []
    [ ("AssetAdministrationShell",
       Deser.con5_ (fun i n k g r =>
         AnAAS {| aas_id := i; aas_id_short := n;
                  asset_information :=
                    {| asset_kind := k; global_asset_id := g |};
                  submodel := r |}));
      ("Submodel",
       Deser.con3_ (fun i n e =>
         ASubmodel {| sm_id := i; sm_id_short := n; submodel_element := e |}));
      ("ConceptDescription",
       Deser.con4_ (fun i n d t =>
         AConceptDescription
           {| cd_id := i; cd_id_short := n;
              display_name := d; description := t |})) ].

Definition write_store (st : DictObjectStore) : string * option exn :=
  (to_string (Py.values st), None).

(** A store is rebuilt by adding the objects read, one by one. *)
Definition read_store (text : string) : result DictObjectStore :=
  match from_string text with
  | inr objs => store_add_all objs []
  | inl _ => Raise (ValueError "malformed file")
  end.

#[export] Instance sdk : BaSyx := {|
  check_AssetInformation := fun _ g =>
    constraint (nonempty g) "AssetInformation needs a global_asset_id";
  check_AssetAdministrationShell := check_identifiable;
  check_Submodel := check_identifiable;
  check_ConceptDescription := check_identifiable;
  check_Property := fun n =>
    constraint (valid_id_short n) "id_short violates constraint AASd-002";
  check_value := check_int32;
  check_Key := fun v => constraint (nonempty v) "Key needs a value";
  check_MultiLanguageNameType := fun s =>
    constraint (String.length s <=? 128)%nat "text is longer than 128";
  check_MultiLanguageTextType := fun s =>
    constraint (String.length s <=? 1023)%nat "text is longer than 1023";
  type_name := fun t =>
    match t with
    | datatypes.String => "str"
    | datatypes.Int => "Int"
    | datatypes.Float => "Float"
    | datatypes.Boolean => "bool"
    | datatypes.Other xsd => xsd
    end;
  write_aas_json_file := write_store;
  read_aas_json_file := read_store;
  json_pretty := fun text => Return text
|}.

(** The same SDK on a disk that is full after sixteen bytes. *)
Definition cramped : BaSyx := {|
  check_AssetInformation := @check_AssetInformation _ sdk;
  check_AssetAdministrationShell := @check_AssetAdministrationShell _ sdk;
  check_Submodel := @check_Submodel _ sdk;
  check_ConceptDescription := @check_ConceptDescription _ sdk;
  check_Property := @check_Property _ sdk;
  check_value := @check_value _ sdk;
  check_Key := @check_Key _ sdk;
  check_MultiLanguageNameType := @check_MultiLanguageNameType _ sdk;
  check_MultiLanguageTextType := @check_MultiLanguageTextType _ sdk;
  type_name := @type_name _ sdk;
  write_aas_json_file := fun st =>
    (substring 0 16 (fst (write_store st)),
     Some (OSError "[Errno 28] No space left on device"));
  read_aas_json_file := read_store;
  json_pretty := fun text => Return text
|}.


(** A working directory without subdirectories, and nothing outside it:
    a leading "./" is passed over, and a name with another "/" lies in a
    directory that is not there. *)
Fixpoint drop_dot_slash (name : string) : string :=
  match name with
  | String "."%char (String "/"%char r) => drop_dot_slash r
  | _ => name
  end.

Definition has_char (c : ascii) (s : string) : bool :=
  existsb (Ascii.eqb c) (list_ascii_of_string s).

Definition flat_directory (m : mode) (name : string) (fs : Py.dict string)
  : result string :=
  let missing :=
    Raise (FileNotFoundError
             ("[Errno 2] No such file or directory: '" ++ name ++ "'")) in
  if has_char "000"%char name
  then Raise (ValueError "embedded null byte")
  else if (255 <? String.length name)%nat
  then Raise (OSError ("[Errno 36] File name too long: '" ++ name ++ "'"))
  else if String.eqb name "" then missing
  else
    let path := drop_dot_slash name in
    if (String.eqb path "" || String.eqb path "." || String.eqb path "..")%bool
    then Raise (OSError ("[Errno 21] Is a directory: '" ++ name ++ "'"))
    else if has_char "/"%char path then missing
    else Return path.

#[export] Instance disk : FileSystem := {| locate := flat_directory |}.

End Host.

(* ================================================================== *)
(** * A document on the concrete host *)

Module Demo.
Import Host.

Definition motor : AssetAdministrationShell :=
  {| aas_id := "https://ex/aas/motor";
     aas_id_short := "motor";
     asset_information :=
       {| asset_kind := INSTANCE;
          global_asset_id := "https://ex/assets/motor1" |};
     submodel := ["https://ex/sm/tech"; "https://ex/sm/spare"] |}.

Definition temperature : Property :=
  {| id_short := "Temperature"; value_type := datatypes.Float;
     value := Some (Py.VFloat (255, 1%nat)); semantic_id := Some "urn:c1" |}.

Definition count : Property :=
  {| id_short := "Count"; value_type := datatypes.Int;
     value := Some (Py.VInt 42); semantic_id := None |}.

Definition tech : Submodel :=
  {| sm_id := "https://ex/sm/tech"; sm_id_short := "TechData";
     submodel_element := [IsProperty temperature; IsProperty count] |}.

(** A second submodel of the same short name. *)
Definition spare : Submodel :=
  {| sm_id := "https://ex/sm/spare"; sm_id_short := "TechData";
     submodel_element := [] |}.

Definition docs : Submodel :=
  {| sm_id := "https://ex/sm/docs"; sm_id_short := "Documents";
     submodel_element := [] |}.

Definition c1 : ConceptDescription :=
  {| cd_id := "urn:c1"; cd_id_short := "Temp";
     display_name := Some "Temperature";
     description := Some "Temperature of the winding" |}.

Definition c2 : ConceptDescription :=
  {| cd_id := "urn:c2"; cd_id_short := "Count";
     display_name := None; description := None |}.

Definition document : AASAgent :=
  {| aas := Some motor;
     submodels := [ ("https://ex/sm/docs", docs);
                    ("https://ex/sm/tech", tech);
                    ("https://ex/sm/spare", spare) ];
     concept_descriptions := [ ("urn:c2", c2); ("urn:c1", c1) ] |}.

Definition world : World := {| self := document; files := [] |}.

Definition fresh : World := {| self := init; files := [] |}.

Definition str_arg (k v : string) : string * Py.pyval := (k, Py.VStr v).

(** The scenario of the specification, up to the saving. *)
Definition scenario : list (string * Py.dict Py.pyval) :=
  [ ("create_aas",
     [ str_arg "aas_id" "https://ex/aas/motor"; str_arg "id_short" "motor";
       str_arg "global_asset_id" "https://ex/assets/motor1" ]);
    ("add_submodel",
     [ str_arg "submodel_id" "https://ex/sm/tech";
       str_arg "id_short" "TechData" ]);
    ("add_property",
     [ str_arg "submodel_id_short" "TechData";
       str_arg "property_name" "Temperature"; str_arg "value_type" "float";
       ("value", Py.VFloat (255, 1%nat)) ]);
    ("get_property_value",
     [ str_arg "submodel_id_short" "TechData";
       str_arg "property_name" "Temperature" ]);
    ("update_property",
     [ str_arg "submodel_id_short" "TechData";
       str_arg "property_name" "Temperature"; str_arg "value" "30" ]);
    ("save_aas", [ str_arg "filename" "motor.json" ]) ].

(** The demo document beside three files: an older "motor.json", a file
    that is no document, and some notes. *)
Definition desk : World :=
  {| self := document;
     files := [ ("motor.json", "an older text"); ("scrap.json", "((");
                ("notes.txt", "to do") ] |}.

(** Another document, of a pump, beside the file the demo document was
    saved to. *)
Definition pump : AssetAdministrationShell :=
  {| aas_id := "https://ex/aas/pump";
     aas_id_short := "pump";
     asset_information :=
       {| asset_kind := INSTANCE;
          global_asset_id := "https://ex/assets/pump7" |};
     submodel := ["https://ex/sm/docs"] |}.

Definition sketch : AASAgent :=
  {| aas := Some pump;
     submodels := [("https://ex/sm/docs", docs)];
     concept_descriptions := [("urn:c2", c2)] |}.

Definition sketch_beside_saved : World :=
  {| self := sketch; files := files (snd (save_aas "motor.json" world)) |}.


End Demo.

(* ================================================================== *)
(** * The vocabulary of the properties *)

Section Vocabulary.
Context {F : PyFloat} {L : BaSyx} {FS : FileSystem}.

(** The character [c] is the character [l] of a word written in lower
    case, or the capital of that letter. *)
Definition either_case (l c : ascii) : bool :=
  (Ascii.eqb c l
   || (let n := nat_of_ascii l in
       (97 <=? n) && (n <=? 122) && (nat_of_ascii c + 32 =? n))%nat)%bool.

(** [s] spells the word, the case of its letters aside. *)
Fixpoint spells (word s : string) : bool :=
  match word, s with
  | EmptyString, EmptyString => true
  | String l word', String c s' => (either_case l c && spells word' s')%bool
  | _, _ => false
  end.

(** The letters of [word] are no capitals. *)
Fixpoint no_capital (word : string) : Prop :=
  match word with
  | EmptyString => True
  | String l r =>
      (nat_of_ascii l < 65 \/ 90 < nat_of_ascii l)%nat /\ no_capital r
  end.

(** The boolean coercion in the words of the specification: a boolean is
    passed through; any other input is true exactly when its string form
    is, the case of its letters aside, one of "true", "t", "yes" and "1". *)
Definition boolean_by_the_words (v : Py.pyval) : bool :=
  match v with
  | Py.VBool b => b
  | _ =>
      existsb (fun word => spells word (Py.str v)) ["true"; "t"; "yes"; "1"]
  end.

(** The shape of the agent's two dicts: no key twice, and every object
    stored under its own id. *)
Definition keyed_by {V} (id : V -> string) (d : Py.dict V) : Prop :=
  NoDup (Py.keys d) /\ Forall (fun kv => id (snd kv) = fst kv) d.

Definition has_id (x : string) (sm : Submodel) : bool :=
  String.eqb (sm_id sm) x.

Definition preserves {A} (P : World -> Prop) (m : M A) : Prop :=
  forall w : World, P w -> P (snd (m w)).

(** A property of the shell alone. *)
Definition on_aas (Q : option AssetAdministrationShell -> Prop)
  : World -> Prop :=
  fun w => Q (aas (self w)).

Definition kind_is_instance (a : option AssetAdministrationShell) : Prop :=
  match a with
  | Some shell => asset_kind (asset_information shell) = INSTANCE
  | None => True
  end.

(** The world with another submodel mapping. *)
Definition with_submodels (w : World) (d : Py.dict Submodel) : World :=
  {| self := {| aas := aas (self w);
                submodels := d;
                concept_descriptions := concept_descriptions (self w) |};
     files := files w |}.

(** No entry of [d] holds a submodel of the short name [n]. *)
Definition none_named (n : string) (d : Py.dict Submodel) : Prop :=
  Forall (fun kv => sm_id_short (snd kv) <> n) d.

(** What [update_property] assigns: the conversion chosen by the declared
    type, then the setter of the value. *)
Definition coerce (vt : datatypes.t) (v : Py.pyval)
  : result (option Py.pyval) :=
  match convert_by_type vt v with
  | Return c => set_value vt (Some c)
  | Raise e => Raise e
  end.

(** The store [save_aas] writes for a document with the shell [shell]. *)
Definition document_store (shell : AssetAdministrationShell) (s : AASAgent)
  : DictObjectStore :=
  ((aas_id shell, AnAAS shell)
   :: map (fun sm => (sm_id sm, ASubmodel sm)) (Py.values (submodels s))
   ++ map (fun c => (cd_id c, AConceptDescription c))
        (Py.values (concept_descriptions s)))%list.

(** The ids of the shell, of the submodels and of the concept descriptions
    are all different. *)
Definition distinct_ids (shell : AssetAdministrationShell) (s : AASAgent)
  : Prop :=
  NoDup (aas_id shell
         :: Py.keys (submodels s) ++ Py.keys (concept_descriptions s))%list.


(** Both mappings of the agent hold every object under its own id. *)
Definition keyed (w : World) : Prop :=
  keyed_by sm_id (submodels (self w))
  /\ keyed_by cd_id (concept_descriptions (self w)).

End Vocabulary.

Section FurtherVocabulary.
Context {F : PyFloat} {L : BaSyx} {FS : FileSystem}.

(** Every handler keeps [P] from the world [w]; [load_aas] is asked for
    only when [loading] is set. *)
Definition handlers_keep (P : World -> Prop) (loading : bool) (w : World)
  : Prop :=
  (forall a b c, P (snd (create_aas a b c w)))
  /\ (forall a b, P (snd (add_submodel a b w)))
  /\ (forall a b c v s, P (snd (add_property a b c v s w)))
  /\ (forall a b v, P (snd (update_property a b v w)))
  /\ (forall a b, P (snd (get_property_value a b w)))
  /\ (forall a b c, P (snd (update_semantic_id a b c w)))
  /\ (forall a b c d, P (snd (add_concept_description a b c d w)))
  /\ (forall a, P (snd (save_aas a w)))
  /\ (loading = true -> forall a, P (snd (load_aas a w)))
  /\ P (snd (get_tree_view w))
  /\ P (snd (get_current_state w))
  /\ P (snd (get_digital_twin_json w)).

(** Every submodel reference of the shell is the id of a stored
    submodel. *)
Definition references_resolve (w : World) : Prop :=
  match aas (self w) with
  | Some shell => incl (submodel shell) (Py.keys (submodels (self w)))
  | None => True
  end.

(** The name [save_aas] writes to: the default extension is appended to a
    name that lacks it. *)
Definition effective_name (filename : string) : string :=
  if Py.endswith filename ".json" then filename else filename ++ ".json".

(** The document [load_aas] makes of a store. *)
Definition loaded_document (store : DictObjectStore) : AASAgent :=
  {| aas := first_aas (Py.values store);
     submodels := load_submodels (Py.values store);
     concept_descriptions := load_concept_descriptions (Py.values store) |}.

(** The lines of a submodel in the tree, drawn as the last sibling or as
    one that others follow: [tree_of_submodel] at an index that is, or is
    not, the number of siblings. *)
Definition submodel_branch (is_last : bool) (sm : Submodel) : list string :=
  tree_of_submodel 1 (if is_last then 1 else 0, sm)%nat.

Definition element_branch (continuation : string) (is_last : bool)
  (e : SubmodelElement) : list string :=
  tree_of_element continuation 1 (if is_last then 1 else 0, e)%nat.

(** The schema of [d] declares the parameter [k] as a string. *)
Definition declared_string (d : function_descriptor) (k : string) : bool :=
  existsb
    (fun prm =>
       String.eqb (p_name prm) k
       && match p_type prm with
          | Some t => String.eqb t "string"
          | None => false
          end)
    (fd_properties d).

(** An argument mapping that fits the schema of [d]: every key is a
    declared property, every required property is there, and the
    properties declared as strings hold strings. *)
Definition conforms (d : function_descriptor) (arguments : Py.dict Py.pyval)
  : Prop :=
  (forall k, In k (Py.keys arguments) -> In k (map p_name (fd_properties d)))
  /\ (forall k, In k (fd_required d) -> In k (Py.keys arguments))
  /\ (forall k v, declared_string d k = true ->
                  Py.dict_get k arguments = Some v ->
                  exists s, v = Py.VStr s).

(** The arguments of a call, by keyword: the string at [k], the string at
    [k] when there is one, and the value at [k] ([None] when the keyword is
    absent). *)
Definition text_at (k : string) (arguments : Py.dict Py.pyval) : string :=
  match Py.dict_get k arguments with
  | Some (Py.VStr s) => s
  | _ => ""
  end.

Definition text_if_at (k : string) (arguments : Py.dict Py.pyval)
  : option string :=
  match Py.dict_get k arguments with
  | Some (Py.VStr s) => Some s
  | _ => None
  end.

Definition value_at (k : string) (arguments : Py.dict Py.pyval)
  : Py.pyval :=
  match Py.dict_get k arguments with
  | Some v => v
  | None => Py.VNone
  end.

End FurtherVocabulary.

Section ConversationVocabulary.
Context {F : PyFloat} {L : BaSyx} {FS : FileSystem} {O : OpenAI}.

(** The messages of the first request to the model: the system message
    with the current state, then the history with the user's message. *)
Definition request_messages (user_message : string) (s : Session)
  : list chat_message :=
  System (system_message (current_state (self (world s))))
  :: map FromHistory
       (add_to_history "user" (Some user_message) (conversation_history s)).

(** The arguments of each call decode to the mapping beside it. *)
Definition decode_to (calls : list tool_call)
  (mappings : list (Py.dict Py.pyval)) : Prop :=
  Forall2
    (fun tc arguments =>
       json_loads (tc_arguments tc) = Return (Mapping arguments))
    calls mappings.

(** The dispatcher calls that tool calls with these mappings amount to. *)
Definition dispatched (calls : list tool_call)
  (mappings : list (Py.dict Py.pyval))
  : list (string * Py.dict Py.pyval) :=
  combine (map tc_name calls) mappings.

End ConversationVocabulary.

(** A scripted model, for running the loop: asked with the catalog it
    wants a shell created and a submodel added, asked without it answers
    that it is done; the decoder knows the arguments of these two calls. *)
Module Scripted.
Import Host.

Definition q : string := String (ascii_of_nat 34) EmptyString.

Definition json_object (fields : list (string * string)) : string :=
  "{" ++ String.concat ", "
           (map (fun kv => q ++ fst kv ++ q ++ ": " ++ q ++ snd kv ++ q)
              fields)
  ++ "}".

Definition create_arguments : list (string * string) :=
  [ ("aas_id", "https://example.com/aas/motor"); ("id_short", "motor");
    ("global_asset_id", "https://example.com/assets/motor") ].

Definition submodel_arguments : list (string * string) :=
  [ ("submodel_id", "https://example.com/submodels/tech");
    ("id_short", "TechData") ].

Definition as_mapping (fields : list (string * string))
  : Py.dict Py.pyval :=
  map (fun kv => (fst kv, Py.VStr (snd kv))) fields.

Definition wanted : list tool_call :=
  [ {| tc_id := "call_1"; tc_name := "create_aas";
       tc_arguments := json_object create_arguments |};
    {| tc_id := "call_2"; tc_name := "add_submodel";
       tc_arguments := json_object submodel_arguments |} ].

#[export] Instance model : OpenAI := {|
  chat_completions_create := fun _ tools =>
    match tools with
    | Some _ => Return {| am_content := None; am_tool_calls := wanted |}
    | None =>
        Return {| am_content := Some "Created the motor with its technical data.";
                  am_tool_calls := [] |}
    end;
  json_loads := fun text =>
    if String.eqb text (json_object create_arguments)
    then Return (Mapping (as_mapping create_arguments))
    else if String.eqb text (json_object submodel_arguments)
    then Return (Mapping (as_mapping submodel_arguments))
    else Raise (ValueError "Expecting value: line 1 column 1 (char 0)")
|}.

(** A model whose second tool call carries arguments that are no JSON. *)
Definition garbled : list tool_call :=
  [ {| tc_id := "call_1"; tc_name := "create_aas";
       tc_arguments := json_object create_arguments |};
    {| tc_id := "call_2"; tc_name := "add_submodel";
       tc_arguments := "{" |} ].

Definition stumbling : OpenAI := {|
  chat_completions_create := fun _ _ =>
    Return {| am_content := None; am_tool_calls := garbled |};
  json_loads := @json_loads _ model
|}.

(** A model that cannot be reached. *)
Definition unreachable : OpenAI := {|
  chat_completions_create := fun _ _ => Raise (LibraryError "Connection error.");
  json_loads := @json_loads _ model
|}.

End Scripted.

(* ================================================================== *)
(** * Properties *)

Ltac unfold_monad :=
  unfold bind, try_, ret, raise, lift, get_self, get_files,
    set_aas, set_submodels, set_concept_descriptions, set_files.

Section Properties.
Context {F : PyFloat} {L : BaSyx} {FS : FileSystem}.

(** ** Dictionaries *)

Lemma dict_get_none_iff {V} (k : string) (d : Py.dict V) :
  Py.dict_get k d = None <-> ~ In k (Py.keys d).
Proof.
  induction d as [| [k' v] r IH]; simpl.
  - tauto.
  - destruct (String.eqb_spec k' k) as [-> | Hne].
    + split; [discriminate | intros H; exfalso; apply H; now left].
    + rewrite IH. split.
      * intros H [E | I]; [now apply Hne | now apply H].
      * intros H I. apply H. now right.
Qed.

Lemma dict_set_keys_present {V} (k : string) (v : V) (d : Py.dict V) :
  In k (Py.keys d) -> Py.keys (Py.dict_set k v d) = Py.keys d.
Proof.
  induction d as [| [k' v'] r IH]; simpl; intros H.
  - contradiction.
  - destruct (String.eqb_spec k' k) as [-> | Hne]; simpl.
    + reflexivity.
    + f_equal. apply IH. destruct H as [E | I]; [contradiction | exact I].
Qed.

Lemma dict_set_keys_absent {V} (k : string) (v : V) (d : Py.dict V) :
  ~ In k (Py.keys d) -> Py.dict_set k v d = (d ++ [(k, v)])%list.
Proof.
  induction d as [| [k' v'] r IH]; simpl; intros H.
  - reflexivity.
  - destruct (String.eqb_spec k' k) as [-> | Hne].
    + exfalso. apply H. now left.
    + f_equal. apply IH. intros I. apply H. now right.
Qed.

Lemma dict_get_set_same {V} (k : string) (v : V) (d : Py.dict V) :
  Py.dict_get k (Py.dict_set k v d) = Some v.
Proof.
  induction d as [| [k' v'] r IH]; simpl.
  - now rewrite String.eqb_refl.
  - destruct (String.eqb_spec k' k) as [-> | Hne]; simpl.
    + now rewrite String.eqb_refl.
    + destruct (String.eqb_spec k' k); [contradiction | exact IH].
Qed.

Lemma dict_get_set_other {V} (k k0 : string) (v : V) (d : Py.dict V) :
  k0 <> k -> Py.dict_get k0 (Py.dict_set k v d) = Py.dict_get k0 d.
Proof.
  intros Hne. induction d as [| [k' v'] r IH]; simpl.
  - destruct (String.eqb_spec k k0); [congruence | reflexivity].
  - destruct (String.eqb_spec k' k) as [-> | Hk]; simpl.
    + destruct (String.eqb_spec k k0); [congruence | reflexivity].
    + destruct (String.eqb_spec k' k0); [reflexivity | exact IH].
Qed.

Lemma dict_set_length_present {V} (k : string) (v : V) (d : Py.dict V) :
  In k (Py.keys d) -> List.length (Py.dict_set k v d) = List.length d.
Proof.
  intros H. unfold Py.dict.
  rewrite <- (length_map fst (Py.dict_set k v d)), <- (length_map fst d).
  change (map fst (Py.dict_set k v d)) with (Py.keys (Py.dict_set k v d)).
  now rewrite dict_set_keys_present.
Qed.

(** ** Structural operations *)

(** C4.  Without a shell, [add_submodel] answers that no AAS exists, for
    any id and short name, and the world (the submodel mapping with it) is
    left as it was. *)
Theorem add_submodel_requires_shell :
  forall (w : World) (submodel_id name : string),
    aas (self w) = None ->
    add_submodel submodel_id name w
    = (Return "❌ No AAS exists. Please create an AAS first.", w).
Proof.
  intros w submodel_id name H.
  unfold add_submodel. unfold_monad. now rewrite H.
Qed.

(** C3.  Whatever the document holds, [create_aas] with arguments the
    constructors accept succeeds: the shell is the new one (no field of the
    old one survives), and the submodels, the concept descriptions and the
    files are those of before. *)
Theorem create_aas_replaces_shell_only :
  forall (w : World) (id_ name gid : string),
    check_AssetInformation INSTANCE gid = None ->
    check_AssetAdministrationShell id_ name = None ->
    create_aas id_ name gid w
    = (Return ("✅ Created AAS '" ++ name ++ "' with ID: " ++ id_),
       {| self :=
            {| aas :=
                 Some {| aas_id := id_; aas_id_short := name;
                         asset_information :=
                           {| asset_kind := INSTANCE;
                              global_asset_id := gid |};
                         submodel := [] |};
               submodels := submodels (self w);
               concept_descriptions := concept_descriptions (self w) |};
          files := files w |}).
Proof.
  intros w id_ name gid Hinfo Hshell.
  unfold create_aas, new_AssetInformation, new_AssetAdministrationShell.
  unfold_monad. rewrite Hinfo. simpl. rewrite Hshell. reflexivity.
Qed.

(** Whether [create_aas] succeeds or not, only the shell can change. *)
Lemma create_aas_frame :
  forall (w : World) (id_ name gid : string),
    submodels (self (snd (create_aas id_ name gid w))) = submodels (self w)
    /\ concept_descriptions (self (snd (create_aas id_ name gid w)))
       = concept_descriptions (self w)
    /\ files (snd (create_aas id_ name gid w)) = files w.
Proof.
  intros w id_ name gid.
  unfold create_aas, new_AssetInformation, new_AssetAdministrationShell.
  unfold_monad.
  destruct (check_AssetInformation INSTANCE gid); simpl; auto.
  destruct (check_AssetAdministrationShell id_ name); simpl; auto.
Qed.

(** ** Element operations *)

(** C7.  When the lower-cased tag is no key of the type table,
    [add_property] on a submodel it can resolve answers that the value type
    is invalid and changes nothing: the submodel's elements are those of
    before. *)
Theorem add_property_invalid_type :
  forall (w : World) (name pname tag : string) (v : Py.pyval)
         (sem : option string) (sm : Submodel),
    find_submodel name (submodels (self w)) = Some sm ->
    ~ In (Py.lower tag) (Py.keys type_map) ->
    add_property name pname tag v sem w
    = (Return ("❌ Invalid value type: " ++ tag), w)
    /\ find_submodel name
         (submodels (self (snd (add_property name pname tag v sem w))))
       = Some sm.
Proof.
  intros w name pname tag v sem sm Hsm Htag.
  apply dict_get_none_iff in Htag.
  assert (E : add_property name pname tag v sem w
              = (Return ("❌ Invalid value type: " ++ tag), w)).
  { unfold add_property. unfold_monad. rewrite Hsm, Htag. reflexivity. }
  split; [exact E | now rewrite E].
Qed.

(** ** Value coercion *)

Lemma str_in_In (x : string) (t : list string) :
  Py.str_in x t = true <-> In x t.
Proof.
  unfold Py.str_in. rewrite existsb_exists. split.
  - intros [y [I E]]. apply String.eqb_eq in E. now subst.
  - intros I. exists x. split; [exact I | apply String.eqb_refl].
Qed.

Lemma lower_ascii_either_case (l c : ascii) :
  (nat_of_ascii l < 65 \/ 90 < nat_of_ascii l)%nat ->
  Ascii.eqb (Py.lower_ascii c) l = either_case l c.
Proof.
  intros Hl. unfold Py.lower_ascii, either_case. cbv zeta.
  pose proof (nat_ascii_bounded c) as Hc.
  destruct ((65 <=? nat_of_ascii c)%nat && (nat_of_ascii c <=? 90)%nat)%bool
    eqn:Hup.
  - apply andb_true_iff in Hup. destruct Hup as [H1 H2].
    apply Nat.leb_le in H1, H2.
    assert (Hne : Ascii.eqb c l = false).
    { apply Ascii.eqb_neq. intros ->. lia. }
    rewrite Hne, orb_false_l.
    destruct (Nat.eqb_spec (nat_of_ascii c + 32) (nat_of_ascii l)) as [E | N].
    + rewrite E, ascii_nat_embedding, Ascii.eqb_refl.
      assert (H97 : (97 <=? nat_of_ascii l)%nat = true)
        by (apply Nat.leb_le; lia).
      assert (H122 : (nat_of_ascii l <=? 122)%nat = true)
        by (apply Nat.leb_le; lia).
      now rewrite H97, H122.
    + rewrite andb_false_r. apply Ascii.eqb_neq. intros E. apply N.
      rewrite <- E. rewrite nat_ascii_embedding; lia.
  - destruct (Ascii.eqb c l); [reflexivity |]. rewrite orb_false_l.
    destruct (Nat.eqb_spec (nat_of_ascii c + 32) (nat_of_ascii l)) as [E | N];
      [| now rewrite andb_false_r].
    destruct ((97 <=? nat_of_ascii l)%nat) eqn:H97; [| reflexivity].
    destruct ((nat_of_ascii l <=? 122)%nat) eqn:H122; [| reflexivity].
    apply Nat.leb_le in H97, H122.
    apply andb_false_iff in Hup.
    destruct Hup as [H | H]; apply Nat.leb_gt in H; lia.
Qed.

Lemma lower_spells (word : string) :
  no_capital word ->
  forall s : string, String.eqb (Py.lower s) word = spells word s.
Proof.
  induction word as [| l r IH]; intros Hw [| c s]; simpl; try reflexivity.
  destruct Hw as [Hl Hr].
  rewrite (@lower_ascii_either_case l c Hl).
  destruct (either_case l c); [now apply IH | reflexivity].
Qed.

Ltac no_capitals :=
  simpl; repeat split;
  first [ left; apply Nat.ltb_lt; reflexivity
        | right; apply Nat.ltb_lt; reflexivity ].

(** C6.  The boolean coercion of the source is the one the specification
    words: a boolean is passed through, and any other input is true exactly
    when its string form, the case of its letters aside, is "true", "t",
    "yes" or "1"; everything else, garbage included, is false.  Both
    handlers use it for a boolean property (the one by the property's type,
    the other by a tag that spells "boolean"), and the conversion never
    raises. *)
Theorem boolean_coercion :
  (forall v : Py.pyval, to_boolean v = boolean_by_the_words v)
  /\ (forall v : Py.pyval,
        convert_by_type datatypes.Boolean v
        = Return (Py.VBool (boolean_by_the_words v)))
  /\ (forall (v : Py.pyval) (tag : string),
        spells "boolean" tag = true -> v <> Py.VNone ->
        convert_by_tag tag v
        = Return (Some (Py.VBool (boolean_by_the_words v))))
  /\ map to_boolean
       [ Py.VBool true; Py.VStr "true"; Py.VStr "TRUE"; Py.VStr "True";
         Py.VStr "t"; Py.VStr "T"; Py.VStr "yes"; Py.VStr "YeS";
         Py.VStr "1"; Py.VInt 1 ]
     = [ true; true; true; true; true; true; true; true; true; true ]
  /\ map to_boolean
       [ Py.VBool false; Py.VStr "false"; Py.VStr "0"; Py.VStr "";
         Py.VStr "on"; Py.VStr "y"; Py.VStr "tru"; Py.VStr " true";
         Py.VStr "true "; Py.VStr "truee"; Py.VStr "no"; Py.VInt 0;
         Py.VInt 2; Py.VNone; Py.VJson "[]" ]
     = [ false; false; false; false; false; false; false; false; false;
         false; false; false; false; false; false ].
Proof.
  assert (Hwords : forall v : Py.pyval,
             to_boolean v = boolean_by_the_words v).
  { intros v. unfold to_boolean, boolean_by_the_words, Py.str_in, truthy.
    destruct v; try reflexivity;
      cbn [existsb];
      rewrite (@lower_spells "true"), (@lower_spells "t"),
        (@lower_spells "yes"), (@lower_spells "1") by no_capitals;
      reflexivity. }
  split; [exact Hwords |]. split; [| split; [| split]].
  - intros v. unfold convert_by_type. simpl. now rewrite Hwords.
  - intros v tag Htag Hv. unfold convert_by_tag.
    rewrite <- (@lower_spells "boolean") in Htag by no_capitals.
    apply String.eqb_eq in Htag. rewrite Htag. simpl. rewrite Hwords.
    destruct v; try reflexivity. contradiction.
  - reflexivity.
  - reflexivity.
Qed.

(** ** The dispatcher *)

Lemma try_returns {A} (m : M A) (h : exn -> M A) (w : World) :
  (forall e w0, exists a w1, h e w0 = (Return a, w1)) ->
  exists a w', try_ m h w = (Return a, w').
Proof.
  intros Hh. unfold try_. destruct (m w) as [[a | e] w'].
  - now exists a, w'.
  - apply Hh.
Qed.

(** C8.  [execute_function] returns a string for every name and every
    argument mapping: a name outside the catalog gives the unknown-function
    text and leaves the world alone, and an exception that a handler lets
    out is turned into the error text. *)
Theorem execute_function_total :
  (forall (name : string) (arguments : Py.dict Py.pyval) (w : World),
      exists (reply : string) (w' : World),
        execute_function name arguments w = (Return reply, w'))
  /\ (forall (name : string) (arguments : Py.dict Py.pyval) (w : World),
        ~ In name (Py.keys function_map) ->
        execute_function name arguments w
        = (Return ("❌ Unknown function: " ++ name), w))
  /\ (forall (name : string) (func : Py.dict Py.pyval -> M string)
             (arguments : Py.dict Py.pyval) (w w' : World) (e : exn),
        Py.dict_get name function_map = Some func ->
        func arguments w = (Raise e, w') ->
        execute_function name arguments w
        = (Return ("❌ Error executing " ++ name ++ ": " ++ str_exn e), w')).
Proof.
  split; [| split].
  - intros name arguments w. unfold execute_function.
    destruct (Py.dict_get name function_map) as [func |].
    + apply try_returns. intros e w0. unfold ret. eauto.
    + unfold ret. eauto.
  - intros name arguments w Hname. apply dict_get_none_iff in Hname.
    unfold execute_function. now rewrite Hname.
  - intros name func arguments w w' e Hfunc Hraise.
    unfold execute_function. rewrite Hfunc. unfold try_, ret.
    now rewrite Hraise.
Qed.

(** The handlers wrapped in [try]/[except] return a reply themselves. *)
Lemma handlers_return :
  forall (w : World),
    (forall a b c, exists r w', create_aas a b c w = (Return r, w'))
    /\ (forall a b, exists r w', add_submodel a b w = (Return r, w'))
    /\ (forall a b c v s, exists r w', add_property a b c v s w = (Return r, w'))
    /\ (forall a b v, exists r w', update_property a b v w = (Return r, w'))
    /\ (forall a b, exists r w', get_property_value a b w = (Return r, w'))
    /\ (forall a b c, exists r w', update_semantic_id a b c w = (Return r, w'))
    /\ (forall a b c d, exists r w',
           add_concept_description a b c d w = (Return r, w'))
    /\ (forall a, exists r w', save_aas a w = (Return r, w'))
    /\ (forall a, exists r w', load_aas a w = (Return r, w'))
    /\ (exists r w', get_digital_twin_json w = (Return r, w')).
Proof.
  intros w.
  repeat split; intros; apply try_returns; intros e w0;
    try (destruct e); unfold ret; eauto.
Qed.

(** ** Submodels are keyed by id *)

Lemma no_submodel_of_absent_id (x : string) (d : Py.dict Submodel) :
  Forall (fun kv => sm_id (snd kv) = fst kv) d ->
  ~ In x (Py.keys d) ->
  filter (has_id x) (Py.values d) = [].
Proof.
  induction d as [| [k sm] r IH]; simpl; intros Hk Hx.
  - reflexivity.
  - inversion Hk as [| ? ? Hsm Hr]; subst. simpl in Hsm.
    unfold has_id at 1. rewrite Hsm.
    destruct (String.eqb_spec k x) as [-> | Hne].
    + exfalso. apply Hx. now left.
    + apply IH; [exact Hr |]. intros I. apply Hx. now right.
Qed.

Lemma one_submodel_after_set (x : string) (new : Submodel)
  (d : Py.dict Submodel) :
  keyed_by sm_id d -> sm_id new = x -> In x (Py.keys d) ->
  filter (has_id x) (Py.values (Py.dict_set x new d)) = [new].
Proof.
  intros [Hnd Hk] Hnew. induction d as [| [k sm] r IH]; simpl; intros Hin.
  - contradiction.
  - inversion Hnd as [| ? ? Hk_r Hnd_r]; subst.
    inversion Hk as [| ? ? Hsm Hr]; subst. simpl in Hsm.
    destruct (String.eqb_spec k (sm_id new)) as [-> | Hne]; simpl.
    + unfold has_id at 1. rewrite String.eqb_refl. f_equal.
      now apply no_submodel_of_absent_id.
    + unfold has_id at 1. rewrite Hsm.
      destruct (String.eqb_spec k (sm_id new)); [contradiction |].
      apply IH; try assumption.
      destruct Hin as [E | I]; [contradiction | exact I].
Qed.

(** C5.  With a shell, and a submodel already stored under the id [x], a
    second [add_submodel] with the id [x] (and a short name the constructor
    accepts) succeeds and overwrites the entry: the keys of the mapping are
    those of before, the entry at [x] is the new, empty submodel with the
    new short name, and it is the only submodel whose id is [x]. *)
Theorem add_submodel_overwrites_by_id :
  forall (w : World) (shell : AssetAdministrationShell) (x name : string)
         (old : Submodel),
    aas (self w) = Some shell ->
    keyed_by sm_id (submodels (self w)) ->
    Py.dict_get x (submodels (self w)) = Some old ->
    check_Submodel x name = None ->
    let new := {| sm_id := x; sm_id_short := name; submodel_element := [] |} in
    exists w' : World,
      add_submodel x name w
      = (Return ("✅ Added submodel '" ++ name ++ "' to AAS"), w')
      /\ submodels (self w') = Py.dict_set x new (submodels (self w))
      /\ Py.keys (submodels (self w')) = Py.keys (submodels (self w))
      /\ Py.dict_get x (submodels (self w')) = Some new
      /\ filter (has_id x) (Py.values (submodels (self w'))) = [new].
Proof.
  intros w shell x name old Hshell Hkeyed Hold Hcheck new.
  assert (Hin : In x (Py.keys (submodels (self w)))).
  { destruct (in_dec string_dec x (Py.keys (submodels (self w)))) as [I | N];
      [exact I |].
    apply dict_get_none_iff in N. congruence. }
  eexists. split.
  - unfold add_submodel, new_Submodel. unfold_monad.
    rewrite Hshell, Hcheck. simpl. reflexivity.
  - simpl. split; [reflexivity |]. split; [| split].
    + now apply dict_set_keys_present.
    + apply dict_get_set_same.
    + now apply one_submodel_after_set.
Qed.

(** ** What a handler leaves alone *)

Section Preservation.
Variable P : World -> Prop.

Lemma preserves_ret {A} (a : A) : preserves P (ret a).
Proof. intros w H. exact H. Qed.

Lemma preserves_raise {A} (e : exn) : preserves P (@raise _ A e).
Proof. intros w H. exact H. Qed.

Lemma preserves_lift {A} (r : result A) : preserves P (lift r).
Proof. intros w H. exact H. Qed.

Lemma preserves_get_self : preserves P get_self.
Proof. intros w H. exact H. Qed.

Lemma preserves_get_files : preserves P get_files.
Proof. intros w H. exact H. Qed.

Lemma preserves_bind {A B} (m : M A) (k : A -> M B) :
  preserves P m -> (forall a, preserves P (k a)) -> preserves P (bind m k).
Proof.
  intros Hm Hk w H. unfold bind. specialize (Hm w H).
  destruct (m w) as [[a | e] w']; simpl in *.
  - now apply Hk.
  - exact Hm.
Qed.

Lemma preserves_try {A} (m : M A) (h : exn -> M A) :
  preserves P m -> (forall e, preserves P (h e)) -> preserves P (try_ m h).
Proof.
  intros Hm Hh w H. unfold try_. specialize (Hm w H).
  destruct (m w) as [[a | e] w']; simpl in *.
  - exact Hm.
  - now apply Hh.
Qed.

End Preservation.

Section ShellPreservation.
Variable Q : option AssetAdministrationShell -> Prop.

Lemma preserves_set_submodels (d : Py.dict Submodel) :
  preserves (on_aas Q) (set_submodels d).
Proof. intros w H. exact H. Qed.

Lemma preserves_set_concept_descriptions (d : Py.dict ConceptDescription) :
  preserves (on_aas Q) (set_concept_descriptions d).
Proof. intros w H. exact H. Qed.

Lemma preserves_set_files (fs : Py.dict string) :
  preserves (on_aas Q) (set_files fs).
Proof. intros w H. exact H. Qed.

End ShellPreservation.

Ltac preserve :=
  repeat first
    [ apply preserves_ret | apply preserves_raise | apply preserves_lift
    | apply preserves_get_self | apply preserves_get_files
    | apply preserves_set_submodels
    | apply preserves_set_concept_descriptions
    | apply preserves_set_files
    | apply preserves_bind; [| intros ? ]
    | apply preserves_try; [| intros ? ]
    | match goal with
      | |- preserves _ (match ?x with _ => _ end) => destruct x
      end ].

(** The handlers that never assign the shell. *)
Lemma shell_untouched (Q : option AssetAdministrationShell -> Prop) :
  (forall a b c v s, preserves (on_aas Q) (add_property a b c v s))
  /\ (forall a b v, preserves (on_aas Q) (update_property a b v))
  /\ (forall a b, preserves (on_aas Q) (get_property_value a b))
  /\ (forall a b c, preserves (on_aas Q) (update_semantic_id a b c))
  /\ (forall a b c d, preserves (on_aas Q) (add_concept_description a b c d))
  /\ (forall a, preserves (on_aas Q) (save_aas a))
  /\ preserves (on_aas Q) get_tree_view
  /\ preserves (on_aas Q) get_current_state
  /\ preserves (on_aas Q) get_digital_twin_json.
Proof.
  repeat split; intros;
    unfold add_property, update_property, get_property_value,
      update_semantic_id, add_concept_description, save_aas, get_tree_view,
      get_current_state, get_digital_twin_json;
    cbv zeta; preserve.
Qed.

(** ** The asset kind *)

Lemma create_aas_kind (a b c : string) :
  preserves (on_aas kind_is_instance) (create_aas a b c).
Proof.
  intros w H. unfold create_aas, new_AssetInformation,
    new_AssetAdministrationShell. unfold_monad.
  destruct (check_AssetInformation INSTANCE c); simpl; [exact H |].
  destruct (check_AssetAdministrationShell a b); simpl; [exact H |].
  reflexivity.
Qed.

Lemma add_submodel_kind (a b : string) :
  preserves (on_aas kind_is_instance) (add_submodel a b).
Proof.
  intros w H. unfold add_submodel, new_Submodel. unfold_monad.
  unfold on_aas in *.
  destruct (aas (self w)) as [shell |] eqn:E; simpl.
  - destruct (check_Submodel a b); simpl.
    + now rewrite E.
    + exact H.
  - now rewrite E.
Qed.

Lemma dict_get_In {V} (k : string) (v : V) (d : Py.dict V) :
  Py.dict_get k d = Some v -> In (k, v) d.
Proof.
  induction d as [| [k' v'] r IH]; simpl; [discriminate |].
  destruct (String.eqb_spec k' k) as [-> | Hne].
  - intros [= ->]. now left.
  - intros H. right. now apply IH.
Qed.

(** Every entry of the catalog but [load_aas] keeps the kind. *)
Lemma catalog_keeps_kind (name : string)
  (func : Py.dict Py.pyval -> M string) (arguments : Py.dict Py.pyval) :
  Py.dict_get name function_map = Some func ->
  name <> "load_aas" ->
  preserves (on_aas kind_is_instance) (func arguments).
Proof.
  intros Hfunc Hname. apply dict_get_In in Hfunc.
  pose proof (shell_untouched kind_is_instance)
    as (Hap & Hup & Hgp & Hus & Hac & Hsv & Htv & Hcs & Hdt).
  unfold function_map in Hfunc. simpl in Hfunc.
  repeat (destruct Hfunc as [Hfunc | Hfunc];
          [ injection Hfunc as <- <- | ]);
    try contradiction; try congruence;
    unfold call_create_aas, call_add_submodel, call_add_property,
      call_update_property, call_get_property_value, call_save_aas,
      call_get_tree_view, call_get_current_state,
      call_add_concept_description, call_update_semantic_id,
      call_get_digital_twin_json;
    repeat first
      [ apply preserves_lift
      | apply preserves_bind; [| intros ? ] ];
    auto using create_aas_kind, add_submodel_kind.
Qed.

Lemma execute_function_keeps_kind (name : string)
  (arguments : Py.dict Py.pyval) :
  name <> "load_aas" ->
  preserves (on_aas kind_is_instance) (execute_function name arguments).
Proof.
  intros Hname. unfold execute_function.
  destruct (Py.dict_get name function_map) as [func |] eqn:E.
  - apply preserves_try.
    + now apply catalog_keeps_kind with (name := name).
    + intros e. apply preserves_ret.
  - apply preserves_ret.
Qed.

Lemma create_aas_creates_instance (w : World) (a b c : string) :
  aas (self (snd (create_aas a b c w))) = aas (self w)
  \/ exists shell : AssetAdministrationShell,
       aas (self (snd (create_aas a b c w))) = Some shell
       /\ asset_kind (asset_information shell) = INSTANCE.
Proof.
  unfold create_aas, new_AssetInformation, new_AssetAdministrationShell.
  unfold_monad.
  destruct (check_AssetInformation INSTANCE c); simpl; [now left |].
  destruct (check_AssetAdministrationShell a b); simpl; [now left |].
  right. eexists. split; reflexivity.
Qed.

(** C10.  From a document whose shell, if it has one, is of kind INSTANCE
    (the fresh agent is such a document), no sequence of dispatcher calls
    that leaves [load_aas] out reaches a shell of another kind; and in any
    document [create_aas] either creates nothing or creates a shell of
    kind INSTANCE. *)
Theorem shell_kind_stays_instance :
  forall (calls : list (string * Py.dict Py.pyval)) (w : World),
    kind_is_instance (aas (self w)) ->
    Forall (fun call => fst call <> "load_aas") calls ->
    kind_is_instance (aas (self (snd (run calls w))))
    /\ (forall (w0 : World) (a b c : string),
          aas (self (snd (create_aas a b c w0))) = aas (self w0)
          \/ exists shell : AssetAdministrationShell,
               aas (self (snd (create_aas a b c w0))) = Some shell
               /\ asset_kind (asset_information shell) = INSTANCE).
Proof.
  intros calls w Hw Hcalls. split.
  - revert w Hw. induction Hcalls as [| [name arguments] r Hname Hr IH];
      intros w Hw; simpl.
    + exact Hw.
    + simpl in Hname.
      pose proof (execute_function_keeps_kind arguments Hname w Hw) as Hstep.
      unfold on_aas in Hstep.
      destruct (execute_function name arguments w) as [reply w'].
      simpl in Hstep.
      specialize (IH w' Hstep).
      destruct (run r w') as [replies w'']. exact IH.
  - intros w0 a b c. apply create_aas_creates_instance.
Qed.

(** ** Lookup by short name *)

Lemma find_submodel_first (n k : string) (sm : Submodel)
  (pre post : Py.dict Submodel) :
  none_named n pre -> sm_id_short sm = n ->
  find_submodel n (pre ++ (k, sm) :: post)%list = Some sm.
Proof.
  intros Hpre Hsm. unfold find_submodel.
  induction Hpre as [| [k' sm'] r Hne Hr IH]; simpl.
  - rewrite Hsm, String.eqb_refl. reflexivity.
  - simpl in Hne. destruct (String.eqb_spec (sm_id_short sm') n);
      [contradiction | exact IH].
Qed.

Lemma mutate_submodel_first (n k : string) (sm sm' : Submodel)
  (pre post : Py.dict Submodel) :
  none_named n pre -> sm_id_short sm = n ->
  mutate_submodel n sm' (pre ++ (k, sm) :: post)%list
  = (pre ++ (k, sm') :: post)%list.
Proof.
  intros Hpre Hsm.
  induction Hpre as [| [k' sm0] r Hne Hr IH]; simpl.
  - rewrite Hsm, String.eqb_refl. reflexivity.
  - simpl in Hne. destruct (String.eqb_spec (sm_id_short sm0) n);
      [contradiction | now rewrite IH].
Qed.

(** A mapping in which the loop finds [sm] splits at the entry it stops
    at. *)
Lemma first_match_splits (n : string) (sm : Submodel)
  (d : Py.dict Submodel) :
  find_submodel n d = Some sm ->
  exists (pre post : Py.dict Submodel) (k : string),
    d = (pre ++ (k, sm) :: post)%list
    /\ none_named n pre /\ sm_id_short sm = n.
Proof.
  unfold find_submodel, none_named.
  induction d as [| [k sm0] r IH]; simpl; [discriminate |].
  destruct (String.eqb_spec (sm_id_short sm0) n) as [E | N].
  - intros [= ->]. exists [], r, k. repeat split; [constructor | exact E].
  - intros H. destruct (IH H) as (pre & post & k' & -> & Hpre & Hsm).
    exists ((k, sm0) :: pre), post, k'.
    repeat split; [constructor; [exact N | exact Hpre] | exact Hsm].
Qed.

(** Case analysis on the innermost scrutinee of the goal, until none is
    left. *)
Ltac split_matches :=
  repeat match goal with
         | |- context [match ?x with _ => _ end] =>
             lazymatch x with
             | context [match _ with _ => _ end] => fail
             | _ => destruct x eqn:?; cbn beta iota
             end
         end.

(** C9.  Let the first submodel of the short name [n], in the order of
    the mapping, be [sm] under the key [k]; other submodels of that short
    name may follow it.  Each operation that resolves [n] works on [sm]:
    [get_property_value] reads the element of [sm] (and fails when [sm] has
    none of that name, whatever a later submodel holds);
    [update_property], [add_property] and [update_semantic_id] change the
    elements of the entry at [k] and leave every other entry as it was.
    And [add_submodel] with a short name already in use, under a new id,
    succeeds: the mapping then holds both. *)
Theorem lookup_by_short_name_takes_first :
  forall (w : World) (n k : string) (sm : Submodel)
         (pre post : Py.dict Submodel),
    none_named n pre ->
    sm_id_short sm = n ->
    let found := with_submodels w (pre ++ (k, sm) :: post)%list in
    let put (elements : list SubmodelElement) :=
      with_submodels w (pre ++ (k, with_elements sm elements) :: post)%list in
    (forall p : string,
        get_property_value n p found
        = (Return
             match get_object_by_attribute p (submodel_element sm) with
             | Return (IsProperty prop) =>
                 "📌 " ++ p ++ " = " ++ Py.str_opt (value prop)
                 ++ " (" ++ type_name (value_type prop) ++ ")"
             | Return (OtherElement _) =>
                 "Element '" ++ p ++ "' is not a Property"
             | Raise e => "❌ Error getting property: " ++ str_exn e
             end, found))
    /\ (forall (p : string) (prop : Property) (v : Py.pyval)
               (nv : option Py.pyval),
          get_object_by_attribute p (submodel_element sm)
          = Return (IsProperty prop) ->
          coerce (value_type prop) v = Return nv ->
          update_property n p v found
          = (Return ("✅ Updated '" ++ p ++ "': "
                     ++ Py.str_opt (value prop) ++ " → " ++ Py.str_opt nv),
             put (mutate_element p (IsProperty (with_value prop nv))
                    (submodel_element sm))))
    /\ (forall (p tag : string) (v : Py.pyval) (vt : datatypes.t)
               (cv : option Py.pyval),
          Py.dict_get (Py.lower tag) type_map = Some vt ->
          convert_by_tag tag v = Return cv ->
          check_Property p = None ->
          set_value vt cv = Return cv ->
          existsb (fun e => String.eqb (elem_id_short e) p)
            (submodel_element sm) = false ->
          snd (add_property n p tag v None found)
          = put (submodel_element sm
                 ++ [IsProperty {| id_short := p; value_type := vt;
                                   value := cv; semantic_id := None |}])%list)
    /\ (forall (p sid : string) (prop : Property),
          get_object_by_attribute p (submodel_element sm)
          = Return (IsProperty prop) ->
          check_Key sid = None ->
          snd (update_semantic_id n p sid found)
          = put (namespace_discard p (submodel_element sm)
                 ++ [IsProperty (with_semantic_id prop (Some sid))])%list)
    /\ (forall (shell : AssetAdministrationShell) (k2 : string),
          aas (self w) = Some shell ->
          ~ In k2 (Py.keys (submodels (self w))) ->
          check_Submodel k2 n = None ->
          exists w' : World,
            add_submodel k2 n w
            = (Return ("✅ Added submodel '" ++ n ++ "' to AAS"), w')
            /\ submodels (self w')
               = (submodels (self w)
                  ++ [(k2, {| sm_id := k2; sm_id_short := n;
                              submodel_element := [] |})])%list).
Proof.
  intros w n k sm pre post Hpre Hsm found put.
  pose proof (@find_submodel_first n k sm pre post Hpre Hsm) as Hfull.
  assert (Hmut : forall sm',
             mutate_submodel n sm' (pre ++ (k, sm) :: post)%list
             = (pre ++ (k, sm') :: post)%list)
    by (intros sm'; now apply (@mutate_submodel_first n k sm sm' pre post)).
  repeat match goal with |- _ /\ _ => split end.
  - intros p. unfold get_property_value, found, with_submodels.
    unfold_monad. cbn [self submodels]. rewrite Hfull.
    destruct (get_object_by_attribute p (submodel_element sm)) as [[prop | o] | e];
      reflexivity.
  - intros p prop v nv Hget Hnv. unfold coerce in Hnv.
    destruct (convert_by_type (value_type prop) v) as [c | e] eqn:Hconv;
      [| discriminate].
    unfold update_property, found, put, with_submodels. unfold_monad.
    cbn [self submodels aas concept_descriptions files].
    now rewrite Hfull, Hget, Hconv, Hnv, Hmut.
  - intros p tag v vt cv Htag Hconv Hcheck Hset Hnew.
    unfold add_property, found, put, with_submodels, new_Property,
      namespace_add.
    unfold_monad. cbn [self submodels aas concept_descriptions files].
    rewrite Hfull, Htag, Hconv, Hcheck, Hset. cbn [given elem_id_short id_short].
    rewrite Hnew. cbn [snd self submodels aas concept_descriptions files].
    now rewrite Hmut.
  - intros p sid prop Hget Hkey.
    unfold update_semantic_id, found, put, with_submodels,
      new_ExternalReference, checked.
    unfold_monad. cbn [self submodels aas concept_descriptions files].
    rewrite Hfull, Hget, Hkey.
    cbn [snd self submodels aas concept_descriptions files].
    now rewrite Hmut.
  - intros shell k2 Hshell Hk2 Hcheck. eexists. split.
    + unfold add_submodel, new_Submodel. unfold_monad.
      rewrite Hshell, Hcheck. simpl. reflexivity.
    + simpl. now apply dict_set_keys_absent.
Qed.

(** ** Updating a property *)

Lemma find_submodel_named (n : string) (d : Py.dict Submodel)
  (sm : Submodel) :
  find_submodel n d = Some sm -> sm_id_short sm = n.
Proof.
  unfold find_submodel. intros H. apply find_some in H.
  now apply String.eqb_eq.
Qed.

Lemma find_mutate_submodel (n : string) (sm sm' : Submodel)
  (d : Py.dict Submodel) :
  find_submodel n d = Some sm -> sm_id_short sm' = n ->
  find_submodel n (mutate_submodel n sm' d) = Some sm'.
Proof.
  unfold find_submodel. intros Hfind Hname.
  induction d as [| [k sm0] r IH]; simpl in *; [discriminate |].
  destruct (String.eqb_spec (sm_id_short sm0) n) as [E | N]; simpl.
  - now rewrite Hname, String.eqb_refl.
  - destruct (String.eqb_spec (sm_id_short sm0) n); [contradiction |].
    now apply IH.
Qed.

Lemma get_object_named (p : string) (l : list SubmodelElement)
  (e : SubmodelElement) :
  get_object_by_attribute p l = Return e -> elem_id_short e = p.
Proof.
  unfold get_object_by_attribute.
  destruct (find _ l) as [e0 |] eqn:E; [| discriminate].
  intros [= <-]. apply find_some in E. now apply String.eqb_eq.
Qed.

Lemma get_mutate_element (p : string) (e e' : SubmodelElement)
  (l : list SubmodelElement) :
  get_object_by_attribute p l = Return e -> elem_id_short e' = p ->
  get_object_by_attribute p (mutate_element p e' l) = Return e'.
Proof.
  unfold get_object_by_attribute. intros Hget Hname.
  induction l as [| e0 r IH]; simpl in *; [discriminate |].
  destruct (String.eqb_spec (elem_id_short e0) p) as [E | N]; simpl.
  - now rewrite Hname, String.eqb_refl.
  - destruct (String.eqb_spec (elem_id_short e0) p); [contradiction |].
    now apply IH.
Qed.

(** C2.  Let [update_property] resolve the submodel [n] and, in it, the
    property [p].  The value is converted by the type the property
    already has.  When that raises, the reply is the error text with the
    exception's message, nothing changes, and [get_property_value] answers
    as before the call.  When it gives a value, the property holds that
    value afterwards, under the type it had. *)
Theorem update_property_coerces_by_declared_type :
  forall (w : World) (n p : string) (v : Py.pyval) (sm : Submodel)
         (prop : Property),
    find_submodel n (submodels (self w)) = Some sm ->
    get_object_by_attribute p (submodel_element sm)
    = Return (IsProperty prop) ->
    (forall e : exn,
        coerce (value_type prop) v = Raise e ->
        update_property n p v w
        = (Return ("❌ Error updating property: " ++ str_exn e), w)
        /\ get_property_value n p (snd (update_property n p v w))
           = (Return ("📌 " ++ p ++ " = " ++ Py.str_opt (value prop)
                      ++ " (" ++ type_name (value_type prop) ++ ")"), w)
        /\ get_property_value n p w
           = (Return ("📌 " ++ p ++ " = " ++ Py.str_opt (value prop)
                      ++ " (" ++ type_name (value_type prop) ++ ")"), w))
    /\ (forall nv : option Py.pyval,
          coerce (value_type prop) v = Return nv ->
          exists (w' : World) (sm' : Submodel),
            update_property n p v w
            = (Return ("✅ Updated '" ++ p ++ "': "
                       ++ Py.str_opt (value prop) ++ " → " ++ Py.str_opt nv),
               w')
            /\ find_submodel n (submodels (self w')) = Some sm'
            /\ get_object_by_attribute p (submodel_element sm')
               = Return (IsProperty
                           {| id_short := id_short prop;
                              value_type := value_type prop;
                              value := nv;
                              semantic_id := semantic_id prop |})).
Proof.
  intros w n p v sm prop Hfind Hget.
  assert (Hread : get_property_value n p w
                  = (Return ("📌 " ++ p ++ " = " ++ Py.str_opt (value prop)
                             ++ " (" ++ type_name (value_type prop) ++ ")"),
                     w)).
  { unfold get_property_value. unfold_monad. now rewrite Hfind, Hget. }
  split.
  - intros e Hfail.
    assert (Hupd : update_property n p v w
                   = (Return ("❌ Error updating property: " ++ str_exn e),
                      w)).
    { unfold update_property. unfold_monad. rewrite Hfind, Hget.
      unfold coerce in Hfail.
      destruct (convert_by_type (value_type prop) v) as [c | e0].
      - now rewrite Hfail.
      - now injection Hfail as ->. }
    rewrite Hupd. simpl. auto.
  - intros nv Hok. unfold coerce in Hok.
    destruct (convert_by_type (value_type prop) v) as [c | e0] eqn:Hconv;
      [| discriminate].
    eexists. eexists. split; [| split].
    + unfold update_property. unfold_monad.
      rewrite Hfind, Hget, Hconv, Hok. reflexivity.
    + simpl. apply find_mutate_submodel with (sm := sm); [exact Hfind |].
      simpl. now apply find_submodel_named with (d := submodels (self w)).
    + simpl. apply get_mutate_element with (e := IsProperty prop);
        [exact Hget |].
      now apply get_object_named in Hget.
Qed.

(** ** Saving and loading *)


















(** ** Documents are keyed by id *)

Lemma dict_set_keys_in {V} (k x : string) (v : V) (d : Py.dict V) :
  In x (Py.keys (Py.dict_set k v d)) -> x = k \/ In x (Py.keys d).
Proof.
  induction d as [| [k' v'] r IH]; simpl.
  - intros [E | []]. now left.
  - destruct (String.eqb_spec k' k) as [-> | Hne]; simpl.
    + intros [E | I]; [right; now left | right; now right].
    + intros [E | I]; [right; now left |].
      destruct (IH I) as [E | I']; [now left | right; now right].
Qed.

Lemma keyed_by_dict_set {V} (id : V -> string) (k : string) (v : V)
  (d : Py.dict V) :
  keyed_by id d -> id v = k -> keyed_by id (Py.dict_set k v d).
Proof.
  intros [Hnd Hk] Hv. induction d as [| [k' v'] r IH]; simpl.
  - split; repeat constructor; auto.
  - inversion Hnd as [| ? ? Hk' Hnd_r]; subst.
    inversion Hk as [| ? ? Hv' Hk_r]; subst.
    destruct (String.eqb_spec k' (id v)) as [-> | Hne].
    + split; [exact Hnd | constructor; [reflexivity | exact Hk_r]].
    + destruct (IH Hnd_r Hk_r) as [Hnd' Hk'']. split.
      * simpl. constructor; [| exact Hnd'].
        intros I. apply dict_set_keys_in in I.
        destruct I as [E | I]; [now apply Hne | now apply Hk'].
      * constructor; [exact Hv' | exact Hk''].
Qed.

Lemma mutate_submodel_keys (n : string) (sm' : Submodel)
  (d : Py.dict Submodel) :
  Py.keys (mutate_submodel n sm' d) = Py.keys d.
Proof.
  induction d as [| [k sm] r IH]; simpl; [reflexivity |].
  destruct (String.eqb (sm_id_short sm) n); simpl; [reflexivity |].
  now rewrite IH.
Qed.

Lemma keyed_by_mutate_submodel (n : string) (sm sm' : Submodel)
  (d : Py.dict Submodel) :
  keyed_by sm_id d -> find_submodel n d = Some sm -> sm_id sm' = sm_id sm ->
  keyed_by sm_id (mutate_submodel n sm' d).
Proof.
  intros [Hnd Hk] Hfind Hid. split.
  - now rewrite mutate_submodel_keys.
  - clear Hnd. unfold find_submodel in Hfind.
    induction d as [| [k sm0] r IH]; simpl in *; [constructor |].
    inversion Hk as [| ? ? Hsm0 Hk_r]; subst. simpl in Hsm0.
    destruct (String.eqb (sm_id_short sm0) n).
    + injection Hfind as ->. constructor; [simpl; congruence | exact Hk_r].
    + constructor; [exact Hsm0 | now apply IH].
Qed.

Lemma keyed_by_load_submodels (objs : list Identifiable) :
  keyed_by sm_id (load_submodels objs).
Proof.
  unfold load_submodels.
  assert (H : keyed_by sm_id (@nil (string * Submodel)))
    by (split; constructor).
  revert H. generalize (@nil (string * Submodel)) as acc.
  induction objs as [| o r IH]; intros acc H; simpl; [exact H |].
  apply IH. destruct o; try exact H. now apply keyed_by_dict_set.
Qed.

Lemma keyed_by_load_concept_descriptions (objs : list Identifiable) :
  keyed_by cd_id (load_concept_descriptions objs).
Proof.
  unfold load_concept_descriptions.
  assert (H : keyed_by cd_id (@nil (string * ConceptDescription)))
    by (split; constructor).
  revert H. generalize (@nil (string * ConceptDescription)) as acc.
  induction objs as [| o r IH]; intros acc H; simpl; [exact H |].
  apply IH. destruct o; try exact H. now apply keyed_by_dict_set.
Qed.

Ltac keyed_leaf :=
  match goal with
  | H : keyed ?w |- keyed ?w => exact H
  | H : keyed _ |- keyed _ =>
      destruct H as [? ?]; split; cbn [self submodels concept_descriptions];
      try assumption;
      first
        [ eapply keyed_by_mutate_submodel; [assumption | eassumption |];
          reflexivity
        | apply keyed_by_dict_set; [assumption | reflexivity]
        | apply keyed_by_load_submodels
        | apply keyed_by_load_concept_descriptions ]
  end.

Lemma handlers_keep_keyed (w : World) :
  keyed w ->
  (forall a b c, keyed (snd (create_aas a b c w)))
  /\ (forall a b, keyed (snd (add_submodel a b w)))
  /\ (forall a b c v s, keyed (snd (add_property a b c v s w)))
  /\ (forall a b v, keyed (snd (update_property a b v w)))
  /\ (forall a b, keyed (snd (get_property_value a b w)))
  /\ (forall a b c, keyed (snd (update_semantic_id a b c w)))
  /\ (forall a b c d, keyed (snd (add_concept_description a b c d w)))
  /\ (forall a, keyed (snd (save_aas a w)))
  /\ (forall a, keyed (snd (load_aas a w)))
  /\ keyed (snd (get_tree_view w))
  /\ keyed (snd (get_current_state w))
  /\ keyed (snd (get_digital_twin_json w)).
Proof.
  intros H.
  repeat match goal with |- _ /\ _ => split end; intros;
    unfold create_aas, add_submodel, add_property, update_property,
      get_property_value, update_semantic_id, add_concept_description,
      save_aas, load_aas, open_read, get_tree_view, get_current_state,
      get_digital_twin_json, new_AssetInformation,
      new_AssetAdministrationShell, new_Submodel, new_ConceptDescription,
      checked;
    unfold_monad; cbv zeta; split_matches;
    cbn [snd self submodels concept_descriptions files aas];
    try keyed_leaf.
Qed.

Lemma execute_function_keeps_keyed (name : string)
  (arguments : Py.dict Py.pyval) (w : World) :
  keyed w -> keyed (snd (execute_function name arguments w)).
Proof.
  intros H.
  destruct (handlers_keep_keyed H)
    as (Hca & Has & Hap & Hup & Hgp & Hus & Hac & Hsv & Hld & Htv & Hcs
        & Hdt).
  unfold execute_function.
  destruct (Py.dict_get name function_map) as [func |] eqn:E; [| exact H].
  apply dict_get_In in E. unfold function_map in E. simpl in E.
  repeat (destruct E as [E | E]; [ injection E as <- <- | ]);
    try contradiction;
    unfold call_create_aas, call_add_submodel, call_add_property,
      call_update_property, call_get_property_value, call_save_aas,
      call_load_aas, call_get_tree_view, call_get_current_state,
      call_add_concept_description, call_update_semantic_id,
      call_get_digital_twin_json;
    unfold try_ at 1, bind, lift, ret;
    repeat match goal with
           | |- context [match ?x with _ => _ end] =>
               lazymatch x with
               | context [match _ with _ => _ end] => fail
               | (_ _ w) => fail
               | _ => destruct x eqn:?; cbn beta iota
               end
           end;
    try exact H;
    match goal with
    | |- keyed (snd (let (r, w') := ?m in _)) =>
        let K := fresh "K" in
        assert (K : keyed (snd m)) by auto;
        destruct m as [[? | ?] ?]; exact K
    end.
Qed.

(** X1.  Every document reached from the fresh agent by dispatcher calls,
    [load_aas] included, holds its submodels and concept descriptions
    under their own ids, each id once. *)
Lemma reachable_documents_are_keyed
  (calls : list (string * Py.dict Py.pyval)) :
  forall w : World, keyed w -> keyed (snd (run calls w)).
Proof.
  induction calls as [| [name arguments] r IH]; intros w H; simpl.
  - exact H.
  - pose proof (execute_function_keeps_keyed name arguments H) as Hstep.
    destruct (execute_function name arguments w) as [reply w'].
    simpl in Hstep. specialize (IH w' Hstep).
    destruct (run r w') as [replies w'']. exact IH.
Qed.

End Properties.

(* ================================================================== *)
(** * Further properties of the handlers *)

(** Case analysis on a scrutinee that holds no other, until none is
    left. *)
Ltac case_split :=
  repeat match goal with
         | |- context [match ?x with _ => _ end] =>
             lazymatch x with
             | context [match _ with _ => _ end] => fail
             | _ => destruct x eqn:?; cbn beta iota
             end
         end.

Section Further.
Context {F : PyFloat} {L : BaSyx} {FS : FileSystem}.

(** ** Invariants of the dispatcher *)

Lemma dispatch_keeps (P : World -> Prop) (loading : bool) :
  (forall w, P w -> handlers_keep P loading w) ->
  forall (name : string) (arguments : Py.dict Py.pyval) (w : World),
    (loading = false -> name <> "load_aas") ->
    P w -> P (snd (execute_function name arguments w)).
Proof.
  intros Hkeep name arguments w Hname H.
  destruct (Hkeep w H)
    as (Hca & Has & Hap & Hup & Hgp & Hus & Hac & Hsv & Hld & Htv & Hcs
        & Hdt).
  assert (Hload : name = "load_aas" -> forall a, P (snd (load_aas a w))).
  { intros ->. destruct loading; [now apply Hld |].
    exfalso. now apply Hname. }
  clear Hld Hname.
  unfold execute_function.
  destruct (Py.dict_get name function_map) as [func |] eqn:E; [| exact H].
  apply dict_get_In in E. unfold function_map in E. simpl in E.
  repeat (destruct E as [E | E]; [ injection E as <- <- | ]);
    try contradiction;
    try specialize (Hload eq_refl);
    unfold call_create_aas, call_add_submodel, call_add_property,
      call_update_property, call_get_property_value, call_save_aas,
      call_load_aas, call_get_tree_view, call_get_current_state,
      call_add_concept_description, call_update_semantic_id,
      call_get_digital_twin_json;
    unfold try_ at 1, bind, lift, ret;
    repeat match goal with
           | |- context [match ?x with _ => _ end] =>
               lazymatch x with
               | context [match _ with _ => _ end] => fail
               | (_ _ w) => fail
               | _ => destruct x eqn:?; cbn beta iota
               end
           end;
    try exact H;
    match goal with
    | |- P (snd (let (r, w') := ?m in _)) =>
        let K := fresh "K" in
        assert (K : P (snd m)) by auto;
        destruct m as [[? | ?] ?]; exact K
    end.
Qed.

Lemma run_keeps (P : World -> Prop) (loading : bool) :
  (forall w, P w -> handlers_keep P loading w) ->
  forall (calls : list (string * Py.dict Py.pyval)) (w : World),
    (loading = false -> Forall (fun call => fst call <> "load_aas") calls) ->
    P w -> P (snd (run calls w)).
Proof.
  intros Hkeep calls.
  induction calls as [| [name arguments] r IH]; intros w Hcalls H; simpl.
  - exact H.
  - assert (Hname : loading = false -> name <> "load_aas").
    { intros E. specialize (Hcalls E). now inversion Hcalls. }
    assert (Hrest : loading = false ->
                    Forall (fun call => fst call <> "load_aas") r).
    { intros E. specialize (Hcalls E). now inversion Hcalls. }
    pose proof (@dispatch_keeps P loading Hkeep name arguments w Hname H)
      as Hstep.
    destruct (execute_function name arguments w) as [reply w'].
    simpl in Hstep. specialize (IH w' Hrest Hstep).
    destruct (run r w') as [replies w'']. exact IH.
Qed.

Lemma set_add_in (x a : string) (refs : list string) :
  In x (set_add a refs) -> x = a \/ In x refs.
Proof.
  unfold set_add. destruct (Py.str_in a refs); [now right |].
  intros I. apply in_app_or in I. destruct I as [I | [E | []]]; auto.
Qed.

Lemma dict_set_key_in {V} (k : string) (v : V) (d : Py.dict V) :
  In k (Py.keys (Py.dict_set k v d)).
Proof.
  induction d as [| [k' v'] r IH]; simpl.
  - now left.
  - destruct (String.eqb_spec k' k) as [-> | Hne]; simpl; auto.
Qed.

Lemma dict_set_keys_kept {V} (k x : string) (v : V) (d : Py.dict V) :
  In x (Py.keys d) -> In x (Py.keys (Py.dict_set k v d)).
Proof.
  induction d as [| [k' v'] r IH]; simpl; [contradiction |].
  destruct (String.eqb_spec k' k) as [-> | Hne]; simpl.
  - auto.
  - intros [E | I]; auto.
Qed.

Lemma add_reference_resolves (shell : AssetAdministrationShell)
  (a : string) (sm : Submodel) (d : Py.dict Submodel) :
  incl (submodel shell) (Py.keys d) ->
  incl (submodel (add_reference shell a)) (Py.keys (Py.dict_set a sm d)).
Proof.
  intros H x I. simpl in I. apply set_add_in in I.
  destruct I as [-> | I].
  - apply dict_set_key_in.
  - apply dict_set_keys_kept. now apply H.
Qed.

Lemma handlers_keep_references (w : World) :
  references_resolve w -> handlers_keep references_resolve false w.
Proof.
  intros H. unfold handlers_keep.
  repeat match goal with |- _ /\ _ => split end; intros;
    try discriminate;
    unfold create_aas, add_submodel, add_property, update_property,
      get_property_value, update_semantic_id, add_concept_description,
      save_aas, get_tree_view, get_current_state,
      get_digital_twin_json, new_AssetInformation,
      new_AssetAdministrationShell, new_Submodel, new_ConceptDescription,
      checked;
    unfold_monad; cbv zeta; case_split;
    unfold references_resolve in *;
    cbn [snd self submodels concept_descriptions files aas submodel] in *;
    repeat match goal with
           | E : aas (self w) = _ |- _ => rewrite E in *
           end;
    rewrite ?mutate_submodel_keys;
    try assumption;
    try (intros x []);
    try (now apply add_reference_resolves).
Qed.

(** X2.  From a document in which every submodel reference of the shell is
    the id of a stored submodel (the fresh agent has no shell), dispatcher
    calls that leave [load_aas] out never leave a reference dangling:
    [create_aas] starts with no reference, [add_submodel] stores the
    submodel it refers to, and nothing removes a submodel. *)
Theorem shell_references_resolve :
  forall (calls : list (string * Py.dict Py.pyval)) (w : World),
    references_resolve w ->
    Forall (fun call => fst call <> "load_aas") calls ->
    references_resolve (snd (run calls w)).
Proof.
  intros calls w H Hcalls.
  apply (@run_keeps references_resolve false); auto.
  intros w0 H0. now apply handlers_keep_references.
Qed.

(** ** The queries *)

Lemma queries_change_nothing (w : World) :
  (forall a b, snd (get_property_value a b w) = w)
  /\ snd (get_tree_view w) = w
  /\ snd (get_current_state w) = w
  /\ snd (get_digital_twin_json w) = w.
Proof.
  repeat split; intros;
    unfold get_property_value, get_tree_view, get_current_state,
      get_digital_twin_json;
    unfold_monad; case_split; reflexivity.
Qed.

Ltac bind_arguments w :=
  unfold execute_function; cbn [Py.dict_get function_map];
  cbn -[Py.str_in call_get_property_value call_get_tree_view
        call_get_current_state call_get_digital_twin_json];
  unfold call_get_property_value, call_get_tree_view,
    call_get_current_state, call_get_digital_twin_json;
  unfold try_ at 1, bind, lift, ret;
  repeat match goal with
         | |- context [match ?x with _ => _ end] =>
             lazymatch x with
             | context [match _ with _ => _ end] => fail
             | (_ _ w) => fail
             | (_ w) => fail
             | _ => destruct x eqn:?; cbn beta iota
             end
         end.

(** X3.  The four queries of the catalog leave the document and the files
    as they are, whatever the argument mapping: also when the arguments do
    not fit, when the submodel or the property is not found, and when the
    JSON export fails. *)
Theorem queries_are_read_only :
  forall (arguments : Py.dict Py.pyval) (w : World),
    snd (execute_function "get_property_value" arguments w) = w
    /\ snd (execute_function "get_tree_view" arguments w) = w
    /\ snd (execute_function "get_current_state" arguments w) = w
    /\ snd (execute_function "get_digital_twin_json" arguments w) = w.
Proof.
  intros arguments w.
  destruct (queries_change_nothing w) as (Hgp & Htv & Hcs & Hdt).
  repeat split; bind_arguments w; try reflexivity;
    match goal with
    | |- snd (let (r, w') := ?m in _) = _ =>
        let K := fresh "K" in
        assert (K : snd m = w) by auto;
        destruct m as [[? | ?] ?]; exact K
    end.
Qed.

(** ** Saving *)

(** X4.  [save_aas] never changes the document, and of the files it can
    change only the one that its name denotes (the name with ".json"
    appended when it lacks it): every other file reads as before, whether
    the saving succeeds or not; and when that name cannot be opened, no
    file changes. *)
Theorem save_aas_touches_one_file :
  forall (filename : string) (w : World),
    self (snd (save_aas filename w)) = self w
    /\ (forall e : exn,
          locate Writing (effective_name filename) (files w) = Raise e ->
          files (snd (save_aas filename w)) = files w)
    /\ (forall path : string,
          locate Writing (effective_name filename) (files w) = Return path ->
          forall other : string,
            other <> path ->
            Py.dict_get other (files (snd (save_aas filename w)))
            = Py.dict_get other (files w)).
Proof.
  intros filename w. unfold effective_name. split; [| split].
  - unfold save_aas. unfold_monad. cbv zeta. case_split; reflexivity.
  - intros e He. unfold save_aas. unfold_monad. cbv zeta.
    case_split; try reflexivity; congruence.
  - intros path Hpath other Hother. unfold save_aas. unfold_monad. cbv zeta.
    case_split; cbn [snd files]; try reflexivity;
      rewrite !dict_get_set_other; congruence.
Qed.

(** X5.  How [save_aas] fails before a file is touched.  Without a shell,
    when the object store refuses an object, and when [open] refuses the
    name, the reply is the error text and no file is created or changed. *)
Theorem save_aas_failures :
  forall (filename : string) (w : World),
    (aas (self w) = None ->
     save_aas filename w = (Return "❌ No AAS to save", w))
    /\ (forall (shell : AssetAdministrationShell) (e : exn),
          aas (self w) = Some shell ->
          build_object_store shell (self w) = Raise e ->
          save_aas filename w
          = (Return ("❌ Error saving: " ++ str_exn e), w))
    /\ (forall (shell : AssetAdministrationShell) (st : DictObjectStore)
               (e : exn),
          aas (self w) = Some shell ->
          build_object_store shell (self w) = Return st ->
          locate Writing (effective_name filename) (files w) = Raise e ->
          save_aas filename w
          = (Return ("❌ Error saving: " ++ str_exn e), w)).
Proof.
  intros filename w. unfold effective_name. split; [| split].
  - intros H. unfold save_aas. unfold_monad. now rewrite H.
  - intros shell e Hshell Hstore. unfold save_aas. unfold_monad. cbv zeta.
    now rewrite Hshell, Hstore.
  - intros shell st e Hshell Hstore Hopen. unfold save_aas. unfold_monad.
    cbv zeta. now rewrite Hshell, Hstore, Hopen.
Qed.

(** X21.  A saving that the writer does not finish is not undone: the file
    has been opened for writing by then, so what it held before is gone and
    it holds what was written up to the exception; the reply is the error
    text, and the document and every other file are as before. *)
Theorem save_aas_interrupted :
  forall (filename path : string) (w : World)
         (shell : AssetAdministrationShell) (st : DictObjectStore) (e : exn),
    aas (self w) = Some shell ->
    build_object_store shell (self w) = Return st ->
    locate Writing (effective_name filename) (files w) = Return path ->
    snd (write_aas_json_file st) = Some e ->
    fst (save_aas filename w) = Return ("❌ Error saving: " ++ str_exn e)
    /\ self (snd (save_aas filename w)) = self w
    /\ Py.dict_get path (files (snd (save_aas filename w)))
       = Some (fst (write_aas_json_file st))
    /\ (forall other : string,
          other <> path ->
          Py.dict_get other (files (snd (save_aas filename w)))
          = Py.dict_get other (files w)).
Proof.
  intros filename path w shell st e Hshell Hstore Hopen Hwrite.
  unfold effective_name in Hopen.
  assert (E : save_aas filename w
              = (Return ("❌ Error saving: " ++ str_exn e),
                 {| self := self w;
                    files :=
                      Py.dict_set path (fst (write_aas_json_file st))
                        (Py.dict_set path "" (files w)) |})).
  { unfold save_aas. unfold_monad. cbv zeta.
    rewrite Hshell, Hstore. cbn [self files]. rewrite Hopen.
    cbn [self files]. now rewrite Hwrite. }
  rewrite E. cbn [fst snd self files].
  split; [reflexivity |]. split; [reflexivity |]. split.
  - apply dict_get_set_same.
  - intros other Hother. rewrite !dict_get_set_other; congruence.
Qed.

(** ** Loading *)

(** X6.  A load that fails changes nothing, and the reply tells why.  When
    [open] raises [FileNotFoundError] (there is no such file, or no such
    directory) the reply is that the file was not found; when it raises
    another exception (the name is a directory, say), and when the adapter
    cannot read the file, the reply carries the exception's message.  In
    each case the document that was there before is still there. *)
Theorem load_aas_failure_changes_nothing :
  forall (filename : string) (w : World),
    let failure (e : exn) :=
      match e with
      | FileNotFoundError _ => "❌ File '" ++ filename ++ "' not found"
      | _ => "❌ Error loading: " ++ str_exn e
      end in
    (forall e : exn,
        locate Reading filename (files w) = Raise e ->
        load_aas filename w = (Return (failure e), w))
    /\ (forall path : string,
          locate Reading filename (files w) = Return path ->
          Py.dict_get path (files w) = None ->
          load_aas filename w
          = (Return ("❌ File '" ++ filename ++ "' not found"), w))
    /\ (forall (text : string) (e : exn),
          open_read filename (files w) = Return text ->
          read_aas_json_file text = Raise e ->
          load_aas filename w = (Return (failure e), w)).
Proof.
  intros filename w failure. split; [| split].
  - intros e H. unfold load_aas, open_read. unfold_monad. rewrite H.
    now destruct e.
  - intros path Hpath H. unfold load_aas, open_read. unfold_monad.
    now rewrite Hpath, H.
  - intros text e Hfile Hread. unfold load_aas. unfold_monad.
    rewrite Hfile, Hread. now destruct e.
Qed.

(** X7.  A load that reads the file replaces the whole document by what
    the file holds, whatever was there before, and leaves the files alone:
    the shell is the first shell of the file, the submodels and concept
    descriptions are those of the file under their ids.  A file without a
    shell still replaces the submodels and concept descriptions, and empties
    the shell, while the reply says that no AAS was found. *)
Theorem load_aas_replaces_document :
  forall (filename text : string) (store : DictObjectStore) (w : World),
    open_read filename (files w) = Return text ->
    read_aas_json_file text = Return store ->
    snd (load_aas filename w)
    = {| self := loaded_document store; files := files w |}
    /\ keyed (snd (load_aas filename w))
    /\ (first_aas (Py.values store) = None ->
        fst (load_aas filename w) = Return "❌ No AAS found in file")
    /\ (forall shell : AssetAdministrationShell,
          first_aas (Py.values store) = Some shell ->
          fst (load_aas filename w)
          = Return ("✅ Loaded '" ++ aas_id_short shell ++ "' from '"
                    ++ filename ++ "' ("
                    ++ Py.str_of_nat
                         (List.length (load_submodels (Py.values store)))
                    ++ " submodels, "
                    ++ Py.str_of_nat
                         (total_elements (load_submodels (Py.values store)))
                    ++ " elements"
                    ++ cd_info
                         (List.length
                            (load_concept_descriptions (Py.values store)))
                    ++ ")")).
Proof.
  intros filename text store w Hfile Hread.
  assert (E : snd (load_aas filename w)
              = {| self := loaded_document store; files := files w |}).
  { unfold load_aas. unfold_monad. rewrite Hfile, Hread.
    cbn [self files aas]. unfold loaded_document.
    destruct (first_aas (Py.values store)); reflexivity. }
  split; [exact E |]. split; [| split].
  - rewrite E. split; cbn [self loaded_document submodels
                            concept_descriptions].
    + apply keyed_by_load_submodels.
    + apply keyed_by_load_concept_descriptions.
  - intros Hnone. unfold load_aas. unfold_monad.
    rewrite Hfile, Hread. cbn [self files aas]. now rewrite Hnone.
  - intros shell Hsome. unfold load_aas. unfold_monad.
    rewrite Hfile, Hread. cbn [self files aas submodels
                                 concept_descriptions].
    now rewrite Hsome.
Qed.

(** ** Adding and reading a property *)

Lemma get_object_appended (p : string) (e : SubmodelElement)
  (l : list SubmodelElement) :
  existsb (fun e' => String.eqb (elem_id_short e') p) l = false ->
  elem_id_short e = p ->
  get_object_by_attribute p (l ++ [e])%list = Return e.
Proof.
  unfold get_object_by_attribute. intros Hnone Hname.
  induction l as [| e0 r IH]; simpl in *.
  - now rewrite Hname, String.eqb_refl.
  - apply orb_false_elim in Hnone. destruct Hnone as [H0 Hr].
    rewrite H0. now apply IH.
Qed.

(** X8.  Let [add_property] resolve the submodel [n] and the tag, convert
    the value, and pass the checks of the SDK, for a name [p] that no
    element of the submodel has yet.  Then the property is appended after
    the elements there were, with the converted value and the type of the
    tag, and a following [get_property_value] answers with that value and
    type.  An empty [semantic_id] counts as none. *)
Theorem add_property_then_get :
  forall (w : World) (n p tag : string) (v : Py.pyval)
         (semantic : option string) (sm : Submodel) (vt : datatypes.t)
         (cv : option Py.pyval),
    find_submodel n (submodels (self w)) = Some sm ->
    Py.dict_get (Py.lower tag) type_map = Some vt ->
    convert_by_tag tag v = Return cv ->
    check_Property p = None ->
    set_value vt cv = Return cv ->
    match given semantic with
    | Some sid => check_Key sid = None
    | None => True
    end ->
    existsb (fun e => String.eqb (elem_id_short e) p) (submodel_element sm)
    = false ->
    exists (reply : string) (w' : World),
      add_property n p tag v semantic w = (Return reply, w')
      /\ find_submodel n (submodels (self w'))
         = Some (with_elements sm
                   (submodel_element sm
                    ++ [IsProperty {| id_short := p; value_type := vt;
                                      value := cv;
                                      semantic_id := given semantic |}])%list)
      /\ get_property_value n p w'
         = (Return ("📌 " ++ p ++ " = " ++ Py.str_opt cv
                    ++ " (" ++ type_name vt ++ ")"), w').
Proof.
  intros w n p tag v semantic sm vt cv Hfind Htag Hconv Hname Hset Hkey
    Hfresh.
  set (prop := {| id_short := p; value_type := vt; value := cv;
                  semantic_id := given semantic |}).
  set (sm' := with_elements sm (submodel_element sm ++ [IsProperty prop])%list).
  assert (Hfind' : find_submodel n (mutate_submodel n sm' (submodels (self w)))
                   = Some sm').
  { apply find_mutate_submodel with (sm := sm); [exact Hfind |].
    simpl. now apply find_submodel_named with (d := submodels (self w)). }
  assert (Hget : get_object_by_attribute p (submodel_element sm')
                 = Return (IsProperty prop)).
  { simpl. now apply get_object_appended. }
  assert (Hadd : exists reply,
             add_property n p tag v semantic w
             = (Return reply,
                {| self :=
                     {| aas := aas (self w);
                        submodels :=
                          mutate_submodel n sm' (submodels (self w));
                        concept_descriptions :=
                          concept_descriptions (self w) |};
                   files := files w |})).
  { unfold add_property, new_Property, new_ExternalReference, namespace_add,
      checked.
    unfold_monad. rewrite Hfind, Htag, Hconv, Hname, Hset.
    subst sm' prop. destruct (given semantic) as [sid |].
    - rewrite Hkey. cbn [elem_id_short id_short with_semantic_id].
      rewrite Hfresh. eexists. reflexivity.
    - cbn [elem_id_short id_short]. rewrite Hfresh. eexists. reflexivity. }
  destruct Hadd as [reply Hadd].
  exists reply. eexists. split; [exact Hadd |]. split.
  - exact Hfind'.
  - unfold get_property_value. unfold_monad.
    cbn [self submodels]. rewrite Hfind', Hget. reflexivity.
Qed.

(** ** The semantic reference *)

Lemma find_before_last (q : string) (e' : SubmodelElement)
  (l : list SubmodelElement) :
  elem_id_short e' <> q ->
  find (fun e => String.eqb (elem_id_short e) q) (l ++ [e'])%list
  = find (fun e => String.eqb (elem_id_short e) q) l.
Proof.
  intros Hne. induction l as [| e r IH]; simpl.
  - now destruct (String.eqb_spec (elem_id_short e') q).
  - now destruct (String.eqb (elem_id_short e) q).
Qed.

Lemma find_last (p : string) (e' : SubmodelElement)
  (l : list SubmodelElement) :
  ~ In p (map elem_id_short l) -> elem_id_short e' = p ->
  find (fun e => String.eqb (elem_id_short e) p) (l ++ [e'])%list = Some e'.
Proof.
  intros Hout Hname. induction l as [| e r IH]; simpl.
  - now rewrite Hname, String.eqb_refl.
  - destruct (String.eqb_spec (elem_id_short e) p) as [E | N].
    + exfalso. apply Hout. now left.
    + apply IH. intros I. apply Hout. now right.
Qed.

(** After the element named [p] was taken out and put back as the last,
    every other name finds what it found, and [p] finds the new element
    when the names of the set are unique. *)
Lemma get_object_reinserted (p q : string) (e' : SubmodelElement)
  (l : list SubmodelElement) :
  elem_id_short e' = p ->
  (q <> p ->
   get_object_by_attribute q (namespace_discard p l ++ [e'])%list
   = get_object_by_attribute q l)
  /\ (NoDup (map elem_id_short l) ->
      get_object_by_attribute p (namespace_discard p l ++ [e'])%list
      = Return e').
Proof.
  intros Hname. unfold get_object_by_attribute. split.
  - intros Hq.
    assert (He' : elem_id_short e' <> q) by congruence.
    assert (Ef : find (fun e => String.eqb (elem_id_short e) q)
                   (namespace_discard p l ++ [e'])%list
                 = find (fun e => String.eqb (elem_id_short e) q) l).
    { induction l as [| e r IH]; simpl.
      - now destruct (String.eqb_spec (elem_id_short e') q).
      - destruct (String.eqb_spec (elem_id_short e) p) as [E | N].
        + rewrite (@find_before_last q e' r He').
          destruct (String.eqb_spec (elem_id_short e) q); [congruence |].
          reflexivity.
        + simpl. destruct (String.eqb (elem_id_short e) q); [reflexivity |].
          exact IH. }
    now rewrite Ef.
  - intros Hnd.
    assert (Ef : find (fun e => String.eqb (elem_id_short e) p)
                   (namespace_discard p l ++ [e'])%list
                 = Some e').
    { induction l as [| e r IH]; simpl.
      - now rewrite Hname, String.eqb_refl.
      - inversion Hnd as [| ? ? Hout Hr]; subst.
        destruct (String.eqb_spec (elem_id_short e) (elem_id_short e'))
          as [E | N].
        + apply find_last; [now rewrite <- E | reflexivity].
        + simpl.
          destruct (String.eqb_spec (elem_id_short e) (elem_id_short e'));
            [contradiction |].
          now apply IH. }
    now rewrite Ef.
Qed.

(** X9.  Let [update_semantic_id] resolve the submodel [n] and the
    property [p], in a submodel whose element names are unique (as they
    are in every namespace set of the SDK).  When the SDK accepts the key,
    the property's semantic reference becomes the given id, replacing any
    it had, and its name, value and type stay; the SDK takes the property
    out of the submodel and adds it again, so it is the last element
    afterwards and the others keep their order; [get_property_value]
    answers as before for every property of the submodel.  When the SDK
    refuses the key, the reply is the error text and nothing changes. *)
Theorem update_semantic_id_moves_property_last :
  forall (w : World) (n p sid : string) (sm : Submodel) (prop : Property),
    find_submodel n (submodels (self w)) = Some sm ->
    get_object_by_attribute p (submodel_element sm)
    = Return (IsProperty prop) ->
    NoDup (map elem_id_short (submodel_element sm)) ->
    (check_Key sid = None ->
     exists w' : World,
       update_semantic_id n p sid w
       = (Return ("✅ Updated semantic ID for '" ++ p ++ "'" ++ nl
                  ++ "   Semantic ID: " ++ sid), w')
       /\ find_submodel n (submodels (self w'))
          = Some (with_elements sm
                    (namespace_discard p (submodel_element sm)
                     ++ [IsProperty {| id_short := id_short prop;
                                       value_type := value_type prop;
                                       value := value prop;
                                       semantic_id := Some sid |}])%list)
       /\ (forall q : string,
             fst (get_property_value n q w')
             = fst (get_property_value n q w)))
    /\ (forall e : exn,
          check_Key sid = Some e ->
          update_semantic_id n p sid w
          = (Return ("❌ Error updating semantic ID: " ++ str_exn e), w)).
Proof.
  intros w n p sid sm prop Hfind Hget Hnd. split.
  - intros Hkey.
    set (prop' := with_semantic_id prop (Some sid)).
    set (sm' := with_elements sm
                  (namespace_discard p (submodel_element sm)
                   ++ [IsProperty prop'])%list).
    assert (Hfind' : find_submodel n
                       (mutate_submodel n sm' (submodels (self w)))
                     = Some sm').
    { apply find_mutate_submodel with (sm := sm); [exact Hfind |].
      simpl. now apply find_submodel_named with (d := submodels (self w)). }
    assert (Hp : elem_id_short (IsProperty prop') = p)
      by (now apply get_object_named in Hget).
    destruct (@get_object_reinserted p p (IsProperty prop')
                (submodel_element sm) Hp) as [_ Hsame].
    specialize (Hsame Hnd).
    exists {| self :=
                {| aas := aas (self w);
                   submodels := mutate_submodel n sm' (submodels (self w));
                   concept_descriptions := concept_descriptions (self w) |};
              files := files w |}.
    split; [| split].
    + unfold update_semantic_id, new_ExternalReference, checked.
      unfold_monad. rewrite Hfind, Hget, Hkey. reflexivity.
    + exact Hfind'.
    + intros q. unfold get_property_value. unfold_monad.
      cbn [self submodels]. rewrite Hfind', Hfind.
      cbn [sm' with_elements submodel_element].
      destruct (String.eqb_spec q p) as [-> | Hq].
      * rewrite Hsame, Hget. reflexivity.
      * destruct (@get_object_reinserted p q (IsProperty prop')
                    (submodel_element sm) Hp) as [Hother _].
        rewrite (Hother Hq).
        destruct (get_object_by_attribute q (submodel_element sm))
          as [[? | ?] | ?]; reflexivity.
  - intros e Hkey.
    unfold update_semantic_id, new_ExternalReference, checked.
    unfold_monad. now rewrite Hfind, Hget, Hkey.
Qed.

(** ** Concept descriptions *)

(** X10.  [add_concept_description] needs no shell.  With an id, a short
    name and texts the SDK accepts, it stores the concept under its id,
    in place of a concept already stored there, and touches neither the
    shell, nor the submodels, nor the files.  An empty preferred name or
    definition is stored as absent. *)
Theorem add_concept_description_stores_by_id :
  forall (w : World) (id_ name : string) (preferred definition : option string),
    check_ConceptDescription id_ name = None ->
    match given preferred with
    | Some x => check_MultiLanguageNameType x = None
    | None => True
    end ->
    match given definition with
    | Some x => check_MultiLanguageTextType x = None
    | None => True
    end ->
    let concept :=
      {| cd_id := id_; cd_id_short := name;
         display_name := given preferred;
         description := given definition |} in
    exists reply : string,
      add_concept_description id_ name preferred definition w
      = (Return reply,
         {| self :=
              {| aas := aas (self w);
                 submodels := submodels (self w);
                 concept_descriptions :=
                   Py.dict_set id_ concept (concept_descriptions (self w)) |};
            files := files w |})
      /\ Py.dict_get id_
           (concept_descriptions
              (self (snd (add_concept_description id_ name preferred
                            definition w))))
         = Some concept.
Proof.
  intros w id_ name preferred definition Hcd Hname Hdef concept.
  assert (E : exists reply : string,
             add_concept_description id_ name preferred definition w
             = (Return reply,
                {| self :=
                     {| aas := aas (self w);
                        submodels := submodels (self w);
                        concept_descriptions :=
                          Py.dict_set id_ concept
                            (concept_descriptions (self w)) |};
                   files := files w |})).
  { unfold add_concept_description, new_ConceptDescription, checked.
    unfold_monad. rewrite Hcd. subst concept.
    destruct (given preferred) as [x |];
      destruct (given definition) as [y |];
      rewrite ?Hname, ?Hdef; cbn [cd_id cd_id_short display_name description];
      rewrite ?Hname, ?Hdef; eexists; reflexivity. }
  destruct E as [reply E]. exists reply. split; [exact E |].
  rewrite E. cbn [snd self concept_descriptions].
  apply dict_get_set_same.
Qed.

(** ** The state after [create_aas] *)

(** X11.  After a [create_aas] that the SDK accepts, [get_current_state]
    reports the new short name, id and asset id, and still counts and lists
    the submodels that were there before: they are not cleared with the
    shell they were added to. *)
Theorem create_aas_then_state :
  forall (w : World) (id_ name gid : string),
    check_AssetInformation INSTANCE gid = None ->
    check_AssetAdministrationShell id_ name = None ->
    fst (get_current_state (snd (create_aas id_ name gid w)))
    = Return ("Current AAS: " ++ name ++ " (" ++ id_ ++ ")" ++ nl
              ++ "Asset ID: " ++ gid ++ nl
              ++ "Number of Submodels: "
              ++ Py.str_of_nat (List.length (submodels (self w))) ++ nl
              ++ match submodels (self w) with
                 | [] => ""
                 | _ =>
                     nl ++ "Submodels:" ++ nl
                     ++ String.concat ""
                          (map state_of_submodel
                             (Py.values (submodels (self w))))
                 end).
Proof.
  intros w id_ name gid Hinfo Hshell.
  unfold create_aas, new_AssetInformation, new_AssetAdministrationShell,
    checked, get_current_state.
  unfold_monad. rewrite Hinfo, Hshell. reflexivity.
Qed.

(** ** The tree view *)

Lemma combine_app {A B} (a1 a2 : list A) (b1 b2 : list B) :
  List.length a1 = List.length b1 ->
  combine (a1 ++ a2) (b1 ++ b2) = (combine a1 b1 ++ combine a2 b2)%list.
Proof.
  revert b1. induction a1 as [| x r IH]; intros [| y b1] H; simpl in *;
    try discriminate; [reflexivity |].
  f_equal. apply IH. now injection H.
Qed.

Lemma enumerate1_snoc {A} (l : list A) (x : A) :
  enumerate1 (l ++ [x]) = (enumerate1 l ++ [(S (List.length l), x)])%list.
Proof.
  unfold enumerate1. rewrite length_app. simpl.
  rewrite Nat.add_1_r, seq_S.
  rewrite combine_app by apply length_seq. reflexivity.
Qed.

Lemma enumerate1_index {A} (l : list A) (i : nat) (x : A) :
  In (i, x) (enumerate1 l) -> (1 <= i <= List.length l)%nat.
Proof.
  unfold enumerate1. intros H. apply in_combine_l in H.
  apply in_seq in H. lia.
Qed.

Lemma enumerate1_values {A} (l : list A) : map snd (enumerate1 l) = l.
Proof.
  unfold enumerate1. generalize 1%nat.
  induction l as [| x r IH]; intros n; simpl; [reflexivity |].
  f_equal. apply IH.
Qed.

(** A renderer that looks at the index only to compare it with the number
    of siblings draws the last of them as last and no other. *)
Lemma last_sibling {A B} (f : nat -> nat * A -> list B) :
  (forall n i x,
      f n (i, x) = f 1%nat (if Nat.eqb i n then 1%nat else 0%nat, x)) ->
  forall (l : list A) (x : A),
    flat_map (f (List.length (l ++ [x]))) (enumerate1 (l ++ [x]))
    = (flat_map (fun y => f 1%nat (0%nat, y)) l ++ f 1%nat (1%nat, x))%list.
Proof.
  intros Hf l x. rewrite enumerate1_snoc, flat_map_app. simpl.
  rewrite app_nil_r, length_app. simpl. rewrite Nat.add_1_r.
  f_equal.
  - rewrite <- (enumerate1_values l) at 3. rewrite flat_map_concat_map,
      (flat_map_concat_map _ (map snd (enumerate1 l))), map_map.
    f_equal. apply map_ext_in. intros [i y] Hin. simpl.
    apply enumerate1_index in Hin. rewrite Hf.
    destruct (Nat.eqb_spec i (S (List.length l))); [lia | reflexivity].
  - rewrite Hf. now rewrite Nat.eqb_refl.
Qed.

(** X12.  In the tree view the last submodel, and only the last, is drawn
    with the closing connector; every submodel before it is drawn with the
    branching connector and followed by a separator line.  The same rule
    draws the elements of a submodel. *)
Theorem tree_draws_last_sibling :
  forall (l : list Submodel) (sm : Submodel),
    flat_map (tree_of_submodel (List.length (l ++ [sm])))
      (enumerate1 (l ++ [sm]))
    = (flat_map (submodel_branch false) l ++ submodel_branch true sm)%list
    /\ (forall (continuation : string) (es : list SubmodelElement)
               (e : SubmodelElement),
          flat_map (tree_of_element continuation (List.length (es ++ [e])))
            (enumerate1 (es ++ [e]))
          = (flat_map (element_branch continuation false) es
             ++ element_branch continuation true e)%list)
    /\ hd "" (submodel_branch true sm)
       = "└─ 📋 Submodel: " ++ sm_id_short sm
    /\ hd "" (submodel_branch false sm)
       = "├─ 📋 Submodel: " ++ sm_id_short sm
    /\ last (submodel_branch false sm) "" = "│".
Proof.
  intros l sm. split; [| split; [| split; [| split]]].
  - apply (last_sibling tree_of_submodel). intros n i x.
    unfold tree_of_submodel. cbn [fst snd].
    destruct (Nat.eqb i n); reflexivity.
  - intros continuation es e.
    apply (last_sibling (tree_of_element continuation)). intros n i x.
    unfold tree_of_element. cbn [fst snd].
    destruct (Nat.eqb i n); reflexivity.
  - reflexivity.
  - reflexivity.
  - unfold submodel_branch, tree_of_submodel. cbn [fst snd Nat.eqb negb].
    rewrite !app_assoc. apply last_last.
Qed.

(** ** The conversation history *)

(** X13.  [add_to_history] puts the new message last and keeps at most the
    20 most recent messages: the result is the history with the message
    appended, cut at the front, of length [min (n + 1) 20] for a history
    of length [n] (also when the history was longer than 20). *)
Theorem add_to_history_keeps_last_20 :
  forall (r : string) (c : option string) (h : list message),
    let m := {| role := r; content := c |} in
    List.length (add_to_history r c h) = Nat.min (List.length h + 1) 20
    /\ (exists dropped : list message,
          (h ++ [m])%list = (dropped ++ add_to_history r c h)%list)
    /\ (exists front : list message,
          add_to_history r c h = (front ++ [m])%list).
Proof.
  intros r c h m. unfold add_to_history, last_n. fold m.
  rewrite length_app. simpl.
  destruct (Nat.ltb_spec 20 (List.length h + 1)) as [Hlong | Hshort].
  - split; [| split].
    + rewrite length_skipn, length_app. simpl. lia.
    + exists (firstn (List.length h + 1 - 20) (h ++ [m])).
      now rewrite firstn_skipn.
    + exists (skipn (List.length h + 1 - 20) h).
      rewrite skipn_app.
      replace (List.length h + 1 - 20 - List.length h)%nat with 0%nat by lia.
      reflexivity.
  - split; [| split].
    + rewrite length_app. simpl. lia.
    + now exists [].
    + now exists h.
Qed.

(** ** The catalog and the signatures of the handlers *)

Lemma unexpected_keyword_none (params : list string)
  (arguments : Py.dict Py.pyval) :
  (forall k, In k (Py.keys arguments) -> In k params) ->
  unexpected_keyword params arguments = Return tt.
Proof.
  intros H. unfold unexpected_keyword.
  destruct (find _ (Py.keys arguments)) as [k |] eqn:E; [| reflexivity].
  apply find_some in E. destruct E as [Hin Hk].
  apply H, str_in_In in Hin. rewrite Hin in Hk. discriminate.
Qed.

Lemma unexpected_keyword_inv (params : list string)
  (arguments : Py.dict Py.pyval) (u : unit) :
  unexpected_keyword params arguments = Return u ->
  forall k, In k (Py.keys arguments) -> In k params.
Proof.
  unfold unexpected_keyword.
  destruct (find _ (Py.keys arguments)) as [k0 |] eqn:E; [discriminate |].
  intros _ k Hin. pose proof (find_none _ _ E k Hin) as Hk. simpl in Hk.
  apply negb_false_iff in Hk. now apply str_in_In.
Qed.

Lemma dict_get_some_of_key {V} (k : string) (d : Py.dict V) :
  In k (Py.keys d) -> exists v, Py.dict_get k d = Some v.
Proof.
  intros H. destruct (Py.dict_get k d) as [v |] eqn:E; [now exists v |].
  apply dict_get_none_iff in E. contradiction.
Qed.

Lemma key_of_dict_get {V} (k : string) (v : V) (d : Py.dict V) :
  Py.dict_get k d = Some v -> In k (Py.keys d).
Proof.
  intros H. destruct (in_dec string_dec k (Py.keys d)) as [I | N];
    [exact I |].
  apply dict_get_none_iff in N. congruence.
Qed.

Lemma required_binds (d : function_descriptor)
  (arguments : Py.dict Py.pyval) (k : string) :
  conforms d arguments -> Py.str_in k (fd_required d) = true ->
  exists v, required k arguments = Return v.
Proof.
  intros (_ & Hreq & _) Hk. apply str_in_In in Hk.
  destruct (dict_get_some_of_key k arguments (Hreq k Hk)) as [v Hv].
  exists v. unfold required. now rewrite Hv.
Qed.

Lemma required_inv (arguments : Py.dict Py.pyval) (k : string)
  (v : Py.pyval) :
  required k arguments = Return v -> In k (Py.keys arguments).
Proof.
  unfold required.
  destruct (Py.dict_get k arguments) as [v0 |] eqn:E; [| discriminate].
  intros _. now apply key_of_dict_get with (v := v0).
Qed.

Lemma required_str_inv (arguments : Py.dict Py.pyval) (k s : string) :
  required_str k arguments = Return s -> In k (Py.keys arguments).
Proof.
  unfold required_str.
  destruct (required k arguments) as [v |] eqn:E; [| discriminate].
  intros _. now apply required_inv with (v := v).
Qed.

Ltac unfold_calls :=
  unfold call_create_aas, call_add_submodel, call_add_property,
    call_update_property, call_get_property_value, call_save_aas,
    call_load_aas, call_get_tree_view, call_get_current_state,
    call_add_concept_description, call_update_semantic_id,
    call_get_digital_twin_json.

Lemma required_str_text (d : function_descriptor)
  (arguments : Py.dict Py.pyval) (k : string) :
  conforms d arguments -> Py.str_in k (fd_required d) = true ->
  declared_string d k = true ->
  required_str k arguments = Return (text_at k arguments).
Proof.
  intros Hc Hk Hs. destruct (required_binds k Hc Hk) as [v Hv].
  unfold required_str, text_at. rewrite Hv. unfold required in Hv.
  destruct (Py.dict_get k arguments) as [v0 |] eqn:E; [| discriminate].
  injection Hv as ->. destruct Hc as (_ & _ & Hty).
  destruct (Hty k v Hs E) as [s ->]. reflexivity.
Qed.

Lemma required_value (d : function_descriptor)
  (arguments : Py.dict Py.pyval) (k : string) :
  conforms d arguments -> Py.str_in k (fd_required d) = true ->
  required k arguments = Return (value_at k arguments).
Proof.
  intros Hc Hk. destruct (required_binds k Hc Hk) as [v Hv].
  unfold value_at. unfold required in *.
  now destruct (Py.dict_get k arguments).
Qed.

Lemma optional_str_text (d : function_descriptor)
  (arguments : Py.dict Py.pyval) (k : string) :
  conforms d arguments -> declared_string d k = true ->
  optional_str k arguments = Return (text_if_at k arguments).
Proof.
  intros (_ & _ & Hty) Hs. unfold optional_str, optional, text_if_at.
  destruct (Py.dict_get k arguments) as [v |] eqn:E; [| reflexivity].
  destruct (Hty k v Hs E) as [s ->]. reflexivity.
Qed.

(** X14.  The catalog given to the model and the dispatcher agree: every
    function of the catalog is in the function map, under its name the
    method of that name; and an argument mapping that fits the function's
    schema (declared properties only, the required ones present, strings
    where the schema says so) is accepted by the method's signature, so
    that the call is the method's, with each argument at the parameter of
    its keyword. *)
Theorem catalog_calls_reach_the_handler :
  forall (d : function_descriptor) (a : Py.dict Py.pyval) (w : World),
    In d get_available_functions ->
    conforms d a ->
    In (fd_name d) (Py.keys function_map)
    /\ (fd_name d = "create_aas" ->
        execute_function "create_aas" a w
        = create_aas (text_at "aas_id" a) (text_at "id_short" a)
            (text_at "global_asset_id" a) w)
    /\ (fd_name d = "add_submodel" ->
        execute_function "add_submodel" a w
        = add_submodel (text_at "submodel_id" a) (text_at "id_short" a) w)
    /\ (fd_name d = "add_property" ->
        execute_function "add_property" a w
        = add_property (text_at "submodel_id_short" a)
            (text_at "property_name" a) (text_at "value_type" a)
            (value_at "value" a) (text_if_at "semantic_id" a) w)
    /\ (fd_name d = "update_property" ->
        execute_function "update_property" a w
        = update_property (text_at "submodel_id_short" a)
            (text_at "property_name" a) (value_at "value" a) w)
    /\ (fd_name d = "get_property_value" ->
        execute_function "get_property_value" a w
        = get_property_value (text_at "submodel_id_short" a)
            (text_at "property_name" a) w)
    /\ (fd_name d = "save_aas" ->
        execute_function "save_aas" a w = save_aas (text_at "filename" a) w)
    /\ (fd_name d = "load_aas" ->
        execute_function "load_aas" a w = load_aas (text_at "filename" a) w)
    /\ (fd_name d = "get_tree_view" ->
        execute_function "get_tree_view" a w = get_tree_view w)
    /\ (fd_name d = "get_current_state" ->
        execute_function "get_current_state" a w = get_current_state w)
    /\ (fd_name d = "add_concept_description" ->
        execute_function "add_concept_description" a w
        = add_concept_description (text_at "concept_id" a)
            (text_at "id_short" a) (text_if_at "preferred_name" a)
            (text_if_at "definition" a) w)
    /\ (fd_name d = "update_semantic_id" ->
        execute_function "update_semantic_id" a w
        = update_semantic_id (text_at "submodel_id_short" a)
            (text_at "property_name" a) (text_at "semantic_id" a) w)
    /\ (fd_name d = "get_digital_twin_json" ->
        execute_function "get_digital_twin_json" a w
        = get_digital_twin_json w).
Proof.
  intros d a w Hd Hc.
  destruct (handlers_return w)
    as (Hca & Has & Hap & Hup & Hgp & Hus & Hac & Hsv & Hld & Hdt).
  assert (Hu := unexpected_keyword_none _ a (proj1 Hc)).
  unfold get_available_functions in Hd. simpl in Hd.
  repeat (destruct Hd as [Hd | Hd]; [ subst d | ]); try contradiction;
    (split; [cbn; tauto |]);
    repeat match goal with |- _ /\ _ => split end;
    cbn [fd_name]; intros Hname; try discriminate Hname; clear Hname;
    unfold execute_function; cbn [Py.dict_get function_map];
    cbn -[Py.str_in call_create_aas call_add_submodel call_add_property
          call_update_property call_get_property_value call_save_aas
          call_load_aas call_get_tree_view call_get_current_state
          call_add_concept_description call_update_semantic_id
          call_get_digital_twin_json try_];
    unfold try_ at 1; unfold_calls; unfold bind, lift;
    cbn [fd_properties map p_name] in Hu; rewrite Hu;
    repeat match goal with
           | |- context [required_str ?k a] =>
               rewrite (required_str_text k Hc eq_refl eq_refl)
           | |- context [optional_str ?k a] =>
               rewrite (optional_str_text k Hc eq_refl)
           | |- context [required ?k a] =>
               rewrite (required_value k Hc eq_refl)
           end;
    match goal with
    | |- (let (_, _) := ?m in _) = ?call =>
        let E := fresh "E" in
        change call with m;
        assert (E : exists reply w1, m = (Return reply, w1))
          by (first [ solve [auto] | unfold get_tree_view, get_current_state;
                                     unfold_monad; eauto ]);
        destruct E as (? & ? & E); rewrite E; reflexivity
    end.
Qed.

(** X15.  A call of a catalog function with a keyword that its schema
    does not declare, or without a keyword that the schema requires, is
    refused at the call: the reply is the dispatcher's error text and the
    document and the files are as before. *)
Theorem misfit_calls_change_nothing :
  forall (d : function_descriptor) (arguments : Py.dict Py.pyval)
         (w : World),
    In d get_available_functions ->
    (exists k, In k (Py.keys arguments)
               /\ ~ In k (map p_name (fd_properties d)))
    \/ (exists k, In k (fd_required d) /\ ~ In k (Py.keys arguments)) ->
    exists msg : string,
      execute_function (fd_name d) arguments w
      = (Return ("❌ Error executing " ++ fd_name d ++ ": " ++ msg), w).
Proof.
  intros d arguments w Hd Hbad.
  unfold get_available_functions in Hd. simpl in Hd.
  repeat (destruct Hd as [Hd | Hd]; [ subst d | ]); try contradiction;
    unfold execute_function; cbn [fd_name Py.dict_get function_map];
    cbn -[Py.str_in call_create_aas call_add_submodel call_add_property
          call_update_property call_get_property_value call_save_aas
          call_load_aas call_get_tree_view call_get_current_state
          call_add_concept_description call_update_semantic_id
          call_get_digital_twin_json try_] in *;
    unfold try_ at 1; unfold_calls; unfold bind, lift, ret;
    repeat match goal with
           | |- context [match unexpected_keyword ?ps arguments with
                         | _ => _ end] =>
               destruct (unexpected_keyword ps arguments) eqn:?;
               cbn beta iota
           | |- context [match required_str ?k arguments with
                         | _ => _ end] =>
               destruct (required_str k arguments) eqn:?; cbn beta iota
           | |- context [match required ?k arguments with _ => _ end] =>
               destruct (required k arguments) eqn:?; cbn beta iota
           | |- context [match optional_str ?k arguments with
                         | _ => _ end] =>
               destruct (optional_str k arguments) eqn:?; cbn beta iota
           end;
    try (eexists; reflexivity);
    exfalso;
    (destruct Hbad as [(k & Hin & Hout) | (k & Hreq & Hout)];
     [ apply Hout;
       match goal with
       | H : unexpected_keyword _ arguments = Return _ |- _ =>
           exact (unexpected_keyword_inv _ _ H k Hin)
       end
     | repeat (destruct Hreq as [<- | Hreq]); try contradiction;
       apply Hout;
       first [ eapply required_str_inv; eassumption
             | eapply required_inv; eassumption ] ]).
Qed.

(** ** Failing without a trace *)

(** X20.  The six handlers that edit the document validate before they
    change anything: whatever the arguments, each of them either replies
    with its success text or leaves the document and the files exactly as
    they were.  ([save_aas] and [load_aas] are not of this kind, see X21
    and X7.) *)
Theorem editing_handlers_fail_without_a_trace :
  forall w : World,
    (forall a b c,
        snd (create_aas a b c w) = w
        \/ exists t, fst (create_aas a b c w) = Return ("✅ " ++ t))
    /\ (forall a b,
          snd (add_submodel a b w) = w
          \/ exists t, fst (add_submodel a b w) = Return ("✅ " ++ t))
    /\ (forall a b c v s,
          snd (add_property a b c v s w) = w
          \/ exists t, fst (add_property a b c v s w) = Return ("✅ " ++ t))
    /\ (forall a b v,
          snd (update_property a b v w) = w
          \/ exists t, fst (update_property a b v w) = Return ("✅ " ++ t))
    /\ (forall a b c,
          snd (update_semantic_id a b c w) = w
          \/ exists t,
               fst (update_semantic_id a b c w) = Return ("✅ " ++ t))
    /\ (forall a b c d,
          snd (add_concept_description a b c d w) = w
          \/ exists t,
               fst (add_concept_description a b c d w)
               = Return ("✅ " ++ t)).
Proof.
  intros w.
  repeat match goal with |- _ /\ _ => split end; intros;
    unfold create_aas, add_submodel, add_property, update_property,
      update_semantic_id, add_concept_description, new_AssetInformation,
      new_AssetAdministrationShell, new_Submodel, new_ConceptDescription,
      new_Property, new_ExternalReference, checked;
    unfold_monad; case_split;
    first [ left; reflexivity | right; eexists; reflexivity ].
Qed.

(** ** Startup *)

Lemma substring_all (s : string) :
  forall n : nat, (String.length s <= n)%nat -> substring 0 n s = s.
Proof.
  induction s as [| c r IH]; intros [| n] H; simpl in *;
    try reflexivity; try lia.
  f_equal. apply IH. lia.
Qed.

Lemma substring_split (s : string) :
  forall n : nat,
    (n <= String.length s)%nat ->
    s = substring 0 n s ++ substring n (String.length s - n) s.
Proof.
  induction s as [| c r IH]; intros [| n] H; simpl in *;
    try reflexivity; try lia.
  - f_equal. symmetry. apply substring_all. lia.
  - f_equal. apply IH. lia.
Qed.

Lemma substring_rest_split (s : string) :
  forall a b : nat,
    (a + b <= String.length s)%nat ->
    substring a (String.length s - a) s
    = substring a b s ++ substring (a + b) (String.length s - a - b) s.
Proof.
  induction s as [| c r IH]; intros a b H.
  - simpl in H. assert (a = 0%nat) by lia. assert (b = 0%nat) by lia.
    subst. reflexivity.
  - destruct a as [| a].
    + rewrite Nat.sub_0_r, Nat.add_0_l.
      rewrite substring_all by lia.
      now apply substring_split.
    + simpl. apply IH. simpl in H. lia.
Qed.

Lemma substring_length (s : string) :
  forall n m : nat,
    (n + m <= String.length s)%nat -> String.length (substring n m s) = m.
Proof.
  induction s as [| c r IH]; intros n m H; simpl in H.
  - assert (n = 0%nat) by lia. assert (m = 0%nat) by lia. subst.
    reflexivity.
  - destruct n as [| n]; destruct m as [| m]; simpl; try reflexivity.
    + f_equal. apply IH. lia.
    + apply IH. lia.
    + apply IH. lia.
Qed.

(** X19.  [main] goes on to build the bot only when both credentials are
    set and not empty; otherwise it prints the two lines about the missing
    variable, the OpenAI key first, and stops.  When it goes on, the log
    shows the first 8 and the last 4 characters of each credential: a
    credential of 12 characters or more has its middle hidden, one of at
    most 8 characters is printed whole. *)
Theorem main_checks_and_masks_credentials :
  forall (openai_key telegram_token : option string),
    (given openai_key = None ->
     main openai_key telegram_token
     = ([ "❌ Error: OPENAI_API_KEY environment variable not set";
          "Set it with: export OPENAI_API_KEY='your-key-here'" ], Refused))
    /\ (given openai_key <> None -> given telegram_token = None ->
        main openai_key telegram_token
        = ([ "❌ Error: TELEGRAM_BOT_TOKEN environment variable not set";
             "Set it with: export TELEGRAM_BOT_TOKEN='your-token-here'" ],
           Refused))
    /\ (forall okey token : string,
          given openai_key = Some okey ->
          given telegram_token = Some token ->
          main openai_key telegram_token
          = ([ "🤖 Starting BaSyx AAS LLM Agent...";
               "✅ OpenAI API Key: " ++ first_8 okey ++ "..." ++ last_4 okey;
               "✅ Telegram Bot Token: " ++ first_8 token ++ "..."
               ++ last_4 token ],
             Building token))
    /\ (forall key : string,
          ((String.length key <= 8)%nat -> first_8 key = key)
          /\ ((12 <= String.length key)%nat ->
              exists hidden : string,
                key = first_8 key ++ hidden ++ last_4 key
                /\ String.length hidden = (String.length key - 12)%nat
                /\ String.length (first_8 key) = 8%nat
                /\ String.length (last_4 key) = 4%nat)).
Proof.
  intros openai_key telegram_token. split; [| split; [| split]].
  - destruct openai_key as [[| c r] |]; simpl; intros H;
      try discriminate; reflexivity.
  - destruct openai_key as [[| c r] |]; simpl; intros Hk Ht;
      try contradiction;
      destruct telegram_token as [[| c' r'] |]; simpl in *;
      try discriminate; reflexivity.
  - intros okey token Hk Ht.
    destruct openai_key as [[| c r] |]; simpl in Hk; try discriminate.
    destruct telegram_token as [[| c' r'] |]; simpl in Ht; try discriminate.
    injection Hk as <-. injection Ht as <-. reflexivity.
  - intros key. unfold first_8, last_4. split.
    + apply substring_all.
    + intros H. exists (substring 8 (String.length key - 12) key).
      split; [| split; [| split]].
      * rewrite (@substring_split key 8%nat) at 1 by lia.
        f_equal.
        rewrite (@substring_rest_split key 8%nat (String.length key - 12)%nat)
          by lia.
        f_equal. f_equal; lia.
      * apply substring_length. lia.
      * apply substring_length. lia.
      * apply substring_length. lia.
Qed.

End Further.

(* ================================================================== *)
(** * Properties of the language-model loop *)

Section Loop.
Context {F : PyFloat} {L : BaSyx} {FS : FileSystem} {O : OpenAI}.

Lemma execute_function_returns (name : string)
  (arguments : Py.dict Py.pyval) (w : World) :
  exists reply, execute_function name arguments w
                = (Return reply, snd (execute_function name arguments w)).
Proof.
  unfold execute_function.
  destruct (Py.dict_get name function_map) as [func |].
  - unfold try_, ret. destruct (func arguments w) as [[r | e] w'];
      eexists; reflexivity.
  - eexists. reflexivity.
Qed.

Lemma run_step (name : string) (arguments : Py.dict Py.pyval)
  (rest : list (string * Py.dict Py.pyval)) (w : World) :
  snd (run ((name, arguments) :: rest) w)
  = snd (run rest (snd (execute_function name arguments w))).
Proof.
  simpl. destruct (execute_function name arguments w) as [reply w'].
  simpl. now destruct (run rest w').
Qed.

Lemma call_tools_all (calls : list tool_call)
  (mappings : list (Py.dict Py.pyval)) :
  decode_to calls mappings ->
  forall w : World,
    exists results,
      call_tools calls w
      = (Return results, snd (run (dispatched calls mappings) w)).
Proof.
  unfold decode_to, dispatched.
  induction 1 as [| tc arguments calls mappings Htc Hrest IH]; intros w.
  - exists []. reflexivity.
  - cbn [map combine]. rewrite run_step. cbn [call_tools].
    rewrite Htc. cbn [execute_decoded].
    destruct (execute_function_returns (tc_name tc) arguments w)
      as [reply ->].
    destruct (IH (snd (execute_function (tc_name tc) arguments w)))
      as [results ->].
    eexists. reflexivity.
Qed.

Lemma call_tools_stops (pre post : list tool_call) (tc : tool_call)
  (mappings : list (Py.dict Py.pyval)) (e : exn) :
  decode_to pre mappings ->
  json_loads (tc_arguments tc) = Raise e ->
  forall w : World,
    call_tools (pre ++ tc :: post) w
    = (Raise e, snd (run (dispatched pre mappings) w)).
Proof.
  unfold decode_to, dispatched. intros Hpre Hbad.
  induction Hpre as [| tc0 arguments calls mappings Htc Hrest IH];
    intros w.
  - cbn [app call_tools map combine run snd]. now rewrite Hbad.
  - cbn [map combine app]. rewrite run_step. cbn [call_tools].
    rewrite Htc. cbn [execute_decoded].
    destruct (execute_function_returns (tc_name tc0) arguments w)
      as [reply ->].
    now rewrite IH.
Qed.

Lemma add_to_history_length (r : string) (c : option string)
  (h : list message) :
  (List.length (add_to_history r c h) <= 20)%nat.
Proof.
  unfold add_to_history, last_n. rewrite length_app. simpl.
  destruct (Nat.ltb_spec 20 (List.length h + 1)).
  - rewrite length_skipn, length_app. simpl. lia.
  - rewrite length_app. simpl. lia.
Qed.

Lemma process_message_history (m : string) (s : Session) :
  (exists c : option string,
      conversation_history (snd (process_message m s))
      = add_to_history "assistant" c
          (add_to_history "user" (Some m) (conversation_history s)))
  \/ conversation_history (snd (process_message m s))
     = add_to_history "user" (Some m) (conversation_history s).
Proof.
  unfold process_message. cbv zeta.
  destruct (chat_completions_create _ (Some get_available_functions))
    as [first | e]; [| now right].
  destruct (am_tool_calls first) as [| tc rest].
  - left. eexists. reflexivity.
  - destruct (call_tools (tc :: rest) (world s)) as [[results | e] w'];
      [| now right].
    destruct (chat_completions_create _ None) as [second | e];
      [| now right].
    left. eexists. reflexivity.
Qed.

(** X16.  However long a conversation gets, the history never holds more
    than 20 messages.  After a message, the history is the earlier one with
    the user's message added and then, unless the processing failed, the
    reply of the model: a failure leaves the user's message in the history
    without an answer to it. *)
Theorem conversation_history_is_bounded :
  (forall (user_messages : list string) (fs : Py.dict string),
      (List.length
         (conversation_history (snd (converse user_messages (new_session fs))))
       <= 20)%nat)
  /\ (forall (m : string) (s : Session),
        (exists c : option string,
            conversation_history (snd (process_message m s))
            = add_to_history "assistant" c
                (add_to_history "user" (Some m) (conversation_history s)))
        \/ (conversation_history (snd (process_message m s))
            = add_to_history "user" (Some m) (conversation_history s)
            /\ exists text : string,
                 fst (process_message m s)
                 = Some ("❌ Error processing message: " ++ text))).
Proof.
  split.
  - intros user_messages fs.
    assert (H : forall s : Session,
               (List.length (conversation_history s) <= 20)%nat ->
               (List.length
                  (conversation_history (snd (converse user_messages s)))
                <= 20)%nat).
    { induction user_messages as [| m rest IH]; intros s Hs; simpl.
      - exact Hs.
      - assert (Hstep : (List.length
                           (conversation_history (snd (process_message m s)))
                         <= 20)%nat).
        { destruct (process_message_history m s) as [[c ->] | ->];
            apply add_to_history_length. }
        destruct (process_message m s) as [reply s']. simpl in Hstep.
        specialize (IH s' Hstep).
        destruct (converse rest s') as [replies s'']. exact IH. }
    apply H. simpl. lia.
  - intros m s. unfold process_message. cbv zeta.
    destruct (chat_completions_create _ (Some get_available_functions))
      as [first | e]; [| right; split; [reflexivity | eexists; reflexivity]].
    destruct (am_tool_calls first) as [| tc rest].
    + left. eexists. reflexivity.
    + destruct (call_tools (tc :: rest) (world s)) as [[results | e] w'];
        [| right; split; [reflexivity | eexists; reflexivity]].
      destruct (chat_completions_create _ None) as [second | e];
        [| right; split; [reflexivity | eexists; reflexivity]].
      left. eexists. reflexivity.
Qed.

(** X17.  When the model answers the first request and the arguments of
    its tool calls decode to mappings, the document and the files after
    the message are those the dispatcher leaves after these calls, in the
    order the model gave them; this holds whether the second request to
    the model succeeds or not.  Without tool calls nothing changes. *)
Theorem process_message_runs_the_tool_calls :
  forall (m : string) (s : Session) (first : assistant_message)
         (mappings : list (Py.dict Py.pyval)),
    chat_completions_create (request_messages m s)
      (Some get_available_functions) = Return first ->
    decode_to (am_tool_calls first) mappings ->
    world (snd (process_message m s))
    = snd (run (dispatched (am_tool_calls first) mappings) (world s)).
Proof.
  intros m s first mappings Hfirst Hdecode.
  unfold process_message. cbv zeta. unfold request_messages in Hfirst.
  rewrite Hfirst.
  destruct (call_tools_all Hdecode (world s)) as [results Hcalls].
  destruct (am_tool_calls first) as [| tc rest] eqn:E.
  - inversion Hdecode; subst. reflexivity.
  - rewrite Hcalls.
    destruct (chat_completions_create _ None) as [second | e]; reflexivity.
Qed.

(** X18.  How [process_message] fails, and what stays.  When the first
    request to the model raises, the reply is the error text, the document
    is untouched, and the history has the user's message.  When the
    arguments of a tool call cannot be decoded, the calls before it have
    been executed and keep their effect, the calls after it are not
    executed, and the reply is the error text. *)
Theorem process_message_failures :
  forall (m : string) (s : Session),
    (forall e : exn,
        chat_completions_create (request_messages m s)
          (Some get_available_functions) = Raise e ->
        process_message m s
        = (Some ("❌ Error processing message: " ++ str_exn e),
           {| world := world s;
              conversation_history :=
                add_to_history "user" (Some m) (conversation_history s) |}))
    /\ (forall (first : assistant_message) (pre post : list tool_call)
               (tc : tool_call) (mappings : list (Py.dict Py.pyval))
               (e : exn),
          chat_completions_create (request_messages m s)
            (Some get_available_functions) = Return first ->
          am_tool_calls first = (pre ++ tc :: post)%list ->
          decode_to pre mappings ->
          json_loads (tc_arguments tc) = Raise e ->
          process_message m s
          = (Some ("❌ Error processing message: " ++ str_exn e),
             {| world := snd (run (dispatched pre mappings) (world s));
                conversation_history :=
                  add_to_history "user" (Some m) (conversation_history s) |})).
Proof.
  intros m s. split.
  - intros e Hfirst. unfold process_message. cbv zeta.
    unfold request_messages in Hfirst. now rewrite Hfirst.
  - intros first pre post tc mappings e Hfirst Hcalls Hpre Hbad.
    unfold process_message. cbv zeta.
    unfold request_messages in Hfirst. rewrite Hfirst, Hcalls.
    rewrite (@call_tools_stops pre post tc mappings e Hpre Hbad (world s)).
    destruct pre; reflexivity.
Qed.

End Loop.

(* ================================================================== *)
(** * The model at work *)

Import Host.

(** [int()] of ASCII literals, of a literal followed by a unit separator
    (no blank for [int()]), and of two Arabic-Indic digits followed by a
    no-break space. *)
Example int_of_str_examples :
  map Py.int_of_str [ "  12_3 "; "-7"; "+0012" ]
  = [ Return 123; Return (-7); Return 12 ]
  /\ Py.int_of_str "abc"
     = Raise (ValueError "invalid literal for int() with base 10: 'abc'")
  /\ Py.int_of_str "1__2"
     = Raise (ValueError "invalid literal for int() with base 10: '1__2'")
  /\ Py.int_of_str ""
     = Raise (ValueError "invalid literal for int() with base 10: ''")
  /\ Py.repr ("it's" ++ String "010" "") = String "034" "it's\n" ++ String "034" ""
  /\ Py.int (Py.VJson "[1]")
     = Raise (TypeError "int() argument must be a string, a bytes-like object or a real number, not 'list'")
  /\ Py.int_of_ascii (String "1" (String "2" (String "031" ""))) = None
  /\ Py.int_of_ascii (String "009" (String "1" (String "2" (String "010" ""))))
     = Some 12
  /\ Py.int_of_str
       (String "217" (String "161" (String "217" (String "162"
          (String "194" (String "160" "")))))) = Return 12.
Proof. repeat split. Qed.

Example to_boolean_examples :
  map to_boolean
    [ Py.VBool true; Py.VBool false; Py.VStr "TRUE"; Py.VStr "Yes";
      Py.VStr "t"; Py.VInt 1; Py.VStr "false"; Py.VStr "garbage";
      Py.VInt 0; Py.VNone; Py.VStr " true" ]
  = [ true; false; true; true; true; true; false; false; false; false;
      false ].
Proof. reflexivity. Qed.

(** The scenario of the specification, then a load into a fresh agent. *)
Example scenario_replies :
  fst (run Demo.scenario Demo.fresh)
  = [ Return "✅ Created AAS 'motor' with ID: https://ex/aas/motor";
      Return "✅ Added submodel 'TechData' to AAS";
      Return "✅ Added property 'Temperature' (float) to submodel 'TechData' with value 25.5";
      Return "📌 Temperature = 25.5 (Float)";
      Return "✅ Updated 'Temperature': 25.5 → 30.0";
      Return "✅ Saved AAS to 'motor.json' (1 submodels)" ]
  /\ fst (load_aas "motor.json"
            {| self := init;
               files := files (snd (run Demo.scenario Demo.fresh)) |})
     = Return "✅ Loaded 'motor' from 'motor.json' (1 submodels, 1 elements)"
  /\ self (snd (load_aas "motor.json"
                  {| self := init;
                     files := files (snd (run Demo.scenario Demo.fresh)) |}))
     = self (snd (run Demo.scenario Demo.fresh)).
Proof. split; [reflexivity | split; reflexivity]. Qed.

(** What [open] makes of a name, in the working directory of the host. *)
Example names_of_files :
  locate Writing "./motor.json" [] = Return "motor.json"
  /\ locate Reading "motor.json" [] = Return "motor.json"
  /\ locate Writing "archive/motor.json" []
     = Raise (FileNotFoundError
                "[Errno 2] No such file or directory: 'archive/motor.json'")
  /\ locate Reading "." [] = Raise (OSError "[Errno 21] Is a directory: '.'")
  /\ universal_newlines
       (utf_8_sig (byte_order_mark ++ "a" ++ String "013" (String "010" "b")))
     = "a" ++ String "010" "b".
Proof. repeat split. Qed.

(* ================================================================== *)
(** * The theorems at the document of [Demo] *)

Ltac distinct_strings :=
  repeat constructor; simpl; intuition discriminate.

Lemma demo_keyed :
  keyed_by sm_id (submodels Demo.document)
  /\ keyed_by cd_id (concept_descriptions Demo.document)
  /\ distinct_ids Demo.motor Demo.document.
Proof.
  unfold keyed_by, distinct_ids.
  repeat split; try distinct_strings; repeat constructor.
Defined.



Lemma update_property_coerces_by_declared_type_witness :
  update_property "TechData" "Count" (Py.VStr "abc") Demo.world
  = (Return "❌ Error updating property: invalid literal for int() with base 10: 'abc'",
     Demo.world)
  /\ get_property_value "TechData" "Count"
       (snd (update_property "TechData" "Count" (Py.VStr "abc") Demo.world))
     = (Return "📌 Count = 42 (Int)", Demo.world).
Proof.
  destruct (@update_property_coerces_by_declared_type _ _ Demo.world
              "TechData" "Count" (Py.VStr "abc") Demo.tech Demo.count
              eq_refl eq_refl) as [Hfail _].
  destruct (Hfail (ValueError "invalid literal for int() with base 10: 'abc'")
              eq_refl) as (H1 & H2 & _).
  split; [exact H1 | exact H2].
Defined.

Lemma create_aas_replaces_shell_only_witness :
  create_aas "https://ex/aas/pump" "pump" "https://ex/assets/pump7" Demo.world
  = (Return "✅ Created AAS 'pump' with ID: https://ex/aas/pump",
     {| self :=
          {| aas :=
               Some {| aas_id := "https://ex/aas/pump";
                       aas_id_short := "pump";
                       asset_information :=
                         {| asset_kind := INSTANCE;
                            global_asset_id := "https://ex/assets/pump7" |};
                       submodel := [] |};
             submodels := submodels Demo.document;
             concept_descriptions := concept_descriptions Demo.document |};
        files := [] |}).
Proof.
  apply (@create_aas_replaces_shell_only _ _ Demo.world); reflexivity.
Defined.

Lemma add_submodel_requires_shell_witness :
  add_submodel "https://ex/sm/tech" "TechData" Demo.fresh
  = (Return "❌ No AAS exists. Please create an AAS first.", Demo.fresh).
Proof.
  apply (@add_submodel_requires_shell _ _ Demo.fresh). reflexivity.
Defined.

Lemma add_submodel_overwrites_by_id_witness :
  exists w' : World,
    add_submodel "https://ex/sm/tech" "Technical" Demo.world
    = (Return "✅ Added submodel 'Technical' to AAS", w')
    /\ submodels (self w')
       = [ ("https://ex/sm/docs", Demo.docs);
           ("https://ex/sm/tech",
            {| sm_id := "https://ex/sm/tech"; sm_id_short := "Technical";
               submodel_element := [] |});
           ("https://ex/sm/spare", Demo.spare) ]
    /\ Py.keys (submodels (self w')) = Py.keys (submodels Demo.document)
    /\ Py.dict_get "https://ex/sm/tech" (submodels (self w'))
       = Some {| sm_id := "https://ex/sm/tech"; sm_id_short := "Technical";
                 submodel_element := [] |}
    /\ filter (has_id "https://ex/sm/tech") (Py.values (submodels (self w')))
       = [ {| sm_id := "https://ex/sm/tech"; sm_id_short := "Technical";
              submodel_element := [] |} ].
Proof.
  apply (@add_submodel_overwrites_by_id _ _ Demo.world Demo.motor
           "https://ex/sm/tech" "Technical" Demo.tech);
    try reflexivity.
  exact (proj1 demo_keyed).
Defined.

Lemma add_property_invalid_type_witness :
  add_property "TechData" "Speed" "text" (Py.VStr "fast") None Demo.world
  = (Return "❌ Invalid value type: text", Demo.world)
  /\ find_submodel "TechData"
       (submodels
          (self (snd (add_property "TechData" "Speed" "text"
                        (Py.VStr "fast") None Demo.world))))
     = Some Demo.tech.
Proof.
  apply (@add_property_invalid_type _ _ Demo.world "TechData" "Speed" "text"
           (Py.VStr "fast") None Demo.tech).
  - reflexivity.
  - simpl. intuition discriminate.
Defined.

(** Two submodels of the demo document are named "TechData": the first
    holds a temperature and a count, the second is empty.  The calls that
    name "TechData" read and change the first, whose count, new property
    and semantic id show below; the second stays empty. *)
Lemma lookup_by_short_name_takes_first_witness :
  get_property_value "TechData" "Count" Demo.world
  = (Return "📌 Count = 42 (Int)", Demo.world)
  /\ update_property "TechData" "Count" (Py.VStr "7") Demo.world
     = (Return "✅ Updated 'Count': 42 → 7",
        with_submodels Demo.world
          [ ("https://ex/sm/docs", Demo.docs);
            ("https://ex/sm/tech",
             with_elements Demo.tech
               [ IsProperty Demo.temperature;
                 IsProperty (with_value Demo.count (Some (Py.VInt 7))) ]);
            ("https://ex/sm/spare", Demo.spare) ])
  /\ submodels
       (self (snd (add_property "TechData" "Speed" "int" (Py.VStr "90") None
                     Demo.world)))
     = [ ("https://ex/sm/docs", Demo.docs);
         ("https://ex/sm/tech",
          with_elements Demo.tech
            [ IsProperty Demo.temperature; IsProperty Demo.count;
              IsProperty {| id_short := "Speed"; value_type := datatypes.Int;
                            value := Some (Py.VInt 90);
                            semantic_id := None |} ]);
         ("https://ex/sm/spare", Demo.spare) ]
  /\ submodels
       (self (snd (update_semantic_id "TechData" "Count" "urn:c2"
                     Demo.world)))
     = [ ("https://ex/sm/docs", Demo.docs);
         ("https://ex/sm/tech",
          with_elements Demo.tech
            [ IsProperty Demo.temperature;
              IsProperty (with_semantic_id Demo.count (Some "urn:c2")) ]);
         ("https://ex/sm/spare", Demo.spare) ].
Proof.
  assert (Hpre : none_named "TechData" [("https://ex/sm/docs", Demo.docs)])
    by (constructor; [simpl; discriminate | constructor]).
  destruct (@lookup_by_short_name_takes_first decimal sdk Demo.world
              "TechData" "https://ex/sm/tech" Demo.tech
              [("https://ex/sm/docs", Demo.docs)]
              [("https://ex/sm/spare", Demo.spare)] Hpre eq_refl)
    as (Hread & Hupdate & Hadd & Hsemantic & _).
  split; [| split; [| split]].
  - exact (Hread "Count").
  - exact (Hupdate "Count" Demo.count (Py.VStr "7") (Some (Py.VInt 7))
             eq_refl eq_refl).
  - exact (f_equal (fun w => submodels (self w))
             (Hadd "Speed" "int" (Py.VStr "90") datatypes.Int
                (Some (Py.VInt 90)) eq_refl eq_refl eq_refl eq_refl eq_refl)).
  - exact (f_equal (fun w => submodels (self w))
             (Hsemantic "Count" "urn:c2" Demo.count eq_refl eq_refl)).
Defined.

Lemma shell_kind_stays_instance_witness :
  kind_is_instance (aas (self (snd (run Demo.scenario Demo.fresh)))).
Proof.
  refine (proj1 (@shell_kind_stays_instance _ _ _ Demo.scenario Demo.fresh
                   I _)).
  repeat constructor; simpl; discriminate.
Defined.

(** The type table is consulted with the lower-cased tag. *)
Example type_tags :
  fst (add_property "TechData" "Speed" "INT" (Py.VStr "7") None Demo.world)
  = Return "✅ Added property 'Speed' (INT) to submodel 'TechData' with value 7"
  /\ fst (add_property "TechData" "Speed" "integer" (Py.VStr "7") None
            Demo.world)
     = Return "❌ Invalid value type: integer".
Proof. split; reflexivity. Qed.

(** An exception at the call is caught by the dispatcher, one in the
    handler by the handler. *)
Example dispatcher_catches :
  fst (execute_function "get_tree_view" [("depth", Py.VInt 2)] Demo.world)
  = Return "❌ Error executing get_tree_view: got an unexpected keyword argument 'depth'"
  /\ fst (execute_function "add_submodel" [] Demo.world)
     = Return "❌ Error executing add_submodel: missing 1 required positional argument: 'submodel_id'"
  /\ fst (execute_function "create_aas"
            [ Demo.str_arg "aas_id" "https://ex/aas/x";
              Demo.str_arg "id_short" "9 lives";
              Demo.str_arg "global_asset_id" "https://ex/assets/x" ]
            Demo.world)
     = Return "❌ Error creating AAS: id_short violates constraint AASd-002"
  /\ fst (execute_function "delete_everything" [] Demo.world)
     = Return "❌ Unknown function: delete_everything".
Proof. repeat split. Qed.

(* ================================================================== *)
(** * The further theorems at the document of [Demo] *)

Import Scripted.

(** The scenario of the specification keeps the demo document keyed by
    id. *)
Lemma reachable_documents_are_keyed_witness :
  keyed Demo.world /\ keyed (snd (run Demo.scenario Demo.world)).
Proof.
  assert (H : keyed Demo.world)
    by (destruct demo_keyed as (Hsm & Hcd & _); split; assumption).
  split; [exact H |].
  apply (@reachable_documents_are_keyed _ _ _ Demo.scenario Demo.world H).
Defined.

(** From the empty agent the scenario builds a shell whose one reference
    is the id of the stored submodel. *)
Lemma shell_references_resolve_witness :
  references_resolve Demo.fresh
  /\ Forall (fun call => fst call <> "load_aas") Demo.scenario
  /\ references_resolve (snd (run Demo.scenario Demo.fresh))
  /\ option_map submodel (aas (self (snd (run Demo.scenario Demo.fresh))))
     = Some ["https://ex/sm/tech"]
  /\ Py.keys (submodels (self (snd (run Demo.scenario Demo.fresh))))
     = ["https://ex/sm/tech"].
Proof.
  assert (Hcalls : Forall (fun call : string * Py.dict Py.pyval =>
                             fst call <> "load_aas") Demo.scenario)
    by (repeat constructor; simpl; discriminate).
  split; [exact I |].
  split; [exact Hcalls |].
  split; [| split; reflexivity].
  apply (@shell_references_resolve _ _ _ Demo.scenario Demo.fresh I Hcalls).
Defined.

(** A saving to "./motor" on the desk: the name denotes the file
    "motor.json", which is replaced; the other two files are as before. *)
Lemma save_aas_touches_one_file_witness :
  locate Writing (effective_name "./motor") (files Demo.desk)
  = Return "motor.json"
  /\ self (snd (save_aas "./motor" Demo.desk)) = Demo.document
  /\ Py.dict_get "notes.txt" (files (snd (save_aas "./motor" Demo.desk)))
     = Some "to do"
  /\ Py.dict_get "scrap.json" (files (snd (save_aas "./motor" Demo.desk)))
     = Some "(("
  /\ Py.dict_get "motor.json" (files (snd (save_aas "./motor" Demo.desk)))
     = Some (fst (write_aas_json_file
                    (document_store Demo.motor Demo.document))).
Proof.
  destruct (@save_aas_touches_one_file decimal sdk disk "./motor" Demo.desk)
    as (Hself & _ & Hothers).
  split; [reflexivity |].
  split; [exact Hself |].
  split; [| split].
  - exact (Hothers "motor.json" eq_refl "notes.txt"
             ltac:(discriminate)).
  - exact (Hothers "motor.json" eq_refl "scrap.json"
             ltac:(discriminate)).
  - reflexivity.
Defined.

(** Saving without a shell; saving a document whose submodel is stored
    under the id of the shell; saving to a directory that is not there:
    nothing is written. *)
Lemma save_aas_failures_witness :
  save_aas "motor.json" Demo.fresh = (Return "❌ No AAS to save", Demo.fresh)
  /\ save_aas "motor.json"
       (with_submodels Demo.desk
          [ ("https://ex/aas/motor",
             {| sm_id := "https://ex/aas/motor"; sm_id_short := "Shadow";
                submodel_element := [] |}) ])
     = (Return ("❌ Error saving: 'Identifiable object with same id "
                ++ "https://ex/aas/motor is already stored in this store'"),
        with_submodels Demo.desk
          [ ("https://ex/aas/motor",
             {| sm_id := "https://ex/aas/motor"; sm_id_short := "Shadow";
                submodel_element := [] |}) ])
  /\ save_aas "archive/motor.json" Demo.desk
     = (Return ("❌ Error saving: [Errno 2] No such file or directory: "
                ++ "'archive/motor.json'"), Demo.desk).
Proof.
  split; [| split].
  - exact (proj1 (@save_aas_failures decimal sdk disk "motor.json"
                    Demo.fresh) eq_refl).
  - exact (proj1 (proj2 (@save_aas_failures decimal sdk disk "motor.json"
                           (with_submodels Demo.desk
                              [ ("https://ex/aas/motor",
                                 {| sm_id := "https://ex/aas/motor";
                                    sm_id_short := "Shadow";
                                    submodel_element := [] |}) ])))
             Demo.motor
             (KeyError ("'Identifiable object with same id "
                        ++ "https://ex/aas/motor"
                        ++ " is already stored in this store'"))
             eq_refl eq_refl).
  - exact (proj2 (proj2 (@save_aas_failures decimal sdk disk
                           "archive/motor.json" Demo.desk))
             Demo.motor (document_store Demo.motor Demo.document)
             (FileNotFoundError
                ("[Errno 2] No such file or directory: "
                 ++ "'archive/motor.json'"))
             eq_refl eq_refl eq_refl).
Defined.

(** The demo document saved to a disk that is full after sixteen bytes: the
    older "motor.json" is gone, the file holds the sixteen bytes. *)
Lemma save_aas_interrupted_witness :
  Py.dict_get "motor.json" (files Demo.desk) = Some "an older text"
  /\ fst (@save_aas decimal cramped disk "motor.json" Demo.desk)
     = Return "❌ Error saving: [Errno 28] No space left on device"
  /\ self (snd (@save_aas decimal cramped disk "motor.json" Demo.desk))
     = Demo.document
  /\ option_map String.length
       (Py.dict_get "motor.json"
          (files (snd (@save_aas decimal cramped disk "motor.json"
                         Demo.desk))))
     = Some 16%nat
  /\ Py.dict_get "notes.txt"
       (files (snd (@save_aas decimal cramped disk "motor.json" Demo.desk)))
     = Some "to do".
Proof.
  destruct (@save_aas_interrupted decimal cramped disk "motor.json"
              "motor.json" Demo.desk Demo.motor
              (document_store Demo.motor Demo.document)
              (OSError "[Errno 28] No space left on device")
              eq_refl eq_refl eq_refl eq_refl)
    as (Hreply & Hself & Hfile & Hothers).
  split; [reflexivity |].
  split; [exact Hreply |].
  split; [exact Hself |].
  split.
  - rewrite Hfile. reflexivity.
  - exact (Hothers "notes.txt" ltac:(discriminate)).
Defined.

(** Loading on the desk a name that is no file, a name in a directory that
    is not there, a name that is a directory, and a file that is no
    document: the demo document stays. *)
Lemma load_aas_failure_changes_nothing_witness :
  load_aas "motor" Demo.desk
  = (Return "❌ File 'motor' not found", Demo.desk)
  /\ load_aas "archive/motor.json" Demo.desk
     = (Return "❌ File 'archive/motor.json' not found", Demo.desk)
  /\ load_aas "." Demo.desk
     = (Return "❌ Error loading: [Errno 21] Is a directory: '.'", Demo.desk)
  /\ load_aas "scrap.json" Demo.desk
     = (Return "❌ Error loading: malformed file", Demo.desk).
Proof.
  split; [| split; [| split]].
  - exact (proj1 (proj2 (@load_aas_failure_changes_nothing decimal sdk disk
                           "motor" Demo.desk))
             "motor" eq_refl eq_refl).
  - exact (proj1 (@load_aas_failure_changes_nothing decimal sdk disk
                    "archive/motor.json" Demo.desk)
             (FileNotFoundError
                ("[Errno 2] No such file or directory: "
                 ++ "'archive/motor.json'"))
             eq_refl).
  - exact (proj1 (@load_aas_failure_changes_nothing decimal sdk disk
                    "." Demo.desk)
             (OSError "[Errno 21] Is a directory: '.'") eq_refl).
  - exact (proj2 (proj2 (@load_aas_failure_changes_nothing decimal sdk disk
                           "scrap.json" Demo.desk))
             "((" (ValueError "malformed file") eq_refl eq_refl).
Defined.

(** Loading the saved demo document into an agent that holds the document
    of a pump: nothing of the pump is left. *)
Lemma load_aas_replaces_document_witness :
  exists (text : string) (store : DictObjectStore),
    open_read "motor.json" (files Demo.sketch_beside_saved) = Return text
    /\ read_aas_json_file text = Return store
    /\ loaded_document store = Demo.document
    /\ self Demo.sketch_beside_saved = Demo.sketch
    /\ snd (load_aas "motor.json" Demo.sketch_beside_saved)
       = {| self := loaded_document store;
            files := files Demo.sketch_beside_saved |}
    /\ keyed (snd (load_aas "motor.json" Demo.sketch_beside_saved)).
Proof.
  eexists. eexists.
  split; [reflexivity |].
  split; [reflexivity |].
  split; [reflexivity |].
  split; [reflexivity |].
  refine (let H := @load_aas_replaces_document decimal sdk disk "motor.json"
                     _ _ Demo.sketch_beside_saved _ _ in
          conj (proj1 H) (proj1 (proj2 H)));
    reflexivity.
Defined.

(** A property added to the first "TechData", which holds two already, is
    read back. *)
Lemma add_property_then_get_witness :
  exists (reply : string) (w' : World),
    add_property "TechData" "Speed" "int" (Py.VStr "90") (Some "urn:c3")
      Demo.world
    = (Return reply, w')
    /\ find_submodel "TechData" (submodels (self w'))
       = Some (with_elements Demo.tech
                 [ IsProperty Demo.temperature; IsProperty Demo.count;
                   IsProperty {| id_short := "Speed";
                                 value_type := datatypes.Int;
                                 value := Some (Py.VInt 90);
                                 semantic_id := Some "urn:c3" |} ])
    /\ get_property_value "TechData" "Speed" w'
       = (Return "📌 Speed = 90 (Int)", w').
Proof.
  destruct (@add_property_then_get decimal sdk Demo.world "TechData" "Speed"
              "int" (Py.VStr "90") (Some "urn:c3") Demo.tech datatypes.Int
              (Some (Py.VInt 90)) eq_refl eq_refl eq_refl eq_refl eq_refl
              eq_refl eq_refl)
    as (reply & w' & Hadd & Hfind & Hget).
  exists reply, w'.
  split; [exact Hadd | split; [exact Hfind | exact Hget]].
Defined.

(** The temperature, the first of the two properties of "TechData", gets a
    semantic id: it is the second afterwards, and both read as before. *)
Lemma update_semantic_id_moves_property_last_witness :
  map elem_id_short (submodel_element Demo.tech) = ["Temperature"; "Count"]
  /\ exists w' : World,
       update_semantic_id "TechData" "Temperature" "urn:c9" Demo.world
       = (Return ("✅ Updated semantic ID for 'Temperature'" ++ nl
                  ++ "   Semantic ID: urn:c9"), w')
       /\ find_submodel "TechData" (submodels (self w'))
          = Some (with_elements Demo.tech
                    [ IsProperty Demo.count;
                      IsProperty
                        (with_semantic_id Demo.temperature
                           (Some "urn:c9")) ])
       /\ fst (get_property_value "TechData" "Temperature" w')
          = Return "📌 Temperature = 25.5 (Float)"
       /\ fst (get_property_value "TechData" "Count" w')
          = Return "📌 Count = 42 (Int)".
Proof.
  split; [reflexivity |].
  assert (Hnames : NoDup (map elem_id_short (submodel_element Demo.tech)))
    by distinct_strings.
  destruct (proj1 (@update_semantic_id_moves_property_last decimal sdk
                     Demo.world "TechData" "Temperature" "urn:c9" Demo.tech
                     Demo.temperature eq_refl eq_refl Hnames) eq_refl)
    as (w' & Hreply & Hfind & Hread).
  exists w'.
  split; [exact Hreply |].
  split; [exact Hfind |].
  split; [exact (Hread "Temperature") | exact (Hread "Count")].
Defined.

(** A concept added to the demo document is found under its id. *)
Lemma add_concept_description_stores_by_id_witness :
  Py.dict_get "urn:c3"
    (concept_descriptions
       (self (snd (add_concept_description "urn:c3" "Speed" (Some "Speed")
                     None Demo.world))))
  = Some {| cd_id := "urn:c3"; cd_id_short := "Speed";
            display_name := Some "Speed"; description := None |}
  /\ Py.keys
       (concept_descriptions
          (self (snd (add_concept_description "urn:c3" "Speed"
                        (Some "Speed") None Demo.world))))
     = ["urn:c2"; "urn:c1"; "urn:c3"].
Proof.
  destruct (@add_concept_description_stores_by_id decimal sdk Demo.world
              "urn:c3" "Speed" (Some "Speed") None eq_refl eq_refl I)
    as (reply & _ & Hget).
  split; [exact Hget | reflexivity].
Defined.

(** The state after a pump is created over the demo document: the shell is
    the pump, and the three submodels of the motor are still listed. *)
Lemma create_aas_then_state_witness :
  fst (get_current_state
         (snd (create_aas "https://ex/aas/pump" "pump"
                 "https://ex/assets/pump7" Demo.world)))
  = Return ("Current AAS: pump (https://ex/aas/pump)" ++ nl
            ++ "Asset ID: https://ex/assets/pump7" ++ nl
            ++ "Number of Submodels: 3" ++ nl
            ++ nl ++ "Submodels:" ++ nl
            ++ "  - Documents: 0 elements" ++ nl
            ++ "  - TechData: 2 elements" ++ nl
            ++ "    • Temperature (Float): 25.5" ++ nl
            ++ "    • Count (Int): 42" ++ nl
            ++ "  - TechData: 0 elements" ++ nl).
Proof.
  exact (@create_aas_then_state decimal sdk Demo.world "https://ex/aas/pump"
           "pump" "https://ex/assets/pump7" eq_refl eq_refl).
Defined.

(** The second entry of the catalog, called with the arguments its schema
    asks for, is [add_submodel] with the id and the short name; the ninth,
    which takes no argument, is [get_current_state]. *)
Lemma catalog_calls_reach_the_handler_witness :
  (exists d : function_descriptor,
      nth_error get_available_functions 1 = Some d
      /\ fd_name d = "add_submodel"
      /\ conforms d (as_mapping submodel_arguments)
      /\ execute_function "add_submodel" (as_mapping submodel_arguments)
           Demo.world
         = add_submodel "https://example.com/submodels/tech" "TechData"
             Demo.world)
  /\ (exists d : function_descriptor,
        nth_error get_available_functions 8 = Some d
        /\ fd_name d = "get_current_state"
        /\ conforms d []
        /\ execute_function "get_current_state" [] Demo.world
           = get_current_state Demo.world).
Proof.
  split.
  - eexists.
    split; [reflexivity |].
    split; [reflexivity |].
    match goal with
    | |- conforms ?d ?a /\ _ =>
        assert (Hin : In d get_available_functions)
          by (right; left; reflexivity);
        assert (Hfits : conforms d a)
    end.
    { split; [| split].
      - simpl. tauto.
      - simpl. tauto.
      - intros k v _ Hget. apply dict_get_In in Hget.
        destruct Hget as [[= <- <-] | [[= <- <-] | []]];
          eexists; reflexivity. }
    split; [exact Hfits |].
    destruct (@catalog_calls_reach_the_handler decimal sdk disk _ _
                Demo.world Hin Hfits)
      as (_ & _ & Hsubmodel & _).
    exact (Hsubmodel eq_refl).
  - eexists.
    split; [reflexivity |].
    split; [reflexivity |].
    match goal with
    | |- conforms ?d ?a /\ _ =>
        assert (Hin : In d get_available_functions)
          by (do 8 right; left; reflexivity);
        assert (Hfits : conforms d a)
    end.
    { split; [| split].
      - simpl. tauto.
      - simpl. tauto.
      - intros k v _ Hget. discriminate Hget. }
    split; [exact Hfits |].
    destruct (@catalog_calls_reach_the_handler decimal sdk disk _ _
                Demo.world Hin Hfits)
      as (_ & _ & _ & _ & _ & _ & _ & _ & _ & Hstate & _).
    exact (Hstate eq_refl).
Defined.

(** The same entry called without its required "submodel_id": the call
    fails in the dispatcher and the document is as it was. *)
Lemma misfit_calls_change_nothing_witness :
  exists d : function_descriptor,
    nth_error get_available_functions 1 = Some d
    /\ fd_name d = "add_submodel"
    /\ exists msg : string,
         execute_function "add_submodel"
           [Demo.str_arg "id_short" "TechData"] Demo.world
         = (Return ("❌ Error executing add_submodel: " ++ msg), Demo.world).
Proof.
  eexists.
  split; [reflexivity |].
  split; [reflexivity |].
  apply (@misfit_calls_change_nothing decimal sdk disk
           (nth 1 get_available_functions
              {| fd_name := ""; fd_description := "";
                 fd_properties := []; fd_required := [] |})
           [Demo.str_arg "id_short" "TechData"] Demo.world).
  - right; left; reflexivity.
  - right. exists "submodel_id". split; [left; reflexivity |].
    simpl. intros [H | []]. discriminate H.
Defined.

(** With the scripted model, one message makes the agent create the motor
    and add its submodel. *)
Lemma process_message_runs_the_tool_calls_witness :
  world (snd (process_message "Create a motor with technical data"
                (new_session [])))
  = snd (run [ ("create_aas", as_mapping create_arguments);
               ("add_submodel", as_mapping submodel_arguments) ]
           Demo.fresh)
  /\ option_map aas_id_short
       (aas (self (world (snd (process_message
                                 "Create a motor with technical data"
                                 (new_session []))))))
     = Some "motor"
  /\ Py.keys
       (submodels
          (self (world (snd (process_message
                               "Create a motor with technical data"
                               (new_session []))))))
     = ["https://example.com/submodels/tech"].
Proof.
  split; [| split; reflexivity].
  apply (@process_message_runs_the_tool_calls decimal sdk disk model
           "Create a motor with technical data" (new_session [])
           {| am_content := None; am_tool_calls := wanted |}
           [as_mapping create_arguments; as_mapping submodel_arguments]).
  - reflexivity.
  - repeat constructor.
Defined.

(** A model that cannot be reached, and one whose second call carries
    arguments that are no JSON: the user gets the error, the first call
    has taken effect, the second has not. *)
Lemma process_message_failures_witness :
  @process_message decimal sdk disk unreachable "Create a motor"
    (new_session [])
  = (Some "❌ Error processing message: Connection error.",
     {| world := Demo.fresh;
        conversation_history :=
          [{| role := "user"; content := Some "Create a motor" |}] |})
  /\ @process_message decimal sdk disk stumbling "Create a motor"
       (new_session [])
     = (Some ("❌ Error processing message: "
              ++ "Expecting value: line 1 column 1 (char 0)"),
        {| world :=
             snd (run [("create_aas", as_mapping create_arguments)]
                    Demo.fresh);
           conversation_history :=
             [{| role := "user"; content := Some "Create a motor" |}] |}).
Proof.
  split.
  - exact (proj1 (@process_message_failures decimal sdk disk unreachable
                    "Create a motor" (new_session []))
             (LibraryError "Connection error.") eq_refl).
  - apply (proj2 (@process_message_failures decimal sdk disk stumbling
                    "Create a motor" (new_session []))
             {| am_content := None; am_tool_calls := garbled |}
             [ {| tc_id := "call_1"; tc_name := "create_aas";
                  tc_arguments := json_object create_arguments |} ]
             []
             {| tc_id := "call_2"; tc_name := "add_submodel";
                tc_arguments := "{" |}
             [as_mapping create_arguments]
             (ValueError "Expecting value: line 1 column 1 (char 0)")).
    + reflexivity.
    + reflexivity.
    + repeat constructor.
    + reflexivity.
Defined.
